(** * go-genesis: host functions of the smart-contract engine

    A shallow embedding of [packages/smart/smart_p.go] and
    [packages/utils/tx/smart.go].  Go strings are byte strings and are
    modelled as [string]; [int64] values are integers in [Z] with the
    two's-complement wrap-around written out where the code does arithmetic;
    a run-time panic is an explicit outcome. *)

From Stdlib Require Import ZArith Lia Bool Ascii String List DecimalString.
From Stdlib Require DecimalPos DecimalZ.
From stdpp Require Import base option list strings gmap.

Local Open Scope Z_scope.

(** ** Go primitives *)

Module Go.

(** [int64] arithmetic: signed 64-bit with wrap-around. *)
Definition int64_min : Z := - 2 ^ 63.
Definition int64_max : Z := 2 ^ 63 - 1.

Definition is_int64 (z : Z) : Prop := int64_min <= z <= int64_max.

Definition wrap64 (z : Z) : Z := (z + 2 ^ 63) mod 2 ^ 64 - 2 ^ 63.

Definition add64 (a b : Z) : Z := wrap64 (a + b).

(** [len(s)] as an [int64]. *)
Definition len (s : string) : Z := Z.of_nat (String.length s).

(** Slice expressions on strings; [None] is the run-time panic
    "slice bounds out of range". *)
Definition slice_from (s : string) (lo : Z) : option string :=
  if (0 <=? lo) && (lo <=? len s)
  then Some (substring (Z.to_nat lo) (String.length s - Z.to_nat lo) s)
  else None.

Definition slice (s : string) (lo hi : Z) : option string :=
  if (0 <=? lo) && (lo <=? hi) && (hi <=? len s)
  then Some (substring (Z.to_nat lo) (Z.to_nat (hi - lo)) s)
  else None.

(** [strconv.FormatInt(i, 10)], also the rendering of the verb [%d]. *)
Definition FormatInt (i : Z) : string := NilZero.string_of_int (Z.to_int i).

(** [strings.Contains]. *)
Fixpoint Contains (s substr : string) : bool :=
  String.prefix substr s ||
  match s with
  | EmptyString => false
  | String _ rest => Contains rest substr
  end.

(** [strings.HasPrefix]. *)
Definition HasPrefix (s pre : string) : bool := String.prefix pre s.

(** [strings.Split(s, ",")] for a one-byte separator. *)
Fixpoint split_on (sep : ascii) (cur : string) (s : string) : list string :=
  match s with
  | EmptyString => [cur]
  | String c rest =>
      if Ascii.eqb c sep then cur :: split_on sep EmptyString rest
      else split_on sep (cur +:+ String c EmptyString) rest
  end.

Definition Split (s : string) (sep : ascii) : list string :=
  split_on sep EmptyString s.

(** [strings.Join]. *)
Definition Join (l : list string) (sep : string) : string := String.concat sep l.

(** *** [fmt.Sprintf] for the verbs the code uses *)

Inductive arg : Type :=
| AStr (s : string)
| AInt (i : Z).

(** [%v] of an operand; [%s] and [%d] agree with it on operands of their
    own kind. *)
Definition render (a : arg) : string :=
  match a with
  | AStr s => s
  | AInt i => FormatInt i
  end.

(** An operand under a verb of the other kind is reported by Go as
    [%!verb(type=value)]. *)
Definition bad_verb (v : ascii) (a : arg) : string :=
  match a with
  | AStr s => "%!" +:+ String v ("(string=" +:+ s +:+ ")")
  | AInt i => "%!" +:+ String v ("(int64=" +:+ FormatInt i +:+ ")")
  end.

Definition verb (v : ascii) (a : arg) : string :=
  match a with
  | AStr _ => if Ascii.eqb v "s" || Ascii.eqb v "v" then render a else bad_verb v a
  | AInt _ => if Ascii.eqb v "d" || Ascii.eqb v "v" then render a else bad_verb v a
  end.

Definition extra (args : list arg) : string :=
  match args with
  | [] => EmptyString
  | _ => "%!(EXTRA " +:+
         String.concat ", "
           (map (fun a => match a with
                          | AStr s => "string=" +:+ s
                          | AInt i => "int64=" +:+ FormatInt i
                          end) args) +:+ ")"
  end.

Fixpoint Sprintf (format : string) (args : list arg) : string :=
  match format with
  | EmptyString => extra args
  | String "%" (String "%" rest) => String "%" (Sprintf rest args)
  | String "%" (String v rest) =>
      match args with
      | a :: args' => verb v a +:+ Sprintf rest args'
      | [] => "%!" +:+ String v "(MISSING)" +:+ Sprintf rest []
      end
  | String "%" EmptyString => "%!(NOVERB)" +:+ extra args
  | String c rest => String c (Sprintf rest args)
  end.

(** *** [encoding/hex] *)

Definition fromHexChar (c : ascii) : option Z :=
  let n := Z.of_nat (nat_of_ascii c) in
  if (48 <=? n) && (n <=? 57) then Some (n - 48)
  else if (97 <=? n) && (n <=? 102) then Some (n - 97 + 10)
  else if (65 <=? n) && (n <=? 70) then Some (n - 65 + 10)
  else None.

Inductive hex_error : Type :=
| InvalidByteError (c : ascii)
| ErrLength.

(** [hex.DecodeString]: two digits per byte, an invalid digit is reported
    before an odd length. *)
Fixpoint DecodeString (s : string) : hex_error + list Z :=
  match s with
  | EmptyString => inr []
  | String a EmptyString =>
      match fromHexChar a with
      | None => inl (InvalidByteError a)
      | Some _ => inl ErrLength
      end
  | String a (String b rest) =>
      match fromHexChar a with
      | None => inl (InvalidByteError a)
      | Some x =>
          match fromHexChar b with
          | None => inl (InvalidByteError b)
          | Some y =>
              match DecodeString rest with
              | inl e => inl e
              | inr bytes => inr (Z.lor (Z.shiftl x 4) y :: bytes)
              end
          end
      end
  end.

(** [strconv.ParseInt(s, 10, 64)] with the error dropped: a syntax error
    yields 0, a range error the nearest bound. *)
Definition digit (c : ascii) : option Z :=
  let n := Z.of_nat (nat_of_ascii c) in
  if (48 <=? n) && (n <=? 57) then Some (n - 48) else None.

Fixpoint digits (acc : Z) (s : string) : option Z :=
  match s with
  | EmptyString => Some acc
  | String c rest =>
      match digit c with
      | Some d => digits (10 * acc + d) rest
      | None => None
      end
  end.

Definition ParseInt10 (s : string) : Z :=
  let '(neg, body) :=
    match s with
    | String "+" rest => (false, rest)
    | String "-" rest => (true, rest)
    | _ => (false, s)
    end in
  match body with
  | EmptyString => 0
  | _ =>
      match digits 0 body with
      | None => 0
      | Some n =>
          if neg then Z.max int64_min (- n) else Z.min int64_max n
      end
  end.

(** *** [unicode/utf8] *)

Definition byte (c : ascii) : Z := Z.of_nat (nat_of_ascii c).

Definition between (lo hi : Z) (c : ascii) : bool :=
  (lo <=? byte c) && (byte c <=? hi).

(** The bytes of U+FFFD, which Go writes for a byte sequence that is no
    rune. *)
Definition RuneError : string :=
  String (ascii_of_nat 239) (String (ascii_of_nat 191)
    (String (ascii_of_nat 189) EmptyString)).

(** [utf8.DecodeRuneInString] on a non-empty string: the bytes of the
    first rune and what follows them, or [None] where Go answers
    [(RuneError, 1)]. *)
Definition DecodeRune (s : string) : option (string * string) :=
  match s with
  | EmptyString => None
  | String c0 r0 =>
      let b0 := byte c0 in
      if b0 <? 128 then Some (String c0 EmptyString, r0)
      else if b0 <? 194 then None
      else if b0 <? 224 then
        match r0 with
        | String c1 r1 =>
            if between 128 191 c1
            then Some (String c0 (String c1 EmptyString), r1) else None
        | _ => None
        end
      else if b0 <? 240 then
        let lo := if b0 =? 224 then 160 else 128 in
        let hi := if b0 =? 237 then 159 else 191 in
        match r0 with
        | String c1 (String c2 r2) =>
            if between lo hi c1 && between 128 191 c2
            then Some (String c0 (String c1 (String c2 EmptyString)), r2) else None
        | _ => None
        end
      else if b0 <? 245 then
        let lo := if b0 =? 240 then 144 else 128 in
        let hi := if b0 =? 244 then 143 else 191 in
        match r0 with
        | String c1 (String c2 (String c3 r3)) =>
            if between lo hi c1 && between 128 191 c2 && between 128 191 c3
            then Some (String c0 (String c1 (String c2 (String c3 EmptyString))), r3)
            else None
        | _ => None
        end
      else None
  end.

(** *** [fmt.Sprintf(format)] without operands

    What [doPrintf] does when there is no operand to print: text is copied,
    [%%] is a percent sign, and every other directive is parsed (flags,
    argument index, width, precision, verb) only to be reported. *)

Definition is_flag (c : ascii) : bool :=
  Ascii.eqb c "#" || Ascii.eqb c "0" || Ascii.eqb c "+" || Ascii.eqb c "-"
  || Ascii.eqb c " ".

Fixpoint skip_flags (s : string) : string :=
  match s with
  | String c rest => if is_flag c then skip_flags rest else s
  | EmptyString => s
  end.

(** [parsenum]: the digits at the head of [s].  The answer is whether there
    was one and what follows them; a digit read when the number is already
    above a million gives up and skips to the end of the text scanned. *)
Fixpoint parsenum (num : Z) (isnum : bool) (s : string) : bool * option string :=
  match s with
  | EmptyString => (isnum, Some EmptyString)
  | String c rest =>
      match digit c with
      | Some d =>
          if num >? 1000000 then (false, None)
          else parsenum (10 * num + d) true rest
      | None => (isnum, Some s)
      end
  end.

(** The text up to the first [']'] and the text after it. *)
Fixpoint bracket (s : string) : option (string * string) :=
  match s with
  | EmptyString => None
  | String c rest =>
      if Ascii.eqb c "]" then Some (EmptyString, rest)
      else match bracket rest with
           | Some (inner, after) => Some (String c inner, after)
           | None => None
           end
  end.

(** [argNumber] with no operands: what follows the index, whether an index
    was read ([afterIndex]) and whether a bracket was seen, which makes the
    directive a bad one. *)
Definition argNumber (s : string) : string * bool * bool :=
  match s with
  | String "[" rest =>
      if Z.of_nat (String.length s) <? 3 then (rest, false, true)
      else
        match bracket rest with
        | Some (inner, after) =>
            match parsenum 0 false inner with
            | (true, Some EmptyString) => (after, true, true)
            | _ => (after, false, true)
            end
        | None => (rest, false, true)
        end
  | _ => (s, false, false)
  end.

(** One directive, from the character after the percent sign: what is
    written, what is left of the format, and whether the format ends
    here. *)
Definition directive (d : string) : string * string * bool :=
  let s1 := skip_flags d in
  let '(s2, after1, bad1) := argNumber s1 in
  let '(out_w, s3, after2, bad2) :=
    match s2 with
    | String "*" rest => ("%!(BADWIDTH)"%string, rest, false, false)
    | _ =>
        let '(isnum, rest) := parsenum 0 false s2 in
        (EmptyString, match rest with Some r => r | None => EmptyString end,
         after1, after1 && isnum)
    end in
  let '(out_p, s4, after3, bad3) :=
    match s3 with
    | String "." rest =>
        let '(r1, afterp, badp) := argNumber rest in
        match r1 with
        | String "*" r2 => ("%!(BADPREC)"%string, r2, false, after2 || badp)
        | _ =>
            let '(_, r2) := parsenum 0 false r1 in
            (EmptyString, match r2 with Some r => r | None => EmptyString end,
             afterp, after2 || badp)
        end
    | _ => (EmptyString, s3, after2, false)
    end in
  let '(s5, bad4) :=
    if after3 : bool then (s4, false)
    else let '(r, _, b) := argNumber s4 in (r, b) in
  let bad := bad1 || bad2 || bad3 || bad4 in
  match s5 with
  | EmptyString => (out_w +:+ out_p +:+ "%!(NOVERB)", EmptyString, true)
  | String c rest =>
      let '(verb, rest) :=
        if byte c <? 128 then (String c EmptyString, rest)
        else match DecodeRune s5 with
             | Some (v, r) => (v, r)
             | None => (RuneError, rest)
             end in
      if Ascii.eqb c "%" then (out_w +:+ out_p +:+ "%", rest, false)
      else if bad then (out_w +:+ out_p +:+ "%!" +:+ verb +:+ "(BADINDEX)", rest, false)
      else (out_w +:+ out_p +:+ "%!" +:+ verb +:+ "(MISSING)", rest, false)
  end.

(** The loop of [doPrintf]; [skip] counts the bytes the last directive
    has still to pass over. *)
Fixpoint Sprintf0_go (skip : nat) (format : string) : string :=
  match format with
  | EmptyString => EmptyString
  | String c rest =>
      match skip with
      | S n => Sprintf0_go n rest
      | O =>
          if Ascii.eqb c "%" then
            let '(out, remaining, ends) := directive rest in
            if ends : bool then out
            else out +:+ Sprintf0_go (String.length rest - String.length remaining) rest
          else String c (Sprintf0_go 0 rest)
      end
  end.

Definition Sprintf0 (format : string) : string := Sprintf0_go 0 format.

End Go.

(** ** Errors, log records and dynamic values *)

(** A Go [error].  [Errorf] is an error built in place with [fmt.Errorf];
    the next four are the package-level sentinel errors the code returns;
    [External] is an error handed back by a collaborator. *)
Inductive error : Type :=
| Errorf (msg : string)
| ErrInvalidValue
| errAccessDenied
| ErrFounderAccount
| errAccessRollbackContract
| External (msg : string).

(** The [consts] kinds attached to log records as the field ["type"]. *)
Inductive LogType : Type :=
| DBError | NotFound | EvalError | AccessDenied | InvalidObject
| JSONUnmarshallError | EmptyObject | IncorrectCallingContract
| CryptoError | ConversionError.

(** [log.WithFields(log.Fields{"type": t, ...}).Error(msg)]. *)
Record LogEntry : Type := { log_type : LogType; log_msg : string }.

(** The call context.  Only the fields the host functions of this file
    read or assign are kept; the transaction and VM handles are part of
    the world the host operates on. *)
Record SmartContract : Type := {
  VDE : bool;
  Rollback : bool;
  FullAccess : bool;
  SysUpdate : bool;
  TxContract_Name : string;
  TxSmart_EcosystemID : Z;
  PublicKeys : list (list Z);
}.

Definition set_Rollback (b : bool) (sc : SmartContract) : SmartContract :=
  {| VDE := VDE sc; Rollback := b; FullAccess := FullAccess sc;
     SysUpdate := SysUpdate sc; TxContract_Name := TxContract_Name sc;
     TxSmart_EcosystemID := TxSmart_EcosystemID sc;
     PublicKeys := PublicKeys sc |}.

Definition set_FullAccess (b : bool) (sc : SmartContract) : SmartContract :=
  {| VDE := VDE sc; Rollback := Rollback sc; FullAccess := b;
     SysUpdate := SysUpdate sc; TxContract_Name := TxContract_Name sc;
     TxSmart_EcosystemID := TxSmart_EcosystemID sc;
     PublicKeys := PublicKeys sc |}.

Definition set_SysUpdate (b : bool) (sc : SmartContract) : SmartContract :=
  {| VDE := VDE sc; Rollback := Rollback sc; FullAccess := FullAccess sc;
     SysUpdate := b; TxContract_Name := TxContract_Name sc;
     TxSmart_EcosystemID := TxSmart_EcosystemID sc;
     PublicKeys := PublicKeys sc |}.

(** [interface{}] values that flow through the host functions. *)
#[warnings="-register-all"]
Inductive Value : Type :=
| VNil
| VBool (b : bool)
| VInt (i : Z)
| VStr (s : string)
| VList (l : list Value)
| VMap (m : list (string * Value))
| VContext (sc : SmartContract).

(** The dynamic type of an [interface{}] value as the run time prints it;
    a missing map entry is the nil interface. *)
Definition dynamic_type (v : option Value) : string :=
  match v with
  | None | Some VNil => "nil"
  | Some (VBool _) => "bool"
  | Some (VInt _) => "int64"
  | Some (VStr _) => "string"
  | Some (VList _) => "[]interface {}"
  | Some (VMap _) => "map[string]interface {}"
  | Some (VContext _) => "*smart.SmartContract"
  end.

(** The text of the panic of a failed type assertion [v.(T)]. *)
Definition conversion_panic (v : option Value) (T : string) : string :=
  "interface conversion: interface {} is " +:+ dynamic_type v +:+ ", not " +:+ T.

(** [model.SystemParameter]: a row of [1_system_parameters]. *)
Record SystemParameter : Type := {
  par_ID : Z;
  par_Name : string;
  par_Value : string;
  par_Conditions : string;
}.

(** [SignRes] and [TxSignJSON]. *)
Record SignRes : Type := { Param : string; Text : string }.

Record TxSignJSON : Type := {
  sign_ForSign : string;
  sign_Field : string;
  sign_Title : string;
  sign_Params : list SignRes;
}.

(** ** Calls into the rest of the node

    Every function or method the file calls on the database, the VM, the
    system-parameter cache or the crypto layer is a call whose answer the
    host decides.  A Go result tuple [(v, err)] is answered as a pair with
    an optional error. *)
Inductive Call : Type -> Type :=
(* packages/model *)
| SystemParameter_Get (name : string) : Call (option SystemParameter * option error)
| StateParameter_Get (prefix name : string) : Call (bool * string * option error)
| Single_String (query : string) (args : list Value) : Call (string * option error)
| GetNextID (table : string) : Call (Z * option error)
| ExecSchemaEcosystem (id wallet : Z) (name : string) (founder : Z) : Call (option error)
(* packages/conf/syspar *)
| HasSys (key : string) : Call bool
| SysInt64 (key : string) : Call Z
| SysString (key : string) : Call string
| SysUpdate_ : Call (option error)
(* methods of SmartContract and functions of package smart outside this file *)
| EvalIf (sc : SmartContract) (cond : string) : Call (bool * option error)
| CompileEval (cond : string) (state : Z) : Call (option error)
| selectiveLoggingAndUpd (sc : SmartContract) (fields : list string)
    (values : list Value) (table : string) (whereFields whereValues : list string)
    (logRollback mustExist : bool) : Call (Z * string * option error)
| AccessTable (sc : SmartContract) (table action : string) : Call (option error)
| AccessColumns (sc : SmartContract) (table : string) (columns : list string)
    (update : bool) : Call (list string * option error)
| DBInsert (sc : SmartContract) (tblname params : string) (val : list Value)
    : Call (Z * Z * option error)
| DBUpdate (sc : SmartContract) (tblname : string) (id : Z) (params : string)
    (val : list Value) : Call (Z * option error)
| DBSelect (sc : SmartContract) (tblname columns : string) (id : Z) (order : string)
    (offset limit ecosystem : Z) (where_ : string) (params : list Value)
    : Call (Z * list Value * option error)
| SysRollback (sc : SmartContract) (data : string) : Call (option error)
| ActivateContract (tblid state : Z) (active : bool) : Call unit
| LoadContract (prefix : string) : Call (option error)
| VMGetContract (name : string) (state : Z) : Call (option (Z * string))
| VM_Children_len : Call Z
| VM_Children_truncate (id : Z) : Call unit
| VM_Objects_delete (name : string) : Call unit
(* packages/language, packages/utils *)
| UpdateLang (state appID : Z) (name trans : string) (vde : bool) : Call unit
| CheckSign (publicKeys : list (list Z)) (forSign : string) (signs : list Z)
    (nodeKeyOrLogin : bool) : Call (bool * option error).

(** What a run leaves behind for an observer: log records and the calls
    made, in order, with their arguments. *)
Inductive Event : Type :=
| EvLog (e : LogEntry)
| EvCall {X : Type} (c : Call X).

(** ** The monad of host functions *)

Inductive M (A : Type) : Type :=
| Ret (a : A)
| Panic (msg : string)
| Log (e : LogEntry) (k : M A)
| Do {X : Type} (c : Call X) (k : X -> M A).

Arguments Ret {A} a.
Arguments Panic {A} msg.
Arguments Log {A} e k.
Arguments Do {A X} c k.

Fixpoint bind {A B : Type} (m : M A) (f : A -> M B) : M B :=
  match m with
  | Ret a => f a
  | Panic msg => Panic msg
  | Log e k => Log e (bind k f)
  | Do c k => Do c (fun x => bind (k x) f)
  end.

(** *** Running a host function against a host *)

Inductive Outcome (A : Type) : Type :=
| Returned (a : A)
| Panicked (msg : string).

Arguments Returned {A} a.
Arguments Panicked {A} msg.

Record Run (W A : Type) : Type := {
  outcome : Outcome A;
  world : W;
  trace : list Event;
}.

Arguments outcome {W A} r.
Arguments world {W A} r.
Arguments trace {W A} r.

(** A host answers every call and moves the world. *)
Definition Host (W : Type) : Type := forall X : Type, Call X -> W -> X * W.

Definition seen {W A} (ev : Event) (r : Run W A) : Run W A :=
  {| outcome := outcome r; world := world r; trace := ev :: trace r |}.

Fixpoint run {W A : Type} (h : Host W) (m : M A) (w : W) : Run W A :=
  match m with
  | Ret a => {| outcome := Returned a; world := w; trace := [] |}
  | Panic msg => {| outcome := Panicked msg; world := w; trace := [] |}
  | Log e k => seen (EvLog e) (run h k w)
  | Do c k =>
      let r := h _ c w in
      seen (EvCall c) (run h (k r.1) r.2)
  end.

(** *** Function bodies with early [return]

    A body computes in [Fn R A]: [inl r] means the function has executed
    [return r], [inr a] that control goes on with [a]. *)
Definition Fn (R A : Type) : Type := M (R + A).

Definition fn_bind {R A B : Type} (m : Fn R A) (f : A -> Fn R B) : Fn R B :=
  bind m (fun x => match x with inl r => Ret (inl r) | inr a => f a end).

Definition return_ {R A : Type} (r : R) : Fn R A := Ret (inl r).
Definition pure {R A : Type} (a : A) : Fn R A := Ret (inr a).
Definition go {R X : Type} (c : Call X) : Fn R X := Do c (fun x => Ret (inr x)).
Definition panic {R A : Type} (msg : string) : Fn R A := Panic msg.
Definition logE {R : Type} (t : LogType) (msg : string) : Fn R unit :=
  Log {| log_type := t; log_msg := msg |} (Ret (inr tt)).

Definition body {R : Type} (m : Fn R R) : M R :=
  bind m (fun x => match x with inl r => Ret r | inr r => Ret r end).

Declare Scope fn_scope.
Delimit Scope fn_scope with fn.
Notation "'let*' x ':=' m 'in' k" := (fn_bind m (fun x => k))
  (at level 10, x name, m at level 100, k at level 200) : fn_scope.
Notation "'let*' ' pat ':=' m 'in' k" :=
  (fn_bind m (fun x => match x with pat => k end))
  (at level 10, pat pattern, m at level 100, k at level 200) : fn_scope.
Notation "m ;; k" := (fn_bind m (fun _ => k))
  (at level 100, right associativity) : fn_scope.

(** [if cond { stmts; return r }] *)
Definition when_ {R : Type} (cond : bool) (then_ : Fn R unit) : Fn R unit :=
  if cond then then_ else pure tt.

(** The double-quote byte, for string literals that contain it. *)
Definition dq : string := String (ascii_of_nat 34) EmptyString.

Definition str_in (s : string) (l : list string) : bool :=
  existsb (String.eqb s) l.

(** ** Pure collaborators

    Functions of other packages of the repository that the file calls and
    that compute without touching the world.  The host functions below are
    stated for any such collaborators. *)
Record Externals : Type := {
  (* packages/converter *)
  StrToInt64 : string -> Z;
  Int64ToStr : Z -> string;
  (* packages/conf/syspar: the name constant [FullNodes] *)
  FullNodes : string;
  (* encoding/json into [[][]string], [[]syspar.FullNode] (its length) and
     [TxSignJSON] *)
  Unmarshal_pairs : string -> error + list (list string);
  Unmarshal_FullNodes : string -> error + Z;
  Unmarshal_TxSignJSON : string -> error + TxSignJSON;
  (* package smart, outside this file; [ErrInvalidValue_text] is what
     [ErrInvalidValue.Error()] returns *)
  ErrInvalidValue_text : string;
  accessContracts : SmartContract -> list string -> bool;
  getDefTableName : SmartContract -> string -> string;
  Len : list Value -> Z;
  (* packages/script *)
  ParseContract : string -> Z * string;
  (* packages/crypto *)
  Address : list Z -> Z;
  (* fmt: the verb [%v] on an interface value *)
  Sprint : Value -> string;
}.

(** ** packages/utils/tx/smart.go *)

Module tx.

(** Modelled from the spec: the embedded struct [Header] is declared
    outside the sources at hand; the fields are those [ForSign] reads,
    "transaction header (type, time, key_id, ecosystem_id)". *)
Record Header : Type := {
  Type_ : Z;
  Time : Z;
  EcosystemID : Z;
  KeyID : Z;
}.

Record SmartContract : Type := {
  header : Header;
  RequestID : string;
  TokenEcosystem : Z;
  MaxSum : string;
  PayOver : string;
  SignedBy : Z;
  Data : list Z;
}.

(** [func (s SmartContract) ForSign() string] *)
Definition ForSign (s : SmartContract) : string :=
  Go.Sprintf "%s,%d,%d,%d,%d,%d,%s,%s,%d"
    [Go.AStr (RequestID s); Go.AInt (Type_ (header s)); Go.AInt (Time (header s));
     Go.AInt (KeyID (header s)); Go.AInt (EcosystemID (header s));
     Go.AInt (TokenEcosystem s); Go.AStr (MaxSum s); Go.AStr (PayOver s);
     Go.AInt (SignedBy s)].

End tx.

(** ** packages/smart/smart_p.go *)

(** [extendCostSysParams] *)
Definition extendCostSysParams : gmap string string :=
  list_to_map [
    ("AddressToId", "extend_cost_address_to_id");
    ("IdToAddress", "extend_cost_id_to_address");
    ("NewState", "extend_cost_new_state");
    ("Sha256", "extend_cost_sha256");
    ("PubToID", "extend_cost_pub_to_id");
    ("EcosysParam", "extend_cost_ecosys_param");
    ("SysParamString", "extend_cost_sys_param_string");
    ("SysParamInt", "extend_cost_sys_param_int");
    ("SysFuel", "extend_cost_sys_fuel");
    ("ValidateCondition", "extend_cost_validate_condition");
    ("EvalCondition", "extend_cost_eval_condition");
    ("HasPrefix", "extend_cost_has_prefix");
    ("Contains", "extend_cost_contains");
    ("Replace", "extend_cost_replace");
    ("Join", "extend_cost_join");
    ("Size", "extend_cost_size");
    ("Substr", "extend_cost_substr");
    ("Eval", "extend_cost_eval");
    ("Len", "extend_cost_len");
    ("Activate", "extend_cost_activate");
    ("Deactivate", "extend_cost_deactivate");
    ("CreateEcosystem", "extend_cost_create_ecosystem");
    ("TableConditions", "extend_cost_table_conditions");
    ("CreateTable", "extend_cost_create_table");
    ("PermTable", "extend_cost_perm_table");
    ("ColumnCondition", "extend_cost_column_condition");
    ("CreateColumn", "extend_cost_create_column");
    ("PermColumn", "extend_cost_perm_column");
    ("JSONToMap", "extend_cost_json_to_map");
    ("GetContractByName", "extend_cost_contract_by_name");
    ("GetContractById", "extend_cost_contract_by_id")
  ]%string.

Definition nActivateContract : string := "ActivateContract".
Definition nDeactivateContract : string := "DeactivateContract".
Definition nEditContract : string := "EditContract".
Definition nImport : string := "Import".
Definition nNewContract : string := "NewContract".

(** [func getCostP(name string) int64] *)
Definition getCostP (name : string) : M Z :=
  body (
    match extendCostSysParams !! name with
    | Some key =>
        let* has := go (HasSys key) in
        if has : bool then
          let* v := go (SysInt64 key) in return_ v
        else pure tt
    | None => pure tt
    end ;;
    return_ (-1))%fn.

(** [func Size(s string) int64] *)
Definition Size (s : string) : Z := Go.len s.

(** [func Substr(s string, off int64, slen int64) string]; [None] is a
    run-time panic. *)
Definition Substr (s : string) (off slen : Z) : option string :=
  let ilen := Go.len s in
  if (off <? 0) || (slen <? 0) || (off >? ilen) then Some EmptyString
  else if Go.add64 off slen >? ilen then Go.slice_from s off
  else Go.slice s off (Go.add64 off slen).

Section HostFunctions.

Context (ext : Externals).

Local Open Scope fn_scope.

(** The loop over the decoded list in the [fuel_rate], [commission_wallet]
    case of [UpdateSysParam]; [false] means [break check] was taken. *)
Fixpoint pairs_pass (name : string) (list : list (list string)) : bool :=
  match list with
  | [] => true
  | item :: rest =>
      if str_in name ["fuel_rate"; "commission_wallet"]%string then
        if negb (Z.of_nat (length item) =? 2)
           || (StrToInt64 ext (nth 0 item EmptyString) <=? 0)
           || (String.eqb name "fuel_rate"
               && (StrToInt64 ext (nth 1 item EmptyString) <=? 0))
           || (String.eqb name "commission_wallet"
               && (StrToInt64 ext (nth 1 item EmptyString) =? 0))
        then false
        else pairs_pass name rest
      else pairs_pass name rest
  end.

(** The labelled switch [check:] of [UpdateSysParam].  It leaves the pair
    [(ok, checked)], or returns from the function in the JSON case. *)
Definition check_switch {R : Type} (fail : error -> R)
    (name value : string) (ival : Z) : Fn R (bool * bool) :=
  if String.eqb name "gap_between_blocks" then
    pure ((ival >? 0) && (ival <? 86400), false)
  else if str_in name ["rb_blocks_1"; "number_of_nodes"]%string then
    pure ((ival >? 0) && (ival <? 1000), false)
  else if str_in name ["ecosystem_price"; "contract_price"; "column_price";
                       "table_price"; "menu_price"; "page_price";
                       "commission_size"]%string then
    pure (ival >=? 0, false)
  else if str_in name ["max_block_size"; "max_tx_size"; "max_tx_count";
                       "max_columns"; "max_indexes"; "max_block_user_tx";
                       "max_fuel_tx"; "max_fuel_block"; "max_forsign_size"]%string then
    pure (ival >? 0, false)
  else if str_in name ["fuel_rate"; "commission_wallet"]%string then
    match Unmarshal_pairs ext value with
    | inl err =>
        logE JSONUnmarshallError "unmarshalling system param" ;;
        return_ (fail err)
    | inr list =>
        if pairs_pass name list then pure (false, true) else pure (false, false)
    end
  else if String.eqb name (FullNodes ext) then
    match Unmarshal_FullNodes ext value with
    | inl _ => pure (false, false)
    | inr n => pure (false, n >? 0)
    end
  else if Go.HasPrefix name "extend_cost_" then
    pure (ival >=? 0, false)
  else pure (false, true).

(** [func UpdateSysParam(sc *SmartContract, name, value, conditions string)
    (int64, error)].  The third component is the context as the call
    leaves it. *)
Definition UpdateSysParam (sc : SmartContract) (name value conditions : string)
  : M (Z * option error * SmartContract) :=
  body (
    let* '(found, err) := go (SystemParameter_Get name) in
    match err with
    | Some e => logE DBError "system parameter get" ;; return_ (0, Some e, sc)
    | None => pure tt
    end ;;
    let* par :=
      match found with
      | None =>
          logE NotFound "system parameter get" ;;
          return_ (0, Some (Errorf ("Parameter " +:+ name +:+ " has not been found")), sc)
      | Some par => pure par
      end in
    let cond := par_Conditions par in
    when_ (Go.len cond >? 0) (
      let* '(ret, err) := go (EvalIf sc cond) in
      match err with
      | Some e => logE EvalError "evaluating conditions" ;; return_ (0, Some e, sc)
      | None => pure tt
      end ;;
      when_ (negb ret) (logE AccessDenied "Access denied" ;;
                        return_ (0, Some errAccessDenied, sc))) ;;
    let* '(fields, values) :=
      if Go.len value >? 0 then
        let ival := StrToInt64 ext value in
        let* '(ok, checked) :=
          check_switch (fun e => (0, Some e, sc)) name value ival in
        when_ (negb checked && (negb ok || negb (String.eqb (Int64ToStr ext ival) value))) (
          logE InvalidObject (ErrInvalidValue_text ext) ;;
          return_ (0, Some ErrInvalidValue, sc)) ;;
        pure (["value"%string], [VStr value])
      else pure ([], []) in
    let* '(fields, values) :=
      if Go.len conditions >? 0 then
        let* err := go (CompileEval conditions 0) in
        match err with
        | Some e => logE EvalError "compiling eval" ;; return_ (0, Some e, sc)
        | None => pure tt
        end ;;
        pure (fields ++ ["conditions"%string], values ++ [VStr conditions])
      else pure (fields, values) in
    when_ (Z.of_nat (length fields) =? 0) (
      logE EmptyObject "empty value and condition" ;;
      return_ (0, Some (Errorf "empty value and condition"), sc)) ;;
    let* '(_, _, err) :=
      go (selectiveLoggingAndUpd sc fields values "1_system_parameters"
            ["id"%string] [Int64ToStr ext (par_ID par)]
            (negb (VDE sc) && Rollback sc) false) in
    match err with
    | Some e => return_ (0, Some e, sc)
    | None => pure tt
    end ;;
    let* err := go SysUpdate_ in
    match err with
    | Some e => logE DBError "updating syspar" ;; return_ (0, Some e, sc)
    | None => pure tt
    end ;;
    return_ (0, None, set_SysUpdate true sc)).

(** [func DBUpdateExt(sc *SmartContract, tblname string, column string,
    value interface{}, params string, val ...interface{})
    (qcost int64, err error)] *)
Definition DBUpdateExt (sc : SmartContract) (tblname column : string)
    (value : Value) (params : string) (val : list Value)
  : M (Z * option error) :=
  body (
    let tblname := getDefTableName ext sc tblname in
    let* err := go (AccessTable sc tblname "update") in
    match err with
    | Some e => return_ (0, Some e)
    | None => pure tt
    end ;;
    when_ (Go.Contains tblname "_reports_")
      (return_ (0, Some (Errorf "Access denied to report table"))) ;;
    let columns := Go.Split params "," in
    let* '(columns, err) := go (AccessColumns sc tblname columns true) in
    match err with
    | Some e => return_ (0, Some e)
    | None => pure tt
    end ;;
    let* '(qcost, _, err) :=
      go (selectiveLoggingAndUpd sc columns val tblname [column]
            [Sprint ext value] (negb (VDE sc) && Rollback sc) true) in
    return_ (qcost, err)).

(** [func SysParamString(name string) string] *)
Definition SysParamString {R : Type} (name : string) : Fn R string :=
  go (SysString name).

(** [func PubToID(hexkey string) int64] *)
Definition PubToID (hexkey : string) : M Z :=
  body (
    match Go.DecodeString hexkey with
    | inl err =>
        logE CryptoError "decoding hexkey to string" ;;
        return_ 0
    | inr pubkey => return_ (Address ext pubkey)
    end).

(** [func CreateLanguage(sc *SmartContract, name, trans string, appID int64)
    (id int64, err error)] *)
Definition CreateLanguage (sc : SmartContract) (name trans : string) (appID : Z)
  : M (Z * option error) :=
  body (
    when_ (negb (accessContracts ext sc ["NewLang"; "NewLangJoint"; "Import"]%string)) (
      logE IncorrectCallingContract
        "CreateLanguage can be only called from @1NewLang, @1NewLangJoint, @1Import" ;;
      return_ (0, Some (Errorf
        "CreateLanguage can be only called from @1NewLang, @1NewLangJoint, @1Import"))) ;;
    let idStr := Int64ToStr ext (TxSmart_EcosystemID sc) in
    let* '(_, id, err) :=
      go (DBInsert sc ("@" +:+ idStr +:+ "_languages") "name,res,app_id"
            [VStr name; VStr trans; VInt appID]) in
    match err with
    | Some e => logE DBError "inserting new language" ;; return_ (0, Some e)
    | None => pure tt
    end ;;
    go (UpdateLang (TxSmart_EcosystemID sc) appID name trans (VDE sc)) ;;
    return_ (id, None)).

(** [func EditLanguage(sc *SmartContract, id int64, name, trans string,
    appID int64) error] *)
Definition EditLanguage (sc : SmartContract) (id : Z) (name trans : string)
    (appID : Z) : M (option error) :=
  body (
    when_ (negb (accessContracts ext sc ["EditLang"; "EditLangJoint"; "Import"]%string)) (
      logE IncorrectCallingContract
        "EditLanguage can be only called from @1EditLang, @1EditLangJoint and @1Import" ;;
      return_ (Some (Errorf
        "EditLanguage can be only called from @1EditLang, @1EditLangJoint and @1Import"))) ;;
    let idStr := Int64ToStr ext (TxSmart_EcosystemID sc) in
    let* '(_, err) :=
      go (DBUpdate sc ("@" +:+ idStr +:+ "_languages") id "name,res,app_id"
            [VStr name; VStr trans; VInt appID]) in
    match err with
    | Some e => logE DBError "inserting new language" ;; return_ (Some e)
    | None => pure tt
    end ;;
    go (UpdateLang (TxSmart_EcosystemID sc) appID name trans (VDE sc)) ;;
    return_ None).

(** [ContractConditions("MainCondition")] *)
Definition mainCondition : string :=
  "ContractConditions(" +:+ dq +:+ "MainCondition" +:+ dq +:+ ")".

(** [{"Type": "NewEcosystem"}] *)
Definition newEcosystemHint : string :=
  "{" +:+ dq +:+ "Type" +:+ dq +:+ ": " +:+ dq +:+ "NewEcosystem" +:+ dq +:+ "}".

(** [fmt.Sprintf(`{"Type": "<kind>", "Id": "%d", "State": "%d"}`, tblid, state)] *)
Definition activateHint (kind : string) (tblid state : Z) : string :=
  Go.Sprintf
    ("{" +:+ dq +:+ "Type" +:+ dq +:+ ": " +:+ dq +:+ kind +:+ dq +:+ ", "
         +:+ dq +:+ "Id" +:+ dq +:+ ": " +:+ dq +:+ "%d" +:+ dq +:+ ", "
         +:+ dq +:+ "State" +:+ dq +:+ ": " +:+ dq +:+ "%d" +:+ dq +:+ "}")
    [Go.AInt tblid; Go.AInt state].

(** [ret[0].(map[string]interface{})[`pub`].(string)] *)
Definition first_pub {R : Type} (ret : list Value) : Fn R string :=
  match ret with
  | VMap m :: _ =>
      match List.find (fun kv => String.eqb (fst kv) "pub") m with
      | Some (_, VStr p) => pure p
      | Some (_, v) => panic (conversion_panic (Some v) "string")
      | None => panic (conversion_panic None "string")
      end
  | v :: _ => panic (conversion_panic (Some v) "map[string]interface {}")
  | [] => panic "runtime error: index out of range [0] with length 0"
  end.

(** [func CreateEcosystem(sc *SmartContract, wallet int64, name string)
    (int64, error)].  The context is a pointer: the flags the body assigns
    stay assigned when it returns, also on an error path. *)
Definition CreateEcosystem (sc : SmartContract) (wallet : Z) (name : string)
  : M (Z * option error * SmartContract) :=
  body (
    when_ (negb (String.eqb (TxContract_Name sc) "@1NewEcosystem")) (
      logE IncorrectCallingContract
        "CreateEcosystem can be only called from @1NewEcosystem" ;;
      return_ (0, Some (Errorf "CreateEcosystem can be only called from @1NewEcosystem"), sc)) ;;
    let* '(found, spValue, err) := go (StateParameter_Get "1" "founder_account") in
    match err with
    | Some e => logE DBError "getting founder" ;; return_ (0, Some e, sc)
    | None => pure tt
    end ;;
    when_ (negb found || (Go.len spValue =? 0)) (
      logE NotFound "founder not found" ;;
      return_ (0, Some ErrFounderAccount, sc)) ;;
    let* '(id, err) := go (GetNextID "1_ecosystems") in
    match err with
    | Some e => logE DBError "generating next ecosystem id" ;; return_ (0, Some e, sc)
    | None => pure tt
    end ;;
    let* err := go (ExecSchemaEcosystem id wallet name (StrToInt64 ext spValue)) in
    match err with
    | Some e => logE DBError "executing ecosystem schema" ;; return_ (0, Some e, sc)
    | None => pure tt
    end ;;
    let idStr := Int64ToStr ext id in
    let* err := go (LoadContract idStr) in
    match err with
    | Some e => return_ (0, Some e, sc)
    | None => pure tt
    end ;;
    let sc1 := set_FullAccess true (set_Rollback false sc) in
    let* page := SysParamString "default_ecosystem_page" in
    let* '(_, _, err) :=
      go (DBInsert sc1 ("@" +:+ idStr +:+ "_pages") "id,name,value,menu,conditions"
            [VStr "1"; VStr "default_page"; VStr page; VStr "default_menu";
             VStr mainCondition]) in
    match err with
    | Some e => logE DBError "inserting default page" ;; return_ (0, Some e, sc1)
    | None => pure tt
    end ;;
    let* menu := SysParamString "default_ecosystem_menu" in
    let* '(_, _, err) :=
      go (DBInsert sc1 ("@" +:+ idStr +:+ "_menu") "id,name,value,title,conditions"
            [VStr "1"; VStr "default_menu"; VStr menu; VStr "default";
             VStr mainCondition]) in
    match err with
    | Some e => logE DBError "inserting default page" ;; return_ (0, Some e, sc1)
    | None => pure tt
    end ;;
    let* '(_, ret, err) :=
      go (DBSelect sc1 "@1_keys" "pub" wallet "id" 0 1 0 EmptyString []) in
    match err with
    | Some e => logE DBError "getting pub key" ;; return_ (0, Some e, sc1)
    | None => pure tt
    end ;;
    let* pub := if Len ext ret >? 0 then first_pub ret else pure EmptyString in
    let* '(_, _, err) :=
      go (DBInsert sc1 ("@" +:+ idStr +:+ "_keys") "id,pub" [VInt wallet; VStr pub]) in
    match err with
    | Some e => logE DBError "inserting default page" ;; return_ (0, Some e, sc1)
    | None => pure tt
    end ;;
    let sc2 := set_Rollback true (set_FullAccess false sc1) in
    let* '(_, _, err) :=
      go (DBInsert sc2 "@1_ecosystems" "id,name" [VInt id; VStr name]) in
    match err with
    | Some e =>
        logE DBError "insert new ecosystem to stat table" ;; return_ (0, Some e, sc2)
    | None => pure tt
    end ;;
    when_ (negb (VDE sc2)) (
      let* err := go (SysRollback sc2 newEcosystemHint) in
      match err with
      | Some e => return_ (0, Some e, sc2)
      | None => pure tt
      end) ;;
    return_ (id, None, sc2)).

(** [func EditEcosysName(sc *SmartContract, sysID int64, newName string) error] *)
Definition EditEcosysName (sc : SmartContract) (sysID : Z) (newName : string)
  : M (option error) :=
  body (
    when_ (negb (String.eqb (TxContract_Name sc) "@1EditEcosystemName")) (
      logE IncorrectCallingContract
        "EditEcosystemName can be only called from @1EditEcosystemName" ;;
      return_ (Some (Errorf "EditEcosystemName can be only called from @1EditEcosystemName"))) ;;
    let* '(_, err) := go (DBUpdate sc "@1_ecosystems" sysID "name" [VStr newName]) in
    return_ err).

(** [func Activate(sc *SmartContract, tblid int64, state int64) error] *)
Definition Activate (sc : SmartContract) (tblid state : Z) : M (option error) :=
  body (
    when_ (negb (accessContracts ext sc [nActivateContract; nDeactivateContract])) (
      logE IncorrectCallingContract
        "ActivateContract can be only called from @1ActivateContract or @1DeactivateContract" ;;
      return_ (Some (Errorf
        "ActivateContract can be only called from @1ActivateContract or @1DeactivateContract"))) ;;
    go (ActivateContract tblid state true) ;;
    when_ (negb (VDE sc)) (
      let* err := go (SysRollback sc (activateHint "ActivateContract" tblid state)) in
      match err with
      | Some e => return_ (Some e)
      | None => pure tt
      end) ;;
    return_ None).

(** [func Deactivate(sc *SmartContract, tblid int64, state int64) error] *)
Definition Deactivate (sc : SmartContract) (tblid state : Z) : M (option error) :=
  body (
    when_ (negb (accessContracts ext sc [nActivateContract; nDeactivateContract])) (
      logE IncorrectCallingContract
        "DeactivateContract can be only called from @1ActivateContract or @1DeactivateContract" ;;
      return_ (Some (Errorf
        "DeactivateContract can be only called from @1ActivateContract or @1DeactivateContract"))) ;;
    go (ActivateContract tblid state false) ;;
    when_ (negb (VDE sc)) (
      let* err := go (SysRollback sc (activateHint "DeactivateContract" tblid state)) in
      match err with
      | Some e => return_ (Some e)
      | None => pure tt
      end) ;;
    return_ None).

(** [uint64(x)] of an [int64]. *)
Definition uint64 (x : Z) : Z := x mod 2 ^ 64.

(** [uint32(x)] of an [int64]. *)
Definition uint32 (x : Z) : Z := x mod 2 ^ 32.

(** The loop of [CheckSignature] that appends one [,%v] per declared
    parameter; a missing or nil entry of the map is printed as the empty
    string. *)
Definition forsign_params (i : gmap string Value) (forsign : string)
    (params : list SignRes) : string :=
  fold_left
    (fun acc isign =>
       let val := match i !! Param isign with
                  | None | Some VNil => VStr EmptyString
                  | Some v => v
                  end in
       acc +:+ "," +:+ Sprint ext val)
    params forsign.

(** [`select value from "` + pref + `_signatures" where name=?`] *)
Definition signaturesQuery (pref : string) : string :=
  "select value from " +:+ dq +:+ pref +:+ "_signatures" +:+ dq +:+ " where name=?".

(** [func CheckSignature(i *map[string]interface{}, name string) error] *)
Definition CheckSignature (i : gmap string Value) (name : string) : M (option error) :=
  body (
    let '(state, name) := ParseContract ext name in
    let pref := Int64ToStr ext state in
    let* sc :=
      match i !! "sc"%string with
      | Some (VContext sc) => pure sc
      | v => panic (conversion_panic v "*smart.SmartContract")
      end in
    let* '(value, err) :=
      go (Single_String (signaturesQuery pref) [VStr name]) in
    match err with
    | Some e => logE DBError "executing single query" ;; return_ (Some e)
    | None => pure tt
    end ;;
    when_ (Go.len value =? 0) (return_ None) ;;
    let* signature :=
      match i !! "Signature"%string with
      | Some (VStr s) => pure s
      | v => panic (conversion_panic v "string")
      end in
    let* hexsign :=
      match Go.DecodeString signature with
      | inr (b :: bs) => pure (b :: bs)
      | _ =>
          logE ConversionError "comverting signature to hex" ;;
          return_ (Some (Errorf "wrong signature"))
      end in
    let* sign :=
      match Unmarshal_TxSignJSON ext value with
      | inl e => logE JSONUnmarshallError "unmarshalling sign" ;; return_ (Some e)
      | inr sign => pure sign
      end in
    let* wallet :=
      match i !! "key_id"%string with
      | Some (VInt w) => pure w
      | v => panic (conversion_panic v "int64")
      end in
    let* time :=
      match i !! "time"%string with
      | Some (VInt t) => pure t
      | v => panic (conversion_panic v "int64")
      end in
    let forsign :=
      forsign_params i
        (Go.Sprintf "%d,%d" [Go.AInt (uint64 time); Go.AInt (uint64 wallet)])
        (sign_Params sign) in
    let* '(CheckSignResult, err) := go (CheckSign (PublicKeys sc) forsign hexsign true) in
    match err with
    | Some e => return_ (Some e)
    | None => pure tt
    end ;;
    when_ (negb CheckSignResult) (
      logE InvalidObject "incorrect signature" ;;
      return_ (Some (Errorf (Go.Sprintf0 ("incorrect signature " +:+ forsign))))) ;;
    return_ None).

(** [func RollbackContract(sc *SmartContract, name string) error] *)
Definition RollbackContract (sc : SmartContract) (name : string) : M (option error) :=
  body (
    when_ (negb (accessContracts ext sc [nNewContract; nImport])) (
      logE IncorrectCallingContract "Check contract access" ;;
      return_ (Some errAccessRollbackContract)) ;;
    let* c := go (VMGetContract name (uint32 (TxSmart_EcosystemID sc))) in
    match c with
    | Some (id, cname) =>
        let* n := go VM_Children_len in
        when_ (id <? n) (go (VM_Children_truncate id)) ;;
        go (VM_Objects_delete cname)
    | None => pure tt
    end ;;
    return_ None).

End HostFunctions.

(** ** Predicates used in the statements *)

(** A string is valid hexadecimal when it has an even number of
    characters, each of them a hexadecimal digit. *)
Fixpoint all_hex (s : string) : bool :=
  match s with
  | EmptyString => true
  | String c rest =>
      match Go.fromHexChar c with Some _ => all_hex rest | None => false end
  end.

Definition valid_hex (s : string) : bool :=
  Nat.even (String.length s) && all_hex s.

(** Induction over a string two characters at a time, the way
    [hex.DecodeString] reads it. *)
Fixpoint string_pair_ind (P : string -> Prop)
    (H0 : P EmptyString)
    (H1 : forall a, P (String a EmptyString))
    (H2 : forall a b rest, P rest -> P (String a (String b rest)))
    (s : string) : P s :=
  match s with
  | EmptyString => H0
  | String a EmptyString => H1 a
  | String a (String b rest) => H2 a b rest (string_pair_ind P H0 H1 H2 rest)
  end.

(** Calls that write: to a table, to the rollback journal, to the VM or to
    a cache. *)
Definition is_write (e : Event) : bool :=
  match e with
  | EvLog _ => false
  | EvCall c =>
      match c with
      | selectiveLoggingAndUpd _ _ _ _ _ _ _ _
      | DBInsert _ _ _ _ | DBUpdate _ _ _ _ _
      | SysRollback _ _ | SysUpdate_ | GetNextID _
      | ExecSchemaEcosystem _ _ _ _ | LoadContract _
      | ActivateContract _ _ _ | VM_Children_truncate _ | VM_Objects_delete _
      | UpdateLang _ _ _ _ _ | CompileEval _ _ => true
      | _ => false
      end
  end.

(** A host whose answers to the other calls leave the world as it is. *)
Definition reads_only {W : Type} (h : Host W) : Prop :=
  forall (X : Type) (c : Call X) (w : W),
    is_write (EvCall c) = false -> (h X c w).2 = w.

(** The [logRollback] arguments handed to [selectiveLoggingAndUpd], the
    hints handed to [SysRollback] and the contexts handed to [DBInsert]
    along a trace. *)
Definition logRollback_args (t : list Event) : list bool :=
  flat_map (fun e =>
    match e with
    | EvCall (selectiveLoggingAndUpd _ _ _ _ _ _ logRollback _) => [logRollback]
    | _ => []
    end) t.

Definition SysRollback_hints (t : list Event) : list string :=
  flat_map (fun e =>
    match e with
    | EvCall (SysRollback _ data) => [data]
    | _ => []
    end) t.

Definition DBInsert_contexts (t : list Event) : list (SmartContract * string) :=
  flat_map (fun e =>
    match e with
    | EvCall (DBInsert sc tblname _ _) => [(sc, tblname)]
    | _ => []
    end) t.

(** [requests_journal e]: the call asks for a rollback-journal record,
    either through the [logRollback] argument or as a [SysRollback] hint. *)
Definition requests_journal (e : Event) : bool :=
  match e with
  | EvCall (selectiveLoggingAndUpd _ _ _ _ _ _ logRollback _) => logRollback
  | EvCall (SysRollback _ _) => true
  | _ => false
  end.

(** [journal_by_flags sc t]: along [t] every [logRollback] argument is
    [!sc.VDE && sc.Rollback] and [SysRollback] is not called. *)
Definition journal_by_flags (sc : SmartContract) (t : list Event) : Prop :=
  Forall (fun b => b = negb (VDE sc) && Rollback sc) (logRollback_args t)
  /\ SysRollback_hints t = [].

(** The run of a call refused at its first statement: the error, one log
    record, no call, the world and the context untouched. *)
Definition refused {W A : Type} (r : Run W A) (res : A) (w : W)
    (kind : LogType) (msg : string) : Prop :=
  r = {| outcome := Returned res; world := w;
         trace := [EvLog {| log_type := kind; log_msg := msg |}] |}.

(** [Calls P m]: every log record and call [m] can make satisfies [P],
    whatever the answers. *)
Fixpoint Calls {A : Type} (P : Event -> Prop) (m : M A) : Prop :=
  match m with
  | Ret _ | Panic _ => True
  | Log e k => P (EvLog e) /\ Calls P k
  | Do c k => P (EvCall c) /\ forall x, Calls P (k x)
  end.

(** In world [w] the parameter is there and its conditions, if any, let
    the caller in; [after_gate] is the world once both have been asked. *)
Definition admits {W : Type} (h : Host W) (sc : SmartContract) (name : string)
    (par : SystemParameter) (w : W) : Prop :=
  (h _ (SystemParameter_Get name) w).1 = (Some par, None) /\
  (par_Conditions par <> EmptyString ->
   (h _ (EvalIf sc (par_Conditions par))
      (h _ (SystemParameter_Get name) w).2).1 = (true, None)).

Definition after_gate {W : Type} (h : Host W) (sc : SmartContract) (name : string)
    (par : SystemParameter) (w : W) : W :=
  let w1 := (h _ (SystemParameter_Get name) w).2 in
  if Go.len (par_Conditions par) >? 0
  then (h _ (EvalIf sc (par_Conditions par)) w1).2
  else w1.

(** The value domain of [fuel_rate] and [commission_wallet]: a list of
    pairs [[ecosystem_id, rate]] with a positive ecosystem id; the rate is
    positive for [fuel_rate] and non-zero for [commission_wallet]. *)
Definition pair_accepted (ext : Externals) (name : string) (item : list string) : Prop :=
  length item = 2%nat /\
  0 < StrToInt64 ext (nth 0 item EmptyString) /\
  (name = "fuel_rate"%string -> 0 < StrToInt64 ext (nth 1 item EmptyString)) /\
  (name = "commission_wallet"%string -> StrToInt64 ext (nth 1 item EmptyString) <> 0).

Definition pairs_accepted (ext : Externals) (name value : string) : Prop :=
  exists list, Unmarshal_pairs ext value = inr list /\
               Forall (pair_accepted ext name) list.

(** The same domain with the first element as the only constraint. *)
Definition pairs_first_positive (ext : Externals) (value : string) : Prop :=
  exists list, Unmarshal_pairs ext value = inr list /\
               Forall (fun item => length item = 2%nat /\
                                   0 < StrToInt64 ext (nth 0 item EmptyString)) list.

(** What [UpdateSysParam] and [DBUpdateExt] may ask of the journal. *)
Definition flags_policy (sc : SmartContract) (e : Event) : Prop :=
  match e with
  | EvCall (selectiveLoggingAndUpd _ _ _ _ _ _ logRollback _) =>
      logRollback = negb (VDE sc) && Rollback sc
  | EvCall (SysRollback _ _) => False
  | _ => True
  end.

(** What [CreateEcosystem] may ask of the journal: a [SysRollback] hint only
    outside VDE mode, and the rollback flag set on the insert into
    [@1_ecosystems] and on no other insert. *)
Definition ecosystem_policy (sc : SmartContract) (e : Event) : Prop :=
  match e with
  | EvCall (selectiveLoggingAndUpd _ _ _ _ _ _ _ _) => False
  | EvCall (SysRollback _ _) => VDE sc = false
  | EvCall (DBInsert sc' tblname _ _) =>
      VDE sc' = VDE sc /\ (Rollback sc' = true <-> tblname = "@1_ecosystems"%string)
  | _ => True
  end.

(** The rollback flag and the table of each insert along a trace. *)
Definition DBInsert_flags (t : list Event) : list (bool * string) :=
  map (fun p : SmartContract * string => (Rollback p.1, p.2)) (DBInsert_contexts t).

(** No journal record is asked for along [t]. *)
Definition no_journal_request (t : list Event) : Prop :=
  Forall (fun b => b = false) (logRollback_args t) /\ SysRollback_hints t = [].

(** ** A small node to run the host functions on *)

Module Ref.

(** *** [encoding/json] into [[][]string]

    [json.Unmarshal([]byte(value), &list)] for a fresh [list [][]string]:
    the value [null] and an empty array leave no element, an element is
    [null] (an empty item) or an array whose elements are strings or
    [null] (the empty string); white space is skipped between tokens.
    Strings are unquoted as the decoder does it: the escapes of JSON,
    [\u] escapes with their surrogate pairs, and bytes that are no UTF-8
    replaced by U+FFFD.  Any other text is an error, of syntax or of type;
    which of the two, and its wording, is not modelled. *)
Inductive token : Type :=
| TOpen | TClose | TComma | TNull | TString (s : string).

Definition is_space (c : ascii) : bool :=
  Ascii.eqb c " " || (Go.byte c =? 9) || (Go.byte c =? 10) || (Go.byte c =? 13).

Definition is_dq (c : ascii) : bool := Go.byte c =? 34.
Definition is_backslash (c : ascii) : bool := Go.byte c =? 92.

Definition chr (n : Z) : ascii := ascii_of_nat (Z.to_nat n).

(** [utf8.EncodeRune] for a rune that is no surrogate. *)
Definition EncodeRune (r : Z) : string :=
  if r <? 128 then String (chr r) EmptyString
  else if r <? 2048 then
    String (chr (Z.lor 192 (Z.shiftr r 6)))
      (String (chr (Z.lor 128 (Z.land r 63))) EmptyString)
  else if r <? 65536 then
    String (chr (Z.lor 224 (Z.shiftr r 12)))
      (String (chr (Z.lor 128 (Z.land (Z.shiftr r 6) 63)))
         (String (chr (Z.lor 128 (Z.land r 63))) EmptyString))
  else
    String (chr (Z.lor 240 (Z.shiftr r 18)))
      (String (chr (Z.lor 128 (Z.land (Z.shiftr r 12) 63)))
         (String (chr (Z.lor 128 (Z.land (Z.shiftr r 6) 63)))
            (String (chr (Z.lor 128 (Z.land r 63))) EmptyString))).

(** Four hexadecimal digits at the head of [s], and what follows them. *)
Definition hex4 (s : string) : option (Z * string) :=
  match s with
  | String a (String b (String c (String d rest))) =>
      match Go.fromHexChar a, Go.fromHexChar b, Go.fromHexChar c, Go.fromHexChar d with
      | Some x, Some y, Some z, Some t =>
          Some (((x * 16 + y) * 16 + z) * 16 + t, rest)
      | _, _, _, _ => None
      end
  | _ => None
  end.

(** [getu4]: the code unit of a [\uXXXX] at the head of [s]. *)
Definition getu4 (s : string) : option Z :=
  match s with
  | String b (String "u" rest) =>
      if is_backslash b then option_map fst (hex4 rest) else None
  | _ => None
  end.

(** An escape, from the character after the backslash: the bytes it stands
    for and the number of characters it takes.  A [\u] escape that is half
    of a surrogate pair takes the other half with it; alone it stands for
    U+FFFD. *)
Definition unescape (s : string) : option (string * nat) :=
  match s with
  | String "b" _ => Some (String (chr 8) EmptyString, 1%nat)
  | String "f" _ => Some (String (chr 12) EmptyString, 1%nat)
  | String "n" _ => Some (String (chr 10) EmptyString, 1%nat)
  | String "r" _ => Some (String (chr 13) EmptyString, 1%nat)
  | String "t" _ => Some (String (chr 9) EmptyString, 1%nat)
  | String "/" _ => Some ("/"%string, 1%nat)
  | String "u" rest =>
      match hex4 rest with
      | None => None
      | Some (rr, after) =>
          if (55296 <=? rr) && (rr <? 57344) then
            match getu4 after with
            | Some rr1 =>
                if (rr <? 56320) && (56320 <=? rr1) && (rr1 <? 57344)
                then Some (EncodeRune
                             (Z.lor (Z.shiftl (rr - 55296) 10) (rr1 - 56320) + 65536),
                           11%nat)
                else Some (Go.RuneError, 5%nat)
            | None => Some (Go.RuneError, 5%nat)
            end
          else Some (EncodeRune rr, 5%nat)
      end
  | String c _ =>
      if is_dq c || is_backslash c then Some (String c EmptyString, 1%nat) else None
  | EmptyString => None
  end.

(** [cur] holds the literal being read while inside quotes; [skip] counts
    the bytes of an escape or of a rune still to pass over. *)
Fixpoint lex (skip : nat) (cur : option string) (s : string) : option (list token) :=
  match s with
  | EmptyString => match cur with None => Some [] | Some _ => None end
  | String c rest =>
      match skip with
      | S n => lex n cur rest
      | O =>
          match cur with
          | Some acc =>
              if is_dq c then option_map (cons (TString acc)) (lex 0 None rest)
              else if is_backslash c then
                match unescape rest with
                | Some (bytes, n) => lex n (Some (acc +:+ bytes)) rest
                | None => None
                end
              else if Go.byte c <? 32 then None
              else if Go.byte c <? 128 then lex 0 (Some (acc +:+ String c EmptyString)) rest
              else
                match Go.DecodeRune s with
                | Some (bytes, _) =>
                    lex (String.length bytes - 1) (Some (acc +:+ bytes)) rest
                | None => lex 0 (Some (acc +:+ Go.RuneError)) rest
                end
          | None =>
              if Ascii.eqb c "[" then option_map (cons TOpen) (lex 0 None rest)
              else if Ascii.eqb c "]" then option_map (cons TClose) (lex 0 None rest)
              else if Ascii.eqb c "," then option_map (cons TComma) (lex 0 None rest)
              else if is_dq c then lex 0 (Some EmptyString) rest
              else if is_space c then lex 0 None rest
              else if Ascii.eqb c "n" then
                match rest with
                | String "u" (String "l" (String "l" _)) =>
                    option_map (cons TNull) (lex 3 None rest)
                | _ => None
                end
              else None
          end
      end
  end.

Inductive pstate : Type :=
| Start | OuterFirst | OuterNext | OuterItem
| InnerFirst | InnerNext | InnerItem | Done.

Fixpoint parse (st : pstate) (outer : list (list string)) (inner : list string)
    (ts : list token) : option (list (list string)) :=
  match ts with
  | [] => match st with Done => Some (rev outer) | _ => None end
  | t :: ts' =>
      match st, t with
      | Start, TNull => parse Done [] [] ts'
      | Start, TOpen => parse OuterFirst [] [] ts'
      | OuterFirst, TClose | OuterNext, TClose => parse Done outer [] ts'
      | OuterFirst, TOpen | OuterItem, TOpen => parse InnerFirst outer [] ts'
      | OuterFirst, TNull | OuterItem, TNull => parse OuterNext ([] :: outer) [] ts'
      | OuterNext, TComma => parse OuterItem outer [] ts'
      | InnerFirst, TClose | InnerNext, TClose =>
          parse OuterNext (rev inner :: outer) [] ts'
      | InnerFirst, TString s | InnerItem, TString s =>
          parse InnerNext outer (s :: inner) ts'
      | InnerFirst, TNull | InnerItem, TNull =>
          parse InnerNext outer (EmptyString :: inner) ts'
      | InnerNext, TComma => parse InnerItem outer inner ts'
      | _, _ => None
      end
  end.

(** An error of [encoding/json]. *)
Definition json_error : error := External "json".

Definition decode_pairs (s : string) : error + list (list string) :=
  match lex 0 None s with
  | Some ts =>
      match parse Start [] [] ts with
      | Some l => inr l
      | None => inl json_error
      end
  | None => inl json_error
  end.

(** *** Pure collaborators *)

(** Modelled from the spec: [accessContracts] is declared outside the
    sources at hand; the whitelist entries are the names of the contracts
    of ecosystem 1, "only from [@1NewLang], [@1NewLangJoint], [@1Import]". *)
Definition whitelisted (sc : SmartContract) (names : list string) : bool :=
  existsb (fun item => String.eqb (TxContract_Name sc) ("@1" +:+ item)) names.

(** Modelled from the spec: [getDefTableName] is declared outside the
    sources at hand; it "prefixes bare names with the caller's ecosystem ID
    unless they start with [@N_], in which case [N] is used as the
    ecosystem prefix". *)
Definition defTableName (sc : SmartContract) (tblname : string) : string :=
  match tblname with
  | String "@" rest => rest
  | _ => Go.FormatInt (TxSmart_EcosystemID sc) +:+ "_" +:+ tblname
  end.

(** [%v] on the scalar values. *)
Definition sprint (v : Value) : string :=
  match v with
  | VNil => "<nil>"
  | VBool true => "true"
  | VBool false => "false"
  | VInt i => Go.FormatInt i
  | VStr s => s
  | _ => "?"
  end.

Definition ext : Externals := {|
  StrToInt64 := Go.ParseInt10;
  Int64ToStr := Go.FormatInt;
  FullNodes := "full_nodes";
  Unmarshal_pairs := decode_pairs;
  Unmarshal_FullNodes := fun _ => inl json_error;
  Unmarshal_TxSignJSON := fun _ => inl json_error;
  ErrInvalidValue_text := "Invalid value";
  accessContracts := whitelisted;
  getDefTableName := defTableName;
  Len := fun l => Z.of_nat (length l);
  ParseContract := fun name => (1, name);
  Address := fun pubkey => fold_right Z.add 0 pubkey;
  Sprint := sprint;
|}.

(** *** The world and its host *)

Record World : Type := {
  sysparams : gmap string SystemParameter;   (* 1_system_parameters *)
  signatures : gmap string string;           (* 1_signatures *)
  denied : list string;                      (* tables that refuse updates *)
  written : list string;                     (* tables written, latest first *)
  journal : nat;                             (* rollback records appended *)
}.

Definition write (table : string) (logged : bool) (w : World) : World :=
  {| sysparams := sysparams w; signatures := signatures w; denied := denied w;
     written := table :: written w;
     journal := if logged then S (journal w) else journal w |}.

Definition record (w : World) : World :=
  {| sysparams := sysparams w; signatures := signatures w; denied := denied w;
     written := written w; journal := S (journal w) |}.

Definition sysValue (w : World) (key : string) : string :=
  match sysparams w !! key with
  | Some par => par_Value par
  | None => EmptyString
  end.

Definition host : Host World := fun X c w =>
  match c in Call X return X * World with
  | SystemParameter_Get name => ((sysparams w !! name, None), w)
  | StateParameter_Get _ _ => ((true, "1"%string, None), w)
  | Single_String _ args =>
      match args with
      | [VStr name] =>
          ((match signatures w !! name with Some v => v | None => EmptyString end,
            None), w)
      | _ => ((EmptyString, Some (External "sql: wrong arguments")), w)
      end
  | GetNextID _ => ((2, None), w)
  | ExecSchemaEcosystem _ _ _ _ => (None, w)
  | HasSys key => (bool_decide (is_Some (sysparams w !! key)), w)
  | SysInt64 key => (Go.ParseInt10 (sysValue w key), w)
  | SysString key => (sysValue w key, w)
  | SysUpdate_ => (None, w)
  | EvalIf _ cond =>
      if String.eqb cond "true" then ((true, None), w)
      else if String.eqb cond "false" then ((false, None), w)
      else ((false, Some (External "unknown identifier")), w)
  | CompileEval _ _ => (None, w)
  | selectiveLoggingAndUpd _ _ _ table _ _ logRollback _ =>
      ((0, "1"%string, None), write table logRollback w)
  | AccessTable _ table _ =>
      (if str_in table (denied w) then Some errAccessDenied else None, w)
  | AccessColumns _ _ columns _ => ((columns, None), w)
  | DBInsert sc tblname _ _ =>
      ((0, 1, None), write tblname (negb (VDE sc) && Rollback sc) w)
  | DBUpdate sc tblname _ _ _ =>
      ((0, None), write tblname (negb (VDE sc) && Rollback sc) w)
  | DBSelect _ _ _ _ _ _ _ _ _ _ => ((0, [], None), w)
  | SysRollback _ _ => (None, record w)
  | ActivateContract _ _ _ => (tt, w)
  | LoadContract _ => (None, w)
  | VMGetContract _ _ => (None, w)
  | VM_Children_len => (0, w)
  | VM_Children_truncate _ => (tt, w)
  | VM_Objects_delete _ => (tt, w)
  | UpdateLang _ _ _ _ _ => (tt, w)
  | CheckSign _ _ _ _ => ((true, None), w)
  end.

(** *** Sample data *)

Definition sc0 : SmartContract := {|
  VDE := false; Rollback := true; FullAccess := false; SysUpdate := false;
  TxContract_Name := "@1TransferMoney"; TxSmart_EcosystemID := 1;
  PublicKeys := [];
|}.

Definition with_contract (name : string) (sc : SmartContract) : SmartContract :=
  {| VDE := VDE sc; Rollback := Rollback sc; FullAccess := FullAccess sc;
     SysUpdate := SysUpdate sc; TxContract_Name := name;
     TxSmart_EcosystemID := TxSmart_EcosystemID sc;
     PublicKeys := PublicKeys sc |}.

Definition with_flags (vde rollback : bool) (sc : SmartContract) : SmartContract :=
  {| VDE := vde; Rollback := rollback; FullAccess := FullAccess sc;
     SysUpdate := SysUpdate sc; TxContract_Name := TxContract_Name sc;
     TxSmart_EcosystemID := TxSmart_EcosystemID sc;
     PublicKeys := PublicKeys sc |}.

Definition param (id : Z) (name value conditions : string) : SystemParameter :=
  {| par_ID := id; par_Name := name; par_Value := value;
     par_Conditions := conditions |}.

(** A node whose parameters are open to every caller... *)
Definition w_open : World := {|
  sysparams :=
    <["gap_between_blocks"%string := param 1 "gap_between_blocks" "2" "true"]>
    (<["fuel_rate"%string := param 2 "fuel_rate" EmptyString "true"]>
    (<["extend_cost_sha256"%string := param 3 "extend_cost_sha256" "50" "true"]> ∅));
  signatures := ∅;
  denied := ["1_reports_daily"%string];
  written := [];
  journal := 0;
|}.

(** ... and one whose parameters are closed to the caller. *)
Definition w_closed : World := {|
  sysparams :=
    <["gap_between_blocks"%string := param 1 "gap_between_blocks" "2" "false"]> ∅;
  signatures := ∅;
  denied := [];
  written := [];
  journal := 0;
|}.

(** [[["1","0"]]]: one pair, ecosystem 1, rate 0. *)
Definition pair_1_0 : string :=
  "[[" +:+ dq +:+ "1" +:+ dq +:+ "," +:+ dq +:+ "0" +:+ dq +:+ "]]".

(** [[["1","100"]]] *)
Definition pair_1_100 : string :=
  "[[" +:+ dq +:+ "1" +:+ dq +:+ "," +:+ dq +:+ "100" +:+ dq +:+ "]]".

Definition sc_activate : SmartContract :=
  with_flags false false (with_contract "@1ActivateContract" sc0).

Definition sc_vde : SmartContract := with_flags true true sc0.

Definition sc_new : SmartContract := with_contract "@1NewEcosystem" sc0.

End Ref.

(** ** More of Go's [strings] and [encoding/hex] *)

Module Strings.

(** What the library does at an empty separator, where it works on UTF-8
    sequences: [explode s] is [strings.Split(s, "")] and [expand s new] is
    [strings.Replace(s, "", new, -1)]. *)
Record Utf8 : Type := {
  explode : string -> list string;
  expand : string -> string -> string;
}.

(** [strings.Split(s, sep)] for a non-empty [sep]: cut at the leftmost
    occurrences that do not overlap.  [skip] counts the bytes of a matched
    separator still to pass; [cur] is the piece being read. *)
Fixpoint split_go (sep : string) (skip : nat) (cur s : string) : list string :=
  match s with
  | EmptyString => [cur]
  | String c rest =>
      match skip with
      | S k => split_go sep k cur rest
      | O =>
          if String.prefix sep s
          then cur :: split_go sep (String.length sep - 1) EmptyString rest
          else split_go sep 0 (cur +:+ String c EmptyString) rest
      end
  end.

Definition Split (u : Utf8) (s sep : string) : list string :=
  match sep with
  | EmptyString => explode u s
  | _ => split_go sep 0 EmptyString s
  end.

(** [strings.Replace(s, old, new, -1)] for a non-empty [old]. *)
Fixpoint replace_go (old new : string) (skip : nat) (s : string) : string :=
  match s with
  | EmptyString => EmptyString
  | String c rest =>
      match skip with
      | S k => replace_go old new k rest
      | O =>
          if String.prefix old s
          then new +:+ replace_go old new (String.length old - 1) rest
          else String c (replace_go old new 0 rest)
      end
  end.

Definition Replace (u : Utf8) (s old new : string) : string :=
  if String.eqb old new then s
  else match old with
       | EmptyString => expand u s new
       | _ => replace_go old new 0 s
       end.

(** [strings.Trim(s, cutset)] for a cutset of one ASCII byte. *)
Fixpoint trimLeftByte (s : string) (c : ascii) : string :=
  match s with
  | String a rest => if Ascii.eqb a c then trimLeftByte rest c else s
  | EmptyString => EmptyString
  end.

Fixpoint trimRightByte (s : string) (c : ascii) : string :=
  match s with
  | EmptyString => EmptyString
  | String a rest =>
      match trimRightByte rest c with
      | EmptyString => if Ascii.eqb a c then EmptyString else String a EmptyString
      | kept => String a kept
      end
  end.

Definition TrimByte (s : string) (c : ascii) : string :=
  trimLeftByte (trimRightByte s c) c.

(** [hex.EncodeToString]: two lower-case digits per byte. *)
Definition hexDigit (n : Z) : ascii :=
  match String.get (Z.to_nat n) "0123456789abcdef" with
  | Some c => c
  | None => "0"%char
  end.

Fixpoint EncodeToString (src : list Z) : string :=
  match src with
  | [] => EmptyString
  | v :: rest =>
      String (hexDigit (Z.shiftr v 4))
        (String (hexDigit (Z.land v 15)) (EncodeToString rest))
  end.

(** [hex.DecodeString] with both results: the bytes decoded before the
    first fault come back with the error. *)
Fixpoint Decode (s : string) : list Z * option Go.hex_error :=
  match s with
  | EmptyString => ([], None)
  | String a EmptyString =>
      match Go.fromHexChar a with
      | None => ([], Some (Go.InvalidByteError a))
      | Some _ => ([], Some Go.ErrLength)
      end
  | String a (String b rest) =>
      match Go.fromHexChar a with
      | None => ([], Some (Go.InvalidByteError a))
      | Some x =>
          match Go.fromHexChar b with
          | None => ([], Some (Go.InvalidByteError b))
          | Some y =>
              let '(bytes, err) := Decode rest in
              (Z.lor (Z.shiftl x 4) y :: bytes, err)
          end
      end
  end.

End Strings.

(** ** packages/smart/smart_p.go, the string and byte helpers *)

Section Helpers.

Context (ext : Externals) (u : Strings.Utf8).

(** The loop of [Join]: [i] is the index of the next item. *)
Fixpoint Join_loop (sep : string) (i : nat) (ret : string) (input : list Value)
  : string :=
  match input with
  | [] => ret
  | item :: rest =>
      let ret := if (0 <? i)%nat then ret +:+ sep else ret in
      Join_loop sep (S i) (ret +:+ Sprint ext item) rest
  end.

(** [func Join(input []interface{}, sep string) string] *)
Definition Join (input : list Value) (sep : string) : string :=
  Join_loop sep 0 EmptyString input.

(** [func Split(input, sep string) []interface{}] *)
Definition Split (input sep : string) : list Value :=
  map VStr (Strings.Split u input sep).

(** [func Replace(s, old, new string) string] *)
Definition Replace (s old new : string) : string :=
  Strings.Replace u s old new.

(** [func HexToBytes(hexdata string) ([]byte, error)] *)
Definition HexToBytes (hexdata : string) : list Z * option Go.hex_error :=
  Strings.Decode hexdata.

(** [func Append(slice []interface{}, val interface{}) []interface{}] *)
Definition Append (slice : list Value) (val : Value) : list Value :=
  slice ++ [val].

End Helpers.

(** ** The API test helpers (package [api]) *)

(** [func RawToString(input json.RawMessage) string] *)
Definition RawToString (u : Strings.Utf8) (input : string) : string :=
  let out := Strings.TrimByte input (ascii_of_nat 34) in
  Strings.Replace u out (String (ascii_of_nat 92) dq) dq.

(** ** Predicates for the further statements *)

(** No byte of [s] is [c]. *)
Fixpoint free_of (c : ascii) (s : string) : bool :=
  match s with
  | EmptyString => true
  | String a rest => negb (Ascii.eqb a c) && free_of c rest
  end.

(** [Obeys pan E Q P m]: whatever the answers, every log record and call
    of the body [m] satisfies [E]; if it executes [return r] then [Q r], if
    it falls through with [a] then [P a]; it panics only if [pan]. *)
Fixpoint Obeys {R A : Type} (pan : Prop) (E : Event -> Prop) (Q : R -> Prop)
    (P : A -> Prop) (m : Fn R A) : Prop :=
  match m with
  | Ret (inl r) => Q r
  | Ret (inr a) => P a
  | Panic _ => pan
  | Log e k => E (EvLog e) /\ Obeys pan E Q P k
  | Do c k => E (EvCall c) /\ forall x, Obeys pan E Q P (k x)
  end.

(** What a finished run shows of it. *)
Definition obeyed {W R : Type} (pan : Prop) (E : Event -> Prop) (Q : R -> Prop)
    (r : Run W R) : Prop :=
  Forall E (trace r) /\
  match outcome r with
  | Returned res => Q res
  | Panicked _ => pan
  end.

(** The integer parameters of [UpdateSysParam] and their ranges. *)
Definition int_range (ext : Externals) (name : string) (v : Z) : Prop :=
  (name = "gap_between_blocks"%string /\ 0 < v < 86400)
  \/ (In name ["rb_blocks_1"; "number_of_nodes"]%string /\ 0 < v < 1000)
  \/ (In name ["ecosystem_price"; "contract_price"; "column_price";
               "table_price"; "menu_price"; "page_price";
               "commission_size"]%string /\ 0 <= v)
  \/ (In name ["max_block_size"; "max_tx_size"; "max_tx_count";
               "max_columns"; "max_indexes"; "max_block_user_tx";
               "max_fuel_tx"; "max_fuel_block"; "max_forsign_size"]%string /\ 0 < v)
  \/ (Go.HasPrefix name "extend_cost_" = true /\ name <> FullNodes ext /\ 0 <= v).

Definition int_param (ext : Externals) (name : string) : Prop :=
  In name ["gap_between_blocks"; "rb_blocks_1"; "number_of_nodes";
           "ecosystem_price"; "contract_price"; "column_price";
           "table_price"; "menu_price"; "page_price"; "commission_size";
           "max_block_size"; "max_tx_size"; "max_tx_count";
           "max_columns"; "max_indexes"; "max_block_user_tx";
           "max_fuel_tx"; "max_fuel_block"; "max_forsign_size"]%string
  \/ (Go.HasPrefix name "extend_cost_" = true /\ name <> FullNodes ext).

(** The write [UpdateSysParam] issues for a value and, when non-empty,
    conditions. *)
Definition sysparam_write (ext : Externals) (sc : SmartContract)
    (par : SystemParameter) (value conditions : string) : Event :=
  EvCall (selectiveLoggingAndUpd sc
            ((if Go.len value >? 0 then ["value"%string] else [])
             ++ (if Go.len conditions >? 0 then ["conditions"%string] else []))
            ((if Go.len value >? 0 then [VStr value] else [])
             ++ (if Go.len conditions >? 0 then [VStr conditions] else []))
            "1_system_parameters" ["id"%string] [Int64ToStr ext (par_ID par)]
            (negb (VDE sc) && Rollback sc) false).

(** The names the switch of [UpdateSysParam] lists before [FullNodes]. *)
Definition switch_names : list string :=
  ["gap_between_blocks"; "rb_blocks_1"; "number_of_nodes";
   "ecosystem_price"; "contract_price"; "column_price";
   "table_price"; "menu_price"; "page_price"; "commission_size";
   "max_block_size"; "max_tx_size"; "max_tx_count";
   "max_columns"; "max_indexes"; "max_block_user_tx";
   "max_fuel_tx"; "max_fuel_block"; "max_forsign_size";
   "fuel_rate"; "commission_wallet"]%string.

(** The log records and calls of [UpdateSysParam] up to the end of the
    checks of the parameter's conditions, when they let the caller in. *)
Definition gate_trace (sc : SmartContract) (name : string)
    (par : SystemParameter) : list Event :=
  EvCall (SystemParameter_Get name)
  :: (if Go.len (par_Conditions par) >? 0
      then [EvCall (EvalIf sc (par_Conditions par))] else []).

(** What [UpdateSysParam] may ask of the node for the parameter [name]:
    the lookup, the evaluation of the conditions the parameter has, the
    compilation of the conditions given, the cache refresh, and one write,
    of the value and conditions columns of the row of
    [1_system_parameters]. *)
Definition sysparam_policy (sc : SmartContract) (name conditions : string)
    (e : Event) : Prop :=
  match e with
  | EvLog _ => True
  | EvCall c =>
      match c with
      | SystemParameter_Get n => n = name
      | EvalIf sc' _ => sc' = sc
      | CompileEval cond state => cond = conditions /\ state = 0
      | SysUpdate_ => True
      | selectiveLoggingAndUpd sc' fields values table whereFields _ _ mustExist =>
          sc' = sc /\ table = "1_system_parameters"%string
          /\ whereFields = ["id"%string] /\ mustExist = false
          /\ fields <> [] /\ incl fields ["value"; "conditions"]%string
          /\ length fields = length values
      | _ => False
      end
  end.

(** What [UpdateSysParam] returns: 0, and the context with [SysUpdate] set
    exactly when there is no error. *)
Definition sysparam_result (sc : SmartContract)
    (r : Z * option error * SmartContract) : Prop :=
  let '(n, err, sc') := r in
  n = 0 /\ sc' = match err with None => set_SysUpdate true sc | Some _ => sc end.

(** What [DBUpdateExt] may ask of the node: the two access checks and one
    update, all on the resolved table, which is then no report table. *)
Definition update_ext_policy (ext : Externals) (sc : SmartContract)
    (tblname column : string) (value : Value) (e : Event) : Prop :=
  let table := getDefTableName ext sc tblname in
  match e with
  | EvLog _ => True
  | EvCall c =>
      match c with
      | AccessTable sc' t action =>
          sc' = sc /\ t = table /\ action = "update"%string
      | AccessColumns sc' t _ update => sc' = sc /\ t = table /\ update = true
      | selectiveLoggingAndUpd sc' _ _ t whereFields whereValues _ mustExist =>
          sc' = sc /\ t = table /\ Go.Contains t "_reports_" = false
          /\ whereFields = [column] /\ whereValues = [Sprint ext value]
          /\ mustExist = true
      | _ => False
      end
  end.

(** What [RollbackContract] may ask of the node: the lookup of the
    contract [name] in the caller's ecosystem, as a [uint32], and the
    pruning of the VM; nothing of the database or the journal. *)
Definition vm_policy (sc : SmartContract) (name : string) (e : Event) : Prop :=
  match e with
  | EvLog _ => True
  | EvCall c =>
      match c with
      | VMGetContract n state =>
          n = name /\ state = uint32 (TxSmart_EcosystemID sc)
      | VM_Children_len | VM_Children_truncate _ | VM_Objects_delete _ => True
      | _ => False
      end
  end.

(** The contexts [CreateEcosystem] can leave behind: as it was, inside the
    full-access window, or closed with the rollback flag set. *)
Definition ecosystem_window (sc : SmartContract) : SmartContract :=
  set_FullAccess true (set_Rollback false sc).

Definition ecosystem_closed (sc : SmartContract) : SmartContract :=
  set_Rollback true (set_FullAccess false sc).

Definition ecosystem_result (sc : SmartContract)
    (r : Z * option error * SmartContract) : Prop :=
  let '(id, err, sc') := r in
  (sc' = sc \/ sc' = ecosystem_window sc \/ sc' = ecosystem_closed sc)
  /\ (err = None -> sc' = ecosystem_closed sc)
  /\ (err <> None -> id = 0).

(** ** More sample data *)

Module Sample.

(** Text of one-byte characters only. *)
Fixpoint bytes (s : string) : list string :=
  match s with
  | EmptyString => []
  | String c rest => String c EmptyString :: bytes rest
  end.

Definition ascii_text : Strings.Utf8 := {|
  Strings.explode := bytes;
  Strings.expand := fun s new =>
    new +:+ String.concat EmptyString (map (fun r => r +:+ new) (bytes s));
|}.

Definition envelope : tx.SmartContract := {|
  tx.header := {| tx.Type_ := 274; tx.Time := 1530000000;
                  tx.EcosystemID := 1; tx.KeyID := -1744264011260937456 |};
  tx.RequestID := "6f1e";
  tx.TokenEcosystem := 1;
  tx.MaxSum := "10000";
  tx.PayOver := "0";
  tx.SignedBy := 0;
  tx.Data := [];
|}.

(** The same envelope with another payload. *)
Definition envelope' : tx.SmartContract := {|
  tx.header := tx.header envelope;
  tx.RequestID := tx.RequestID envelope;
  tx.TokenEcosystem := tx.TokenEcosystem envelope;
  tx.MaxSum := tx.MaxSum envelope;
  tx.PayOver := tx.PayOver envelope;
  tx.SignedBy := tx.SignedBy envelope;
  tx.Data := [1; 2; 3];
|}.

(** A sign specification and a decoder that knows it. *)
Definition sign_spec_text : string :=
  "{" +:+ dq +:+ "title" +:+ dq +:+ ":" +:+ dq +:+ "Transfer" +:+ dq +:+ ","
      +:+ dq +:+ "params" +:+ dq +:+ ":[{" +:+ dq +:+ "name" +:+ dq +:+ ":"
      +:+ dq +:+ "Amount" +:+ dq +:+ "," +:+ dq +:+ "text" +:+ dq +:+ ":"
      +:+ dq +:+ "amount" +:+ dq +:+ "}]}".

Definition sign_spec : TxSignJSON := {|
  sign_ForSign := EmptyString;
  sign_Field := EmptyString;
  sign_Title := "Transfer";
  sign_Params := [{| Param := "Amount"; Text := "amount" |}];
|}.

Definition ext : Externals := {|
  StrToInt64 := StrToInt64 Ref.ext;
  Int64ToStr := Int64ToStr Ref.ext;
  FullNodes := FullNodes Ref.ext;
  Unmarshal_pairs := Unmarshal_pairs Ref.ext;
  Unmarshal_FullNodes := fun s =>
    match Unmarshal_pairs Ref.ext s with
    | inr l => inr (Z.of_nat (length l))
    | inl e => inl e
    end;
  Unmarshal_TxSignJSON := fun s =>
    if String.eqb s sign_spec_text then inr sign_spec
    else inl Ref.json_error;
  ErrInvalidValue_text := ErrInvalidValue_text Ref.ext;
  accessContracts := accessContracts Ref.ext;
  getDefTableName := getDefTableName Ref.ext;
  Len := Len Ref.ext;
  ParseContract := ParseContract Ref.ext;
  Address := Address Ref.ext;
  Sprint := Sprint Ref.ext;
|}.

(** A node that refuses the column [id], fails on inserts into
    [@1_languages], finds no signature valid and holds a key for every
    wallet.  Its node lists are written as arrays of arrays. *)
Definition host : Host Ref.World := fun X c w =>
  match c in Call X return X * Ref.World with
  | AccessColumns _ _ columns _ =>
      if str_in "id" columns then ((columns, Some errAccessDenied), w)
      else ((columns, None), w)
  | DBInsert sc tblname params val =>
      if String.eqb tblname "@1_languages"
      then ((0, 0, Some (External "pq: duplicate key")), w)
      else Ref.host _ (DBInsert sc tblname params val) w
  | DBSelect _ _ _ _ _ _ _ _ _ _ =>
      ((0, [VMap [("pub"%string, VStr "04ab")]], None), w)
  | CheckSign _ _ _ _ => ((false, None), w)
  | other => Ref.host _ other w
  end.

Definition w_signed : Ref.World := {|
  Ref.sysparams :=
    <["full_nodes"%string := Ref.param 4 "full_nodes" "[]" EmptyString]>
    (<["blockchain_url"%string := Ref.param 5 "blockchain_url" EmptyString "true"]>
    (Ref.sysparams Ref.w_open));
  Ref.signatures := <["TransferMoney"%string := sign_spec_text]> ∅;
  Ref.denied := [];
  Ref.written := [];
  Ref.journal := 0;
|}.

(** A node that has parameters named after [DBInsert], which the cost
    table does not list. *)
Definition w_costs : Ref.World := {|
  Ref.sysparams :=
    <["extend_cost_DBInsert"%string := Ref.param 6 "extend_cost_DBInsert" "200" "true"]>
    (<["extend_cost_db_insert"%string := Ref.param 7 "extend_cost_db_insert" "200" "true"]>
    (Ref.sysparams Ref.w_open));
  Ref.signatures := ∅;
  Ref.denied := [];
  Ref.written := [];
  Ref.journal := 0;
|}.

(** [@1NewEcosystem] in VDE mode. *)
Definition sc_new_vde : SmartContract := Ref.with_flags true true Ref.sc_new.

Definition sc_lang : SmartContract := Ref.with_contract "@1NewLang" Ref.sc0.

(** The extend map of a transfer: the context, the signer, the time, the
    amount and a co-signature. *)
Definition transfer_of (amount : string) (signature : Value) : gmap string Value :=
  <["sc"%string := VContext Ref.sc0]>
  (<["key_id"%string := VInt (-1744264011260937456)]>
  (<["time"%string := VInt 1530000000]>
  (<["Amount"%string := VStr amount]>
  (<["Signature"%string := signature]> ∅)))).

Definition transfer : Value -> gmap string Value := transfer_of "1000".

End Sample.

(** * Properties *)

(** ** The signable string *)

Lemma append_empty_r (s : string) : s +:+ EmptyString = s.
Proof.
  induction s as [|c s IH]; [reflexivity|].
  change (String c (s +:+ EmptyString) = String c s). now f_equal.
Qed.

Lemma append_empty_l (s : string) : EmptyString +:+ s = s.
Proof. reflexivity. Qed.

Lemma append_cons (c : ascii) (a b : string) :
  String c a +:+ b = String c (a +:+ b).
Proof. reflexivity. Qed.

Lemma append_assoc (a b c : string) : (a +:+ b) +:+ c = a +:+ (b +:+ c).
Proof.
  induction a as [|x a IH]; [reflexivity|].
  change (String x ((a +:+ b) +:+ c) = String x (a +:+ (b +:+ c))).
  now f_equal.
Qed.

Lemma length_append (a b : string) :
  String.length (a +:+ b) = (String.length a + String.length b)%nat.
Proof.
  induction a as [|x a IH]; [reflexivity|].
  change (S (String.length (a +:+ b)) = S (String.length a + String.length b)).
  now f_equal.
Qed.

(** C1. [ForSign] is the comma-join of RequestID, Type, Time, KeyID,
    EcosystemID, TokenEcosystem, MaxSum, PayOver and SignedBy, in that
    order, the integers in decimal; nothing else is in the string. *)
Theorem ForSign_is_comma_join (s : tx.SmartContract) :
  tx.ForSign s =
  Go.Join [tx.RequestID s;
           Go.FormatInt (tx.Type_ (tx.header s));
           Go.FormatInt (tx.Time (tx.header s));
           Go.FormatInt (tx.KeyID (tx.header s));
           Go.FormatInt (tx.EcosystemID (tx.header s));
           Go.FormatInt (tx.TokenEcosystem s);
           tx.MaxSum s;
           tx.PayOver s;
           Go.FormatInt (tx.SignedBy s)] ",".
Proof.
  unfold tx.ForSign, Go.Join. cbn [Go.Sprintf String.concat].
  unfold Go.verb, Go.render, Go.extra. cbn.
  now rewrite append_empty_r.
Qed.

(** ** Substr *)

Lemma substring_past (n m : nat) (s : string) :
  (String.length s <= n + m)%nat ->
  substring n m s = substring n (String.length s - n) s.
Proof.
  revert n m. induction s as [|c s IH]; intros n m Hlen.
  - destruct n, m; reflexivity.
  - destruct n as [|n].
    + cbn [String.length] in *. destruct m as [|m]; [cbn in Hlen; lia|].
      cbn [substring Nat.sub]. f_equal.
      rewrite (IH 0%nat m) by (cbn in *; lia).
      now rewrite Nat.sub_0_r.
    + cbn [substring String.length Nat.sub]. apply IH. cbn in Hlen. lia.
Qed.

(** Away from the [int64] boundary [Substr] does what its callers expect:
    the empty string outside the string, the clamped substring inside. *)
Lemma Substr_without_overflow (s : string) (off slen : Z) :
  off + slen <= Go.int64_max ->
  Substr s off slen =
  Some (if (off <? 0) || (slen <? 0) || (off >? Go.len s) then EmptyString
        else substring (Z.to_nat off)
               (Z.to_nat (Z.min slen (Go.len s - off))) s).
Proof.
  intros Hsum. unfold Substr.
  destruct ((off <? 0) || (slen <? 0) || (off >? Go.len s)) eqn:Hguard;
    [reflexivity|].
  apply orb_false_elim in Hguard as [Hguard Hoff].
  apply orb_false_elim in Hguard as [Hneg Hslen].
  apply Z.ltb_ge in Hneg, Hslen. rewrite Z.gtb_ltb in Hoff. apply Z.ltb_ge in Hoff.
  assert (Hwrap : Go.add64 off slen = off + slen).
  { unfold Go.add64, Go.wrap64, Go.int64_max in *.
    rewrite Z.mod_small by lia. lia. }
  rewrite Hwrap. unfold Go.len in *.
  destruct (off + slen >? Z.of_nat (String.length s)) eqn:Hcmp;
    rewrite Z.gtb_ltb in Hcmp.
  - apply Z.ltb_lt in Hcmp. unfold Go.slice_from, Go.len.
    replace (0 <=? off) with true by (symmetry; apply Z.leb_le; lia).
    replace (off <=? Z.of_nat (String.length s)) with true
      by (symmetry; apply Z.leb_le; lia).
    cbn [andb]. f_equal.
    rewrite Z.min_r by lia.
    f_equal. lia.
  - apply Z.ltb_ge in Hcmp. unfold Go.slice, Go.len.
    replace (0 <=? off) with true by (symmetry; apply Z.leb_le; lia).
    replace (off <=? off + slen) with true by (symmetry; apply Z.leb_le; lia).
    replace (off + slen <=? Z.of_nat (String.length s)) with true
      by (symmetry; apply Z.leb_le; lia).
    cbn [andb]. f_equal.
    rewrite Z.min_l by lia. f_equal. f_equal. lia.
Qed.

(** C7. [Substr] panics on a well-formed call: with [off = 1] and
    [slen = math.MaxInt64] the sum wraps to [math.MinInt64], the clamp
    [off+slen > ilen] is not taken and [s[off:off+slen]] is evaluated with
    a negative upper bound. *)
Theorem Substr_panics_on_overflow :
  Go.is_int64 1 /\ Go.is_int64 Go.int64_max /\
  Go.add64 1 Go.int64_max = Go.int64_min /\
  Substr "abc" 1 Go.int64_max = None.
Proof. repeat split; vm_compute; congruence. Qed.

(** ** PubToID *)

Lemma DecodeString_valid (s : string) :
  valid_hex s = true <-> exists bytes, Go.DecodeString s = inr bytes.
Proof.
  induction s as [|a|a b rest IH] using string_pair_ind.
  - split; [exists []; reflexivity | reflexivity].
  - split; [discriminate|]. intros [bytes H]. cbn in H.
    destruct (Go.fromHexChar a); discriminate.
  - unfold valid_hex in *.
    cbn [String.length Nat.even all_hex Go.DecodeString].
    destruct (Go.fromHexChar a) as [x|].
    2:{ rewrite andb_false_r. split; [discriminate | intros [? ?]; discriminate]. }
    destruct (Go.fromHexChar b) as [y|].
    2:{ rewrite andb_false_r. split; [discriminate | intros [? ?]; discriminate]. }
    rewrite IH. split.
    + intros [bytes ->]. eauto.
    + intros [bytes H]. destruct (Go.DecodeString rest); [discriminate | eauto].
Qed.

Lemma DecodeString_invalid (s : string) :
  valid_hex s = false -> exists e, Go.DecodeString s = inl e.
Proof.
  intros H. destruct (Go.DecodeString s) as [e|bytes] eqn:E; [eauto|].
  assert (valid_hex s = true) by (apply DecodeString_valid; eauto).
  congruence.
Qed.

(** C10. On a string that is not valid hexadecimal [PubToID] returns 0: no
    error value, no panic, no call, one log record.  A key whose address is
    0 gives the caller the same result. *)
Theorem PubToID_invalid_hex {W : Type} (h : Host W) (ext : Externals) (w : W)
    (hexkey : string) :
  valid_hex hexkey = false ->
  run h (PubToID ext hexkey) w =
    {| outcome := Returned 0; world := w;
       trace := [EvLog {| log_type := CryptoError;
                          log_msg := "decoding hexkey to string" |}] |}
  /\ forall key pubkey,
       Go.DecodeString key = inr pubkey ->
       Address ext pubkey = 0 ->
       outcome (run h (PubToID ext key) w) = outcome (run h (PubToID ext hexkey) w).
Proof.
  intros Hinv. destruct (DecodeString_invalid hexkey Hinv) as [e He].
  unfold PubToID. rewrite He. split; [reflexivity|].
  intros key pubkey Hkey Haddr. rewrite Hkey. cbn. now rewrite Haddr.
Qed.

Lemma PubToID_invalid_hex_witness :
  run Ref.host (PubToID Ref.ext "zz") Ref.w_open =
    {| outcome := Returned 0; world := Ref.w_open;
       trace := [EvLog {| log_type := CryptoError;
                          log_msg := "decoding hexkey to string" |}] |}
  /\ outcome (run Ref.host (PubToID Ref.ext "00") Ref.w_open)
     = outcome (run Ref.host (PubToID Ref.ext "zz") Ref.w_open).
Proof.
  destruct (PubToID_invalid_hex Ref.host Ref.ext Ref.w_open "zz" eq_refl)
    as [Hrun Hsame].
  split; [exact Hrun|].
  apply (Hsame "00"%string [0]); reflexivity.
Defined.

(** ** getCostP *)

(** A map literal answers a key with the value of its first entry for
    that key. *)
Lemma list_to_map_find (l : list (string * string)) (k : string) :
  (list_to_map l : gmap string string) !! k
  = snd <$> List.find (fun p : string * string => String.eqb p.1 k) l.
Proof.
  induction l as [|[a b] l IH]; [apply lookup_empty|].
  cbn [list_to_map foldr List.find fst snd curry].
  destruct (String.eqb_spec a k) as [->|Hne].
  - simplify_map_eq. reflexivity.
  - simplify_map_eq. exact IH.
Qed.

(** C6 as the code has it.  [getCostP n] asks the parameter cache only for
    the 31 names of [extendCostSysParams], each under the parameter the
    table assigns to it: the value of that parameter when the cache has
    it, -1 when it has not.  For every other name the answer is -1 and the
    cache is not asked, whatever parameters the node has. *)
Theorem getCostP_spec {W : Type} (h : Host W) (w : W) (name : string) :
  let table := [
    ("AddressToId", "extend_cost_address_to_id");
    ("IdToAddress", "extend_cost_id_to_address");
    ("NewState", "extend_cost_new_state");
    ("Sha256", "extend_cost_sha256");
    ("PubToID", "extend_cost_pub_to_id");
    ("EcosysParam", "extend_cost_ecosys_param");
    ("SysParamString", "extend_cost_sys_param_string");
    ("SysParamInt", "extend_cost_sys_param_int");
    ("SysFuel", "extend_cost_sys_fuel");
    ("ValidateCondition", "extend_cost_validate_condition");
    ("EvalCondition", "extend_cost_eval_condition");
    ("HasPrefix", "extend_cost_has_prefix");
    ("Contains", "extend_cost_contains");
    ("Replace", "extend_cost_replace");
    ("Join", "extend_cost_join");
    ("Size", "extend_cost_size");
    ("Substr", "extend_cost_substr");
    ("Eval", "extend_cost_eval");
    ("Len", "extend_cost_len");
    ("Activate", "extend_cost_activate");
    ("Deactivate", "extend_cost_deactivate");
    ("CreateEcosystem", "extend_cost_create_ecosystem");
    ("TableConditions", "extend_cost_table_conditions");
    ("CreateTable", "extend_cost_create_table");
    ("PermTable", "extend_cost_perm_table");
    ("ColumnCondition", "extend_cost_column_condition");
    ("CreateColumn", "extend_cost_create_column");
    ("PermColumn", "extend_cost_perm_column");
    ("JSONToMap", "extend_cost_json_to_map");
    ("GetContractByName", "extend_cost_contract_by_name");
    ("GetContractById", "extend_cost_contract_by_id")
  ]%string in
  run h (getCostP name) w =
  match List.find (fun p : string * string => String.eqb p.1 name) table with
  | Some (_, key) =>
      let has := h _ (HasSys key) w in
      if has.1 then
        let val := h _ (SysInt64 key) has.2 in
        {| outcome := Returned val.1; world := val.2;
           trace := [EvCall (HasSys key); EvCall (SysInt64 key)] |}
      else
        {| outcome := Returned (-1); world := has.2;
           trace := [EvCall (HasSys key)] |}
  | None => {| outcome := Returned (-1); world := w; trace := [] |}
  end.
Proof.
  intros table. unfold getCostP, extendCostSysParams.
  rewrite list_to_map_find. fold table.
  destruct (List.find _ table) as [[n key]|]; [|reflexivity].
  cbn. destruct (h _ (HasSys key) w) as [[|] w1]; reflexivity.
Qed.

Lemma getCostP_spec_witness :
  run Ref.host (getCostP "Sha256") Ref.w_open =
    {| outcome := Returned 50; world := Ref.w_open;
       trace := [EvCall (HasSys "extend_cost_sha256");
                 EvCall (SysInt64 "extend_cost_sha256")] |}
  /\ run Ref.host (getCostP "Sha256") Ref.w_closed =
       {| outcome := Returned (-1); world := Ref.w_closed;
          trace := [EvCall (HasSys "extend_cost_sha256")] |}.
Proof.
  split.
  - rewrite (getCostP_spec Ref.host Ref.w_open "Sha256"). vm_compute. reflexivity.
  - rewrite (getCostP_spec Ref.host Ref.w_closed "Sha256"). vm_compute. reflexivity.
Defined.

(** C6 as stated fails for a name the table does not list: the node has
    the parameters [extend_cost_DBInsert] and [extend_cost_db_insert], both
    200, and [getCostP "DBInsert"] is -1 without a look at the cache. *)
Lemma getCostP_outside_table :
  (Ref.host _ (HasSys "extend_cost_DBInsert") Sample.w_costs).1 = true
  /\ (Ref.host _ (SysInt64 "extend_cost_DBInsert") Sample.w_costs).1 = 200
  /\ (Ref.host _ (HasSys "extend_cost_db_insert") Sample.w_costs).1 = true
  /\ (Ref.host _ (SysInt64 "extend_cost_db_insert") Sample.w_costs).1 = 200
  /\ run Ref.host (getCostP "DBInsert") Sample.w_costs =
       {| outcome := Returned (-1); world := Sample.w_costs; trace := [] |}.
Proof. repeat split; vm_compute; reflexivity. Qed.

(** ** Running and tracing *)

Lemma Calls_bind {A B : Type} (P : Event -> Prop) (m : M A) (f : A -> M B) :
  Calls P m -> (forall a, Calls P (f a)) -> Calls P (bind m f).
Proof.
  intros Hm Hf. induction m as [a|msg|e k IH|X c k IH]; cbn in *.
  - apply Hf.
  - exact I.
  - destruct Hm. split; auto.
  - destruct Hm as [Hc Hk]. split; [exact Hc|]. intros x. apply IH, Hk.
Qed.

Lemma Calls_fn_bind {R A B : Type} (P : Event -> Prop) (m : Fn R A)
    (f : A -> Fn R B) :
  Calls P m -> (forall a, Calls P (f a)) -> Calls P (fn_bind m f).
Proof.
  intros Hm Hf. apply Calls_bind; [exact Hm|].
  intros [r|a]; [exact I | apply Hf].
Qed.

Lemma Calls_body {R : Type} (P : Event -> Prop) (m : Fn R R) :
  Calls P m -> Calls P (body m).
Proof. intros Hm. apply Calls_bind; [exact Hm|]. intros [r|r]; exact I. Qed.

Lemma Calls_run {W A : Type} (P : Event -> Prop) (h : Host W) (m : M A) :
  Calls P m -> forall w, Forall P (trace (run h m w)).
Proof.
  induction m as [a|msg|e k IH|X c k IH]; cbn; intros Hm w.
  - constructor.
  - constructor.
  - destruct Hm. constructor; auto.
  - destruct Hm as [Hc Hk]. constructor; [exact Hc|]. apply IH, Hk.
Qed.

Lemma len_pos (s : string) : s <> EmptyString -> (Go.len s >? 0) = true.
Proof.
  intros H. destruct s; [congruence|]. unfold Go.len. cbn [String.length].
  rewrite Z.gtb_ltb. apply Z.ltb_lt. lia.
Qed.

(** Walk a body statement by statement. *)
Ltac calls_step :=
  match goal with
  | |- Calls _ (body _) => apply Calls_body
  | |- Calls _ (fn_bind _ _) => apply Calls_fn_bind; [|intros]
  | |- Calls _ (when_ ?b _) => unfold when_; destruct b eqn:?
  | |- Calls _ (match ?x with _ => _ end) => destruct x eqn:?
  | |- Calls _ (go _) => cbn; split; [|intros; exact I]
  | |- Calls _ (logE _ _) => cbn; split; [|exact I]
  | |- Calls _ (return_ _) => exact I
  | |- Calls _ (pure _) => exact I
  | |- Calls _ (panic _) => exact I
  | |- Calls _ (Ret _) => exact I
  end.

(** ** Caller gates *)

(** C2. A whitelisted host function called from a contract outside its
    whitelist returns its error, logs one record of kind
    [IncorrectCallingContract], makes no call and leaves the world and the
    context as they were: [CreateEcosystem] outside [@1NewEcosystem],
    [CreateLanguage] outside NewLang, NewLangJoint and Import, [Activate]
    and [Deactivate] outside ActivateContract and DeactivateContract. *)
Theorem admin_gate_refuses {W : Type} (h : Host W) (ext : Externals)
    (sc : SmartContract) (w : W) :
  (TxContract_Name sc <> "@1NewEcosystem"%string ->
   forall wallet name,
     refused (run h (CreateEcosystem ext sc wallet name) w)
       (0, Some (Errorf "CreateEcosystem can be only called from @1NewEcosystem"), sc)
       w IncorrectCallingContract
       "CreateEcosystem can be only called from @1NewEcosystem")
  /\ (accessContracts ext sc ["NewLang"; "NewLangJoint"; "Import"]%string = false ->
      forall name trans appID,
        refused (run h (CreateLanguage ext sc name trans appID) w)
          (0, Some (Errorf
             "CreateLanguage can be only called from @1NewLang, @1NewLangJoint, @1Import"))
          w IncorrectCallingContract
          "CreateLanguage can be only called from @1NewLang, @1NewLangJoint, @1Import")
  /\ (accessContracts ext sc ["ActivateContract"; "DeactivateContract"]%string = false ->
      forall tblid state,
        refused (run h (Activate ext sc tblid state) w)
          (Some (Errorf
             "ActivateContract can be only called from @1ActivateContract or @1DeactivateContract"))
          w IncorrectCallingContract
          "ActivateContract can be only called from @1ActivateContract or @1DeactivateContract"
        /\
        refused (run h (Deactivate ext sc tblid state) w)
          (Some (Errorf
             "DeactivateContract can be only called from @1ActivateContract or @1DeactivateContract"))
          w IncorrectCallingContract
          "DeactivateContract can be only called from @1ActivateContract or @1DeactivateContract").
Proof.
  split; [|split].
  - intros Hname wallet name. unfold refused, CreateEcosystem.
    destruct (String.eqb_spec (TxContract_Name sc) "@1NewEcosystem");
      [contradiction | reflexivity].
  - intros Hacc name trans appID. unfold refused, CreateLanguage.
    rewrite Hacc. reflexivity.
  - intros Hacc tblid state.
    unfold refused, Activate, Deactivate, nActivateContract, nDeactivateContract.
    rewrite Hacc. split; reflexivity.
Qed.

Lemma admin_gate_refuses_witness :
  refused (run Ref.host (CreateEcosystem Ref.ext Ref.sc0 7 "eco") Ref.w_open)
    (0, Some (Errorf "CreateEcosystem can be only called from @1NewEcosystem"), Ref.sc0)
    Ref.w_open IncorrectCallingContract
    "CreateEcosystem can be only called from @1NewEcosystem"
  /\ refused (run Ref.host (CreateLanguage Ref.ext Ref.sc0 "hello" "{}" 1) Ref.w_open)
       (0, Some (Errorf
          "CreateLanguage can be only called from @1NewLang, @1NewLangJoint, @1Import"))
       Ref.w_open IncorrectCallingContract
       "CreateLanguage can be only called from @1NewLang, @1NewLangJoint, @1Import"
  /\ refused (run Ref.host (Activate Ref.ext Ref.sc0 5 1) Ref.w_open)
       (Some (Errorf
          "ActivateContract can be only called from @1ActivateContract or @1DeactivateContract"))
       Ref.w_open IncorrectCallingContract
       "ActivateContract can be only called from @1ActivateContract or @1DeactivateContract".
Proof.
  destruct (admin_gate_refuses Ref.host Ref.ext Ref.sc0 Ref.w_open)
    as (Heco & Hlang & Hact).
  split; [apply Heco; vm_compute; discriminate|].
  split; [apply Hlang; vm_compute; reflexivity|].
  apply Hact. vm_compute; reflexivity.
Defined.

(** The other gated functions of the file behave the same way. *)
Lemma other_gates_refuse {W : Type} (h : Host W) (ext : Externals)
    (sc : SmartContract) (w : W) :
  (accessContracts ext sc ["EditLang"; "EditLangJoint"; "Import"]%string = false ->
   forall id name trans appID,
     refused (run h (EditLanguage ext sc id name trans appID) w)
       (Some (Errorf
          "EditLanguage can be only called from @1EditLang, @1EditLangJoint and @1Import"))
       w IncorrectCallingContract
       "EditLanguage can be only called from @1EditLang, @1EditLangJoint and @1Import")
  /\ (TxContract_Name sc <> "@1EditEcosystemName"%string ->
      forall sysID newName,
        refused (run h (EditEcosysName sc sysID newName) w)
          (Some (Errorf "EditEcosystemName can be only called from @1EditEcosystemName"))
          w IncorrectCallingContract
          "EditEcosystemName can be only called from @1EditEcosystemName")
  /\ (accessContracts ext sc ["NewContract"; "Import"]%string = false ->
      forall name,
        refused (run h (RollbackContract ext sc name) w)
          (Some errAccessRollbackContract) w IncorrectCallingContract
          "Check contract access").
Proof.
  split; [|split].
  - intros Hacc id name trans appID. unfold refused, EditLanguage.
    rewrite Hacc. reflexivity.
  - intros Hname sysID newName. unfold refused, EditEcosysName.
    destruct (String.eqb_spec (TxContract_Name sc) "@1EditEcosystemName");
      [contradiction | reflexivity].
  - intros Hacc name. unfold refused, RollbackContract, nNewContract, nImport.
    rewrite Hacc. reflexivity.
Qed.

(** ** Report tables *)

(** C8 as the code has it.  On a table whose resolved name contains
    [_reports_], [DBUpdateExt] asks [AccessTable] and returns: the error of
    [AccessTable] when it has one, ["Access denied to report table"]
    otherwise.  Either way [AccessTable] is the only call made: no column
    check, no [selectiveLoggingAndUpd], so no row and no journal record. *)
Theorem DBUpdateExt_reports_refused {W : Type} (h : Host W) (ext : Externals)
    (sc : SmartContract) (w : W) (tblname column : string) (value : Value)
    (params : string) (val : list Value) :
  Go.Contains (getDefTableName ext sc tblname) "_reports_" = true ->
  let table := getDefTableName ext sc tblname in
  let access := h _ (AccessTable sc table "update") w in
  run h (DBUpdateExt ext sc tblname column value params val) w =
    {| outcome :=
         Returned (0, Some (match access.1 with
                            | Some e => e
                            | None => Errorf "Access denied to report table"
                            end));
       world := access.2;
       trace := [EvCall (AccessTable sc table "update")] |}.
Proof.
  intros Hrep table access. unfold DBUpdateExt. cbv zeta.
  rewrite Hrep. subst access table. cbn.
  destruct (h _ (AccessTable sc (getDefTableName ext sc tblname) "update") w).1;
    reflexivity.
Qed.

Lemma DBUpdateExt_reports_refused_witness :
  run Ref.host
    (DBUpdateExt Ref.ext Ref.sc0 "reports_monthly" "id" (VInt 1) "amount" [VInt 2])
    Ref.w_open =
    {| outcome := Returned (0, Some (Errorf "Access denied to report table"));
       world := Ref.w_open;
       trace := [EvCall (AccessTable Ref.sc0 "1_reports_monthly" "update")] |}.
Proof.
  apply (DBUpdateExt_reports_refused Ref.host Ref.ext Ref.sc0 Ref.w_open
           "reports_monthly" "id" (VInt 1) "amount" [VInt 2]).
  vm_compute. reflexivity.
Defined.

(** C8 as stated fails where [AccessTable] itself refuses the update: the
    table [1_reports_daily] is a report table, and the call returns the
    error of [AccessTable], not ["Access denied to report table"]. *)
Lemma DBUpdateExt_reports_other_error :
  Go.Contains (getDefTableName Ref.ext Ref.sc0 "reports_daily") "_reports_" = true
  /\ outcome (run Ref.host
                (DBUpdateExt Ref.ext Ref.sc0 "reports_daily" "id" (VInt 1)
                   "amount" [VInt 2]) Ref.w_open)
     = Returned (0, Some errAccessDenied)
  /\ errAccessDenied <> Errorf "Access denied to report table".
Proof.
  split; [vm_compute; reflexivity|].
  split; [vm_compute; reflexivity | discriminate].
Qed.

(** ** Co-signatures *)

(** C9. When the signatures table gives no value for the contract (no row,
    or an empty one), [CheckSignature] returns nil.  The query is the only
    call it makes: [CheckSign] is not reached, and the map is not asked for
    [Signature], whose absence or content therefore cannot matter. *)
Theorem CheckSignature_unsigned_contract {W : Type} (h : Host W)
    (ext : Externals) (w : W) (i : gmap string Value) (name : string)
    (sc : SmartContract) (state : Z) (cname : string) :
  i !! "sc"%string = Some (VContext sc) ->
  ParseContract ext name = (state, cname) ->
  let query := Single_String (signaturesQuery (Int64ToStr ext state)) [VStr cname] in
  (h _ query w).1 = (EmptyString, None) ->
  run h (CheckSignature ext i name) w =
    {| outcome := Returned None; world := (h _ query w).2;
       trace := [EvCall query] |}.
Proof.
  intros Hsc Hparse query Hanswer. unfold CheckSignature.
  rewrite Hparse, Hsc. cbn. fold query. rewrite Hanswer. reflexivity.
Qed.

Lemma CheckSignature_unsigned_contract_witness :
  run Ref.host
    (CheckSignature Ref.ext {[ "sc"%string := VContext Ref.sc0 ]} "MainCondition")
    Ref.w_open =
    {| outcome := Returned None; world := Ref.w_open;
       trace := [EvCall (Single_String (signaturesQuery "1") [VStr "MainCondition"])] |}.
Proof.
  apply (CheckSignature_unsigned_contract Ref.host Ref.ext Ref.w_open
           {[ "sc"%string := VContext Ref.sc0 ]} "MainCondition" Ref.sc0 1
           "MainCondition").
  - vm_compute. reflexivity.
  - reflexivity.
  - vm_compute. reflexivity.
Defined.

(** ** System parameters *)

Arguments Go.len : simpl never.
Arguments Go.Contains : simpl never.
Arguments Go.HasPrefix : simpl never.

Ltac run_simpl := cbn -[Z.gtb Z.ltb Z.geb Z.eqb Z.leb] in *.

Ltac in_trace := repeat first [left; reflexivity | right].

(** C3 as the code has it.  Writing [gap_between_blocks] with a non-empty
    value whose integer reading is not strictly between 0 and 86400 always
    fails before any write is issued; the error is [ErrInvalidValue] when
    the parameter is found and its conditions let the caller in, and the
    error of the lookup or of the conditions otherwise. *)
Theorem UpdateSysParam_gap_between_blocks_invalid {W : Type} (h : Host W)
    (ext : Externals) (sc : SmartContract) (w : W) (value conditions : string) :
  value <> EmptyString ->
  ~ (0 < StrToInt64 ext value < 86400) ->
  let r := run h (UpdateSysParam ext sc "gap_between_blocks" value conditions) w in
  (exists e, outcome r = Returned (0, Some e, sc))
  /\ Forall (fun ev => is_write ev = false) (trace r)
  /\ (reads_only h -> world r = w)
  /\ (forall par, admits h sc "gap_between_blocks" par w ->
        outcome r = Returned (0, Some ErrInvalidValue, sc)).
Proof.
  intros Hne Hrange r.
  assert (Hlen : (Go.len value >? 0) = true) by now apply len_pos.
  assert (Hok : ((StrToInt64 ext value >? 0) && (StrToInt64 ext value <? 86400)) = false).
  { apply not_true_is_false. intros H. apply andb_prop in H as [H1 H2].
    rewrite Z.gtb_ltb in H1. apply Z.ltb_lt in H1. apply Z.ltb_lt in H2. lia. }
  subst r. unfold UpdateSysParam, check_switch. cbv zeta.
  rewrite Hlen, Hok.
  pose proof (fun Hro : reads_only h =>
                Hro _ (SystemParameter_Get "gap_between_blocks") w eq_refl) as Hw1.
  run_simpl.
  destruct (h _ (SystemParameter_Get "gap_between_blocks") w)
    as [[found err] w1] eqn:Hget.
  run_simpl.
  assert (Hadm : forall par', admits h sc "gap_between_blocks" par' w ->
                              found = Some par' /\ err = None).
  { intros par' [Hg _]. rewrite Hget in Hg. now injection Hg as -> ->. }
  destruct err as [e|].
  { run_simpl. split; [eexists; reflexivity|].
    split; [repeat constructor|]. split; [exact Hw1|].
    intros par' Ha. now destruct (Hadm par' Ha). }
  destruct found as [par|].
  2:{ run_simpl. split; [eexists; reflexivity|].
      split; [repeat constructor|]. split; [exact Hw1|].
      intros par' Ha. now destruct (Hadm par' Ha). }
  run_simpl. unfold when_.
  destruct (Go.len (par_Conditions par) >? 0) eqn:Hc; run_simpl.
  2:{ split; [eexists; reflexivity|].
      split; [repeat constructor|]. split; [exact Hw1 | reflexivity]. }
  assert (Hcond : par_Conditions par <> EmptyString).
  { intros E. rewrite E in Hc. discriminate. }
  pose proof (fun Hro : reads_only h =>
                Hro _ (EvalIf sc (par_Conditions par)) w1 eq_refl) as Hw2.
  destruct (h _ (EvalIf sc (par_Conditions par)) w1) as [[ret err] w2] eqn:Heval.
  run_simpl.
  assert (Hadm' : forall par', admits h sc "gap_between_blocks" par' w ->
                               ret = true /\ err = None).
  { intros par' Ha. destruct (Hadm par' Ha) as [[= <-] _].
    destruct Ha as [_ Hcnd]. specialize (Hcnd Hcond).
    rewrite Hget in Hcnd. cbn in Hcnd.
    rewrite Heval in Hcnd. now injection Hcnd as -> ->. }
  destruct err as [e|]; [|destruct ret]; run_simpl;
    (split; [eexists; reflexivity|]);
    (split; [repeat constructor|]);
    (split; [intros Hro; rewrite (Hw2 Hro); exact (Hw1 Hro)|]);
    intros par' Ha; destruct (Hadm' par' Ha); (discriminate || reflexivity).
Qed.

Lemma UpdateSysParam_gap_between_blocks_invalid_witness :
  outcome (run Ref.host
             (UpdateSysParam Ref.ext Ref.sc0 "gap_between_blocks" "0" EmptyString)
             Ref.w_open)
  = Returned (0, Some ErrInvalidValue, Ref.sc0).
Proof.
  refine (proj2 (proj2 (proj2
    (UpdateSysParam_gap_between_blocks_invalid Ref.host Ref.ext Ref.sc0
       Ref.w_open "0" EmptyString _ _)))
    (Ref.param 1 "gap_between_blocks" "2" "true") _).
  - discriminate.
  - vm_compute. intros [H _]. discriminate.
  - split; intros; vm_compute; reflexivity.
Defined.

(** C3 as stated fails for a caller the conditions of the parameter keep
    out: the value ["0"] is out of range, and the call returns
    [errAccessDenied], not [ErrInvalidValue]. *)
Lemma UpdateSysParam_gap_between_blocks_denied :
  "0"%string <> EmptyString
  /\ ~ (0 < StrToInt64 Ref.ext "0" < 86400)
  /\ outcome (run Ref.host
                (UpdateSysParam Ref.ext Ref.sc0 "gap_between_blocks" "0" EmptyString)
                Ref.w_closed)
     = Returned (0, Some errAccessDenied, Ref.sc0)
  /\ errAccessDenied <> ErrInvalidValue.
Proof.
  split; [discriminate|].
  split; [vm_compute; intros [H _]; discriminate|].
  split; [vm_compute; reflexivity | discriminate].
Qed.

Lemma pairs_pass_spec (ext : Externals) (name : string) (list : list (list string)) :
  name = "fuel_rate"%string \/ name = "commission_wallet"%string ->
  pairs_pass ext name list = true <-> Forall (pair_accepted ext name) list.
Proof.
  intros Hname. induction list as [|item rest IH].
  - split; [constructor | reflexivity].
  - cbn [pairs_pass].
    assert (Hin : str_in name ["fuel_rate"; "commission_wallet"]%string = true)
      by (destruct Hname as [-> | ->]; reflexivity).
    rewrite Hin.
    destruct (negb (Z.of_nat (length item) =? 2)
              || (StrToInt64 ext (nth 0 item EmptyString) <=? 0)
              || (String.eqb name "fuel_rate"
                  && (StrToInt64 ext (nth 1 item EmptyString) <=? 0))
              || (String.eqb name "commission_wallet"
                  && (StrToInt64 ext (nth 1 item EmptyString) =? 0))) eqn:Hbad.
    + split; [discriminate|]. intros Hall. inversion Hall as [|? ? Hitem _]; subst.
      destruct Hitem as (Hlen & Hfirst & Hfuel & Hcomm).
      exfalso. revert Hbad.
      replace (Z.of_nat (length item) =? 2) with true
        by (symmetry; apply Z.eqb_eq; lia).
      replace (StrToInt64 ext (nth 0 item EmptyString) <=? 0) with false
        by (symmetry; apply Z.leb_gt; lia).
      destruct Hname as [-> | ->]; cbn [negb orb andb String.eqb Ascii.eqb Bool.eqb].
      * specialize (Hfuel eq_refl).
        replace (StrToInt64 ext (nth 1 item EmptyString) <=? 0) with false
          by (symmetry; apply Z.leb_gt; lia).
        discriminate.
      * specialize (Hcomm eq_refl).
        replace (StrToInt64 ext (nth 1 item EmptyString) =? 0) with false
          by (symmetry; apply Z.eqb_neq; lia).
        discriminate.
    + rewrite IH. split; [|intros Hall; now inversion Hall].
      intros Hrest. constructor; [|exact Hrest].
      apply orb_false_elim in Hbad as [Hbad Hcomm].
      apply orb_false_elim in Hbad as [Hbad Hfuel].
      apply orb_false_elim in Hbad as [Hlen Hfirst].
      apply negb_false_iff, Z.eqb_eq in Hlen. apply Z.leb_gt in Hfirst.
      repeat split; try lia.
      * intros ->. cbn in Hfuel. apply Z.leb_gt in Hfuel. lia.
      * intros ->. cbn in Hcomm. apply Z.eqb_neq in Hcomm. lia.
Qed.

Lemma not_In_write (ev : Event) (t : list Event) :
  is_write ev = true -> Forall (fun e => is_write e = false) t -> ~ In ev t.
Proof.
  intros Hev Hall Hin. rewrite Forall_forall in Hall.
  apply list_elem_of_In, Hall in Hin. congruence.
Qed.

(** Past the lookup and the conditions of the parameter, what becomes of a
    non-empty value of [fuel_rate] or [commission_wallet], by the answer of
    the decoder and of the loop over the decoded list. *)
Lemma UpdateSysParam_pairs_run {W : Type} (h : Host W) (ext : Externals)
    (sc : SmartContract) (w : W) (name value conditions : string)
    (par : SystemParameter) :
  name = "fuel_rate"%string \/ name = "commission_wallet"%string ->
  value <> EmptyString ->
  admits h sc name par w ->
  (conditions <> EmptyString ->
   (h _ (CompileEval conditions 0) (after_gate h sc name par w)).1 = None) ->
  let r := run h (UpdateSysParam ext sc name value conditions) w in
  let write :=
    EvCall (selectiveLoggingAndUpd sc
              ("value"%string :: if Go.len conditions >? 0 then ["conditions"%string] else [])
              (VStr value :: if Go.len conditions >? 0 then [VStr conditions] else [])
              "1_system_parameters" ["id"%string] [Int64ToStr ext (par_ID par)]
              (negb (VDE sc) && Rollback sc) false) in
  match Unmarshal_pairs ext value with
  | inl e =>
      outcome r = Returned (0, Some e, sc)
      /\ Forall (fun ev => is_write ev = false) (trace r)
  | inr list =>
      if pairs_pass ext name list then In write (trace r)
      else outcome r = Returned (0, Some ErrInvalidValue, sc)
           /\ Forall (fun ev => is_write ev = false) (trace r)
  end.
Proof.
  intros Hname Hne [Hget Heval] Hcompile r write.
  assert (Hlen : (Go.len value >? 0) = true) by now apply len_pos.
  assert (Hsw : forall R (fail : error -> R),
             check_switch ext fail name value (StrToInt64 ext value) =
             match Unmarshal_pairs ext value with
             | inl err =>
                 (logE JSONUnmarshallError "unmarshalling system param" ;;
                  return_ (fail err))%fn
             | inr list =>
                 if pairs_pass ext name list then pure (false, true)
                 else pure (false, false)
             end).
  { intros R fail. destruct Hname as [-> | ->]; reflexivity. }
  subst r write. unfold after_gate in Hcompile. unfold UpdateSysParam. cbv zeta.
  rewrite Hlen, Hsw. run_simpl.
  destruct (h _ (SystemParameter_Get name) w) as [[found err] w1].
  run_simpl. injection Hget as -> ->. run_simpl. unfold when_.
  destruct (Go.len (par_Conditions par) >? 0) eqn:Hc; run_simpl.
  1:{ assert (Hcond : par_Conditions par <> EmptyString)
        by (intros E; rewrite E in Hc; discriminate).
      specialize (Heval Hcond).
      destruct (h _ (EvalIf sc (par_Conditions par)) w1) as [[ret err] w2].
      run_simpl. injection Heval as -> ->. run_simpl.
      destruct (Unmarshal_pairs ext value) as [err|list]; run_simpl;
        [split; [reflexivity | repeat constructor]|].
      destruct (pairs_pass ext name list); run_simpl;
        [|split; [reflexivity | repeat constructor]].
      destruct (Go.len conditions >? 0) eqn:Hcn; run_simpl; [|in_trace].
      assert (Hcne : conditions <> EmptyString)
        by (intros E; rewrite E in Hcn; discriminate).
      specialize (Hcompile Hcne).
      destruct (h _ (CompileEval conditions 0) w2) as [cerr w3].
      run_simpl. subst cerr. run_simpl. in_trace. }
  destruct (Unmarshal_pairs ext value) as [err|list]; run_simpl;
    [split; [reflexivity | repeat constructor]|].
  destruct (pairs_pass ext name list); run_simpl;
    [|split; [reflexivity | repeat constructor]].
  destruct (Go.len conditions >? 0) eqn:Hcn; run_simpl; [|in_trace].
  assert (Hcne : conditions <> EmptyString)
    by (intros E; rewrite E in Hcn; discriminate).
  specialize (Hcompile Hcne).
  destruct (h _ (CompileEval conditions 0) w1) as [cerr w3].
  run_simpl. subst cerr. run_simpl. in_trace.
Qed.

(** C4 as the code has it.  For [fuel_rate] and [commission_wallet], past
    the lookup and the conditions of the parameter, a non-empty value is
    written exactly when [json.Unmarshal] reads it into a [[][]string]
    without an error and every item of the list read is a pair with a
    positive ecosystem id and a rate that is positive ([fuel_rate]) or
    non-zero ([commission_wallet]).  A value read as a list without items
    is therefore written: that is the empty array and also [null], which
    the decoder reads into a nil list.  A value the decoder refuses ends
    the call with the decoder's error, a list with an item that is not such
    a pair with [ErrInvalidValue], both before a write. *)
Theorem UpdateSysParam_pairs_domain {W : Type} (h : Host W) (ext : Externals)
    (sc : SmartContract) (w : W) (name value conditions : string)
    (par : SystemParameter) :
  name = "fuel_rate"%string \/ name = "commission_wallet"%string ->
  value <> EmptyString ->
  admits h sc name par w ->
  (conditions <> EmptyString ->
   (h _ (CompileEval conditions 0) (after_gate h sc name par w)).1 = None) ->
  let r := run h (UpdateSysParam ext sc name value conditions) w in
  let write :=
    EvCall (selectiveLoggingAndUpd sc
              ("value"%string :: if Go.len conditions >? 0 then ["conditions"%string] else [])
              (VStr value :: if Go.len conditions >? 0 then [VStr conditions] else [])
              "1_system_parameters" ["id"%string] [Int64ToStr ext (par_ID par)]
              (negb (VDE sc) && Rollback sc) false) in
  (pairs_accepted ext name value <-> In write (trace r))
  /\ (~ pairs_accepted ext name value ->
      (exists e, outcome r = Returned (0, Some e, sc))
      /\ Forall (fun ev => is_write ev = false) (trace r))
  /\ (Unmarshal_pairs ext value = inr [] -> In write (trace r))
  /\ (forall e, Unmarshal_pairs ext value = inl e ->
        outcome r = Returned (0, Some e, sc)
        /\ Forall (fun ev => is_write ev = false) (trace r))
  /\ (forall list, Unmarshal_pairs ext value = inr list ->
        ~ Forall (pair_accepted ext name) list ->
        outcome r = Returned (0, Some ErrInvalidValue, sc)
        /\ Forall (fun ev => is_write ev = false) (trace r)).
Proof.
  intros Hname Hne Hadm Hcompile r write.
  pose proof (UpdateSysParam_pairs_run h ext sc w name value conditions par
                Hname Hne Hadm Hcompile) as Hrun.
  fold r write in Hrun.
  assert (Hwrite : is_write write = true) by reflexivity.
  unfold pairs_accepted.
  destruct (Unmarshal_pairs ext value) as [err|list].
  - destruct Hrun as [Hout Hno].
    split; [split; [intros (l & [=] & _)|]|].
    { intros Hin. exfalso. exact (not_In_write write _ Hwrite Hno Hin). }
    split; [intros _; split; [eexists; exact Hout | exact Hno]|].
    split; [discriminate|].
    split; [intros e [= <-]; split; assumption | discriminate].
  - pose proof (pairs_pass_spec ext name list Hname) as Hspec.
    destruct (pairs_pass ext name list).
    + assert (Hall : Forall (pair_accepted ext name) list) by now apply Hspec.
      split; [split; [intros _; exact Hrun | intros _; eauto]|].
      split; [intros Hn; exfalso; apply Hn; eauto|].
      split; [intros _; exact Hrun|].
      split; [discriminate|].
      intros l [= <-] Hn. contradiction.
    + destruct Hrun as [Hout Hno].
      assert (Hnall : ~ Forall (pair_accepted ext name) list).
      { intros Hall. apply Hspec in Hall. discriminate. }
      split; [split; [intros (l & [= <-] & Hall); contradiction|]|].
      { intros Hin. exfalso. exact (not_In_write write _ Hwrite Hno Hin). }
      split; [intros _; split; [eexists; exact Hout | exact Hno]|].
      split; [intros [= ->]; exfalso; apply Hnall; constructor|].
      split; [discriminate|].
      intros l [= <-] _. split; assumption.
Qed.

Lemma UpdateSysParam_pairs_domain_witness :
  In (EvCall (selectiveLoggingAndUpd Ref.sc0 ["value"%string]
                [VStr Ref.pair_1_100] "1_system_parameters" ["id"%string]
                ["2"%string] true false))
     (trace (run Ref.host
               (UpdateSysParam Ref.ext Ref.sc0 "fuel_rate" Ref.pair_1_100 EmptyString)
               Ref.w_open))
  /\ In (EvCall (selectiveLoggingAndUpd Ref.sc0 ["value"%string]
                   [VStr "null"] "1_system_parameters" ["id"%string]
                   ["2"%string] true false))
        (trace (run Ref.host
                  (UpdateSysParam Ref.ext Ref.sc0 "fuel_rate" "null" EmptyString)
                  Ref.w_open)).
Proof.
  split.
  - refine (proj1 (proj1
      (UpdateSysParam_pairs_domain Ref.host Ref.ext Ref.sc0 Ref.w_open
         "fuel_rate" Ref.pair_1_100 EmptyString
         (Ref.param 2 "fuel_rate" EmptyString "true") _ _ _ _)) _).
    + left. reflexivity.
    + discriminate.
    + split; intros; vm_compute; reflexivity.
    + intros H. now contradiction H.
    + exists [["1"; "100"]%string]. split; [vm_compute; reflexivity|].
      constructor; [|constructor].
      split; [reflexivity|]. split; [vm_compute; reflexivity|].
      split; [intros _; vm_compute; reflexivity | discriminate].
  - refine (proj1 (proj2 (proj2
      (UpdateSysParam_pairs_domain Ref.host Ref.ext Ref.sc0 Ref.w_open
         "fuel_rate" "null" EmptyString
         (Ref.param 2 "fuel_rate" EmptyString "true") _ _ _ _))) _).
    + left. reflexivity.
    + discriminate.
    + split; intros; vm_compute; reflexivity.
    + intros H. now contradiction H.
    + vm_compute. reflexivity.
Defined.

(** C4 as stated fails on the rate: [[["1","0"]]] is a list of pairs whose
    first element is positive, and [fuel_rate] refuses it. *)
Lemma UpdateSysParam_fuel_rate_zero_rate :
  Ref.pair_1_0 <> EmptyString
  /\ pairs_first_positive Ref.ext Ref.pair_1_0
  /\ admits Ref.host Ref.sc0 "fuel_rate"
       (Ref.param 2 "fuel_rate" EmptyString "true") Ref.w_open
  /\ run Ref.host
       (UpdateSysParam Ref.ext Ref.sc0 "fuel_rate" Ref.pair_1_0 EmptyString)
       Ref.w_open =
     {| outcome := Returned (0, Some ErrInvalidValue, Ref.sc0);
        world := Ref.w_open;
        trace := [EvCall (SystemParameter_Get "fuel_rate");
                  EvCall (EvalIf Ref.sc0 "true");
                  EvLog {| log_type := InvalidObject; log_msg := "Invalid value" |}] |}.
Proof.
  split; [discriminate|].
  split.
  { exists [["1"; "0"]%string]. split; [vm_compute; reflexivity|].
    constructor; [|constructor]. split; [reflexivity | vm_compute; reflexivity]. }
  split; [split; intros; vm_compute; reflexivity|].
  vm_compute. reflexivity.
Qed.

(** ** The rollback journal *)

Lemma flags_policy_journal (sc : SmartContract) (t : list Event) :
  Forall (flags_policy sc) t -> journal_by_flags sc t.
Proof.
  unfold journal_by_flags. induction 1 as [|e t He _ [IH1 IH2]]; [split; constructor|].
  destruct e as [l|X c]; [split; assumption|].
  destruct c; cbn in *; try (split; assumption); try contradiction.
  split; [constructor; assumption | assumption].
Qed.

Lemma UpdateSysParam_calls (ext : Externals) (sc : SmartContract)
    (name value conditions : string) :
  Calls (flags_policy sc) (UpdateSysParam ext sc name value conditions).
Proof.
  unfold UpdateSysParam, check_switch.
  repeat (calls_step; try exact I; try reflexivity).
Qed.

Lemma DBUpdateExt_calls (ext : Externals) (sc : SmartContract)
    (tblname column : string) (value : Value) (params : string) (val : list Value) :
  Calls (flags_policy sc) (DBUpdateExt ext sc tblname column value params val).
Proof.
  unfold DBUpdateExt.
  repeat (calls_step; try exact I; try reflexivity).
Qed.

Ltac peel pre Hlen H :=
  destruct pre as [|? pre];
  [ first [ solve [cbn [String.length] in Hlen; lia]
          | rewrite ?append_cons, ?append_empty_l in H; discriminate H ]
  | first [ solve [cbn [String.length] in Hlen; lia] | peel pre Hlen H ] ].

(** The tables of a new ecosystem are not [@1_ecosystems], whatever its
    id. *)
Lemma default_tables_apart (pre : string) :
  "@" +:+ pre +:+ "_pages" <> "@1_ecosystems"%string
  /\ "@" +:+ pre +:+ "_menu" <> "@1_ecosystems"%string
  /\ "@" +:+ pre +:+ "_keys" <> "@1_ecosystems"%string.
Proof.
  split; [|split]; intros H;
    pose proof (f_equal String.length H) as Hlen;
    rewrite !length_append in Hlen;
    peel pre Hlen H.
Qed.

Lemma CreateEcosystem_calls (ext : Externals) (sc : SmartContract)
    (wallet : Z) (name : string) :
  Calls (ecosystem_policy sc) (CreateEcosystem ext sc wallet name).
Proof.
  unfold CreateEcosystem, SysParamString, first_pub.
  repeat (calls_step; try exact I; try reflexivity).
  all: cbn;
    try (split; [reflexivity|];
         split; [discriminate | intros Htable; exfalso;
                                revert Htable; apply default_tables_apart]).
  all: try (split; [reflexivity | split; reflexivity]).
  match goal with
  | H : negb _ = true |- _ => cbn in H; now apply negb_true_iff in H
  end.
Qed.

Lemma ecosystem_policy_trace (sc : SmartContract) (t : list Event) :
  Forall (ecosystem_policy sc) t ->
  logRollback_args t = []
  /\ (VDE sc = true -> SysRollback_hints t = [])
  /\ Forall (fun p : SmartContract * string =>
               VDE p.1 = VDE sc /\
               (Rollback p.1 = true <-> p.2 = "@1_ecosystems"%string))
       (DBInsert_contexts t).
Proof.
  induction 1 as [|e t He _ (IH1 & IH2 & IH3)].
  - repeat split; constructor.
  - destruct e as [l|X c]; [repeat split; assumption|].
    destruct c; cbn in *; try (repeat split; assumption); try contradiction.
    + split; [assumption|]. split; [assumption|]. constructor; assumption.
    + split; [assumption|]. split; [|assumption]. congruence.
Qed.

Lemma journal_by_flags_vde (sc : SmartContract) (t : list Event) :
  VDE sc = true -> journal_by_flags sc t -> no_journal_request t.
Proof.
  intros Hvde [Hargs Hhints]. split; [|exact Hhints].
  eapply Forall_impl; [exact Hargs|]. intros b ->. now rewrite Hvde.
Qed.

Ltac walk :=
  repeat (run_simpl;
          match goal with
          | H : Returned _ = Returned _ |- _ => inversion H; clear H; subst
          | H : Panicked _ = Returned _ |- _ => discriminate H
          | |- context [match ?x with _ => _ end] => destruct x eqn:?
          | H : context [match ?x with _ => _ end] |- _ => destruct x eqn:?
          end).

Lemma Activate_hints {W : Type} (h : Host W) (ext : Externals)
    (sc : SmartContract) (w : W) (tblid state : Z) :
  let t := trace (run h (Activate ext sc tblid state) w) in
  logRollback_args t = [] /\
  SysRollback_hints t =
    if accessContracts ext sc ["ActivateContract"; "DeactivateContract"]%string
       && negb (VDE sc)
    then [activateHint "ActivateContract" tblid state] else [].
Proof.
  unfold Activate, nActivateContract, nDeactivateContract, when_.
  destruct (accessContracts ext sc _); [|split; reflexivity].
  destruct (VDE sc); run_simpl; [split; reflexivity|].
  destruct (h _ (SysRollback sc (activateHint "ActivateContract" tblid state))
              (h _ (ActivateContract tblid state true) w).2).1;
    split; reflexivity.
Qed.

Lemma CreateEcosystem_success {W : Type} (h : Host W) (ext : Externals)
    (sc : SmartContract) (w : W) (wallet : Z) (name : string) (id : Z)
    (sc' : SmartContract) :
  let r := run h (CreateEcosystem ext sc wallet name) w in
  outcome r = Returned (id, None, sc') ->
  SysRollback_hints (trace r) = (if VDE sc then [] else [newEcosystemHint])
  /\ sc' = set_Rollback true (set_FullAccess false sc)
  /\ DBInsert_flags (trace r) =
     [(false, "@" +:+ Int64ToStr ext id +:+ "_pages");
      (false, "@" +:+ Int64ToStr ext id +:+ "_menu");
      (false, "@" +:+ Int64ToStr ext id +:+ "_keys");
      (true, "@1_ecosystems"%string)].
Proof.
  intros r H. subst r.
  unfold CreateEcosystem, SysParamString, first_pub, when_, DBInsert_flags in *.
  walk; first [split; [reflexivity | split; reflexivity] | congruence | discriminate].
Qed.

Lemma Deactivate_hints {W : Type} (h : Host W) (ext : Externals)
    (sc : SmartContract) (w : W) (tblid state : Z) :
  let t := trace (run h (Deactivate ext sc tblid state) w) in
  logRollback_args t = [] /\
  SysRollback_hints t =
    if accessContracts ext sc ["ActivateContract"; "DeactivateContract"]%string
       && negb (VDE sc)
    then [activateHint "DeactivateContract" tblid state] else [].
Proof.
  unfold Deactivate, nActivateContract, nDeactivateContract, when_.
  destruct (accessContracts ext sc _); [|split; reflexivity].
  destruct (VDE sc); run_simpl; [split; reflexivity|].
  destruct (h _ (SysRollback sc (activateHint "DeactivateContract" tblid state))
              (h _ (ActivateContract tblid state false) w).2).1;
    split; reflexivity.
Qed.

(** C5 as the code has it.  In VDE mode none of the five operations asks
    for a journal record: every [logRollback] argument is false and
    [SysRollback] is not called.  [UpdateSysParam] and [DBUpdateExt] pass
    [logRollback = !VDE && Rollback].  [Activate] and [Deactivate], past
    their caller gate, send their [SysRollback] hint exactly when VDE is
    off, whatever the rollback flag; a successful [CreateEcosystem] does the
    same.  [CreateEcosystem] sets the rollback flag itself: on every run an
    insert is made with the flag on exactly when it is the insert into
    [@1_ecosystems], and a successful run has made four inserts, the
    default page, menu and key with the flag off and then the row of
    [@1_ecosystems] with the flag on. *)
Theorem journal_requests {W : Type} (h : Host W) (ext : Externals)
    (sc : SmartContract) (w : W) :
  (VDE sc = true ->
   (forall name value conditions,
      no_journal_request (trace (run h (UpdateSysParam ext sc name value conditions) w)))
   /\ (forall tblname column value params val,
         no_journal_request
           (trace (run h (DBUpdateExt ext sc tblname column value params val) w)))
   /\ (forall tblid state,
         no_journal_request (trace (run h (Activate ext sc tblid state) w))
         /\ no_journal_request (trace (run h (Deactivate ext sc tblid state) w)))
   /\ (forall wallet name,
         no_journal_request (trace (run h (CreateEcosystem ext sc wallet name) w))))
  /\ (forall name value conditions,
        journal_by_flags sc (trace (run h (UpdateSysParam ext sc name value conditions) w)))
  /\ (forall tblname column value params val,
        journal_by_flags sc
          (trace (run h (DBUpdateExt ext sc tblname column value params val) w)))
  /\ (forall tblid state,
        SysRollback_hints (trace (run h (Activate ext sc tblid state) w)) =
          (if accessContracts ext sc ["ActivateContract"; "DeactivateContract"]%string
              && negb (VDE sc)
           then [activateHint "ActivateContract" tblid state] else [])
        /\
        SysRollback_hints (trace (run h (Deactivate ext sc tblid state) w)) =
          (if accessContracts ext sc ["ActivateContract"; "DeactivateContract"]%string
              && negb (VDE sc)
           then [activateHint "DeactivateContract" tblid state] else []))
  /\ (forall wallet name,
        let r := run h (CreateEcosystem ext sc wallet name) w in
        Forall (fun p : SmartContract * string =>
                  VDE p.1 = VDE sc /\
                  (Rollback p.1 = true <-> p.2 = "@1_ecosystems"%string))
          (DBInsert_contexts (trace r))
        /\ forall id sc',
             outcome r = Returned (id, None, sc') ->
             SysRollback_hints (trace r) = (if VDE sc then [] else [newEcosystemHint])
             /\ DBInsert_flags (trace r) =
                [(false, "@" +:+ Int64ToStr ext id +:+ "_pages");
                 (false, "@" +:+ Int64ToStr ext id +:+ "_menu");
                 (false, "@" +:+ Int64ToStr ext id +:+ "_keys");
                 (true, "@1_ecosystems"%string)]).
Proof.
  assert (Hupd : forall name value conditions,
             journal_by_flags sc (trace (run h (UpdateSysParam ext sc name value conditions) w))).
  { intros. apply flags_policy_journal, Calls_run, UpdateSysParam_calls. }
  assert (Hext : forall tblname column value params val,
             journal_by_flags sc
               (trace (run h (DBUpdateExt ext sc tblname column value params val) w))).
  { intros. apply flags_policy_journal, Calls_run, DBUpdateExt_calls. }
  assert (Heco : forall wallet name,
             let t := trace (run h (CreateEcosystem ext sc wallet name) w) in
             logRollback_args t = []
             /\ (VDE sc = true -> SysRollback_hints t = [])
             /\ Forall (fun p : SmartContract * string =>
                          VDE p.1 = VDE sc /\
                          (Rollback p.1 = true <-> p.2 = "@1_ecosystems"%string))
                  (DBInsert_contexts t)).
  { intros. apply ecosystem_policy_trace, Calls_run, CreateEcosystem_calls. }
  split; [|split; [exact Hupd|split; [exact Hext|split]]].
  - intros Hvde. split; [|split; [|split]].
    + intros. now apply (journal_by_flags_vde sc).
    + intros. now apply (journal_by_flags_vde sc).
    + intros tblid state.
      destruct (Activate_hints h ext sc w tblid state) as [Ha1 Ha2].
      destruct (Deactivate_hints h ext sc w tblid state) as [Hd1 Hd2].
      rewrite Hvde, andb_false_r in Ha2, Hd2.
      unfold no_journal_request. rewrite Ha1, Ha2, Hd1, Hd2.
      repeat split; constructor.
    + intros wallet name. destruct (Heco wallet name) as (H1 & H2 & _).
      unfold no_journal_request. rewrite H1, (H2 Hvde). split; constructor.
  - intros tblid state. split.
    + apply Activate_hints.
    + apply Deactivate_hints.
  - intros wallet name r. split.
    + apply Heco.
    + intros id sc' Hout.
      destruct (CreateEcosystem_success h ext sc w wallet name id sc' Hout)
        as (Hhint & _ & Hflags).
      split; assumption.
Qed.

(** In VDE mode [UpdateSysParam] and a [CreateEcosystem] that runs to its
    end ask for no journal record; with VDE off the same [CreateEcosystem]
    sends its hint and sets the flag on the last insert only. *)
Lemma journal_requests_witness :
  no_journal_request
    (trace (run Ref.host
              (UpdateSysParam Ref.ext Ref.sc_vde "gap_between_blocks" "5" EmptyString)
              Ref.w_open))
  /\ outcome (run Ref.host (CreateEcosystem Ref.ext Sample.sc_new_vde 7 "eco") Ref.w_open)
     = Returned (2, None, ecosystem_closed Sample.sc_new_vde)
  /\ no_journal_request
       (trace (run Ref.host (CreateEcosystem Ref.ext Sample.sc_new_vde 7 "eco")
                 Ref.w_open))
  /\ SysRollback_hints
       (trace (run Ref.host (CreateEcosystem Ref.ext Ref.sc_new 7 "eco") Ref.w_open))
     = [newEcosystemHint]
  /\ DBInsert_flags
       (trace (run Ref.host (CreateEcosystem Ref.ext Ref.sc_new 7 "eco") Ref.w_open))
     = [(false, "@2_pages"%string); (false, "@2_menu"%string);
        (false, "@2_keys"%string); (true, "@1_ecosystems"%string)].
Proof.
  destruct (journal_requests Ref.host Ref.ext Ref.sc_vde Ref.w_open) as [Hvde _].
  destruct (Hvde eq_refl) as (Hupd & _ & _ & _).
  destruct (journal_requests Ref.host Ref.ext Sample.sc_new_vde Ref.w_open)
    as [Hvde' _].
  destruct (Hvde' eq_refl) as (_ & _ & _ & Heco).
  destruct (journal_requests Ref.host Ref.ext Ref.sc_new Ref.w_open)
    as (_ & _ & _ & _ & Hnew).
  destruct (Hnew 7 "eco"%string) as [_ Hsucc].
  destruct (Hsucc 2 (ecosystem_closed Ref.sc_new)) as [Hhint Hflags];
    [vm_compute; reflexivity|].
  split; [apply Hupd|].
  split; [vm_compute; reflexivity|].
  split; [apply Heco|].
  split; [exact Hhint | exact Hflags].
Defined.

(** C5 as stated fails for [Activate]: with VDE off and the rollback flag
    off, [!VDE && Rollback] is false and the call still sends its
    [SysRollback] hint.  It fails for [CreateEcosystem] too: with VDE off
    and the rollback flag on, the default page is inserted under a context
    whose rollback flag the function has switched off. *)
Lemma Activate_journals_without_rollback_flag :
  negb (VDE Ref.sc_activate) && Rollback Ref.sc_activate = false
  /\ existsb requests_journal
       (trace (run Ref.host (Activate Ref.ext Ref.sc_activate 5 1) Ref.w_open))
     = true
  /\ negb (VDE Ref.sc_new) && Rollback Ref.sc_new = true
  /\ head (DBInsert_contexts
             (trace (run Ref.host (CreateEcosystem Ref.ext Ref.sc_new 7 "eco")
                       Ref.w_open)))
     = Some (set_FullAccess true (set_Rollback false Ref.sc_new), "@2_pages"%string).
Proof. repeat split; vm_compute; reflexivity. Qed.

(** * Further properties *)

(** ** Strings *)

Lemma prefix_split (p s : string) :
  String.prefix p s = true -> exists rest, s = p +:+ rest.
Proof.
  revert s. induction p as [|x p IH]; intros s H.
  - exists s. reflexivity.
  - destruct s as [|y s]; [discriminate|]. cbn in H.
    destruct (ascii_dec x y) as [->|]; [|discriminate].
    destruct (IH s H) as [rest ->]. exists rest. reflexivity.
Qed.

Lemma split_go_skip (sep t rest cur : string) :
  Strings.split_go sep (String.length t) cur (t +:+ rest)
  = Strings.split_go sep 0 cur rest.
Proof. induction t as [|x t IH]; [reflexivity | exact IH]. Qed.

Lemma replace_go_skip (old new t rest : string) :
  Strings.replace_go old new (String.length t) (t +:+ rest)
  = Strings.replace_go old new 0 rest.
Proof. induction t as [|x t IH]; [reflexivity | exact IH]. Qed.

Lemma split_go_cons (sep : string) (skip : nat) (cur s : string) :
  exists x l, Strings.split_go sep skip cur s = x :: l.
Proof.
  revert skip cur. induction s as [|c s IH]; intros skip cur;
    cbn [Strings.split_go]; [eauto|].
  destruct skip; [|apply IH].
  destruct (String.prefix sep (String c s)); [eauto | apply IH].
Qed.

Lemma concat_cons (sep x : string) (l : list string) :
  l <> [] -> String.concat sep (x :: l) = x +:+ sep +:+ String.concat sep l.
Proof. destruct l; [congruence | reflexivity]. Qed.

(** One step of the leftmost cut, for a separator [String a sep']. *)
Lemma split_go_step (a : ascii) (sep' : string) (cur s : string) :
  Strings.split_go (String a sep') 0 cur s =
  match s with
  | EmptyString => [cur]
  | String c rest =>
      if String.prefix (String a sep') s
      then cur :: Strings.split_go (String a sep') (String.length sep') EmptyString rest
      else Strings.split_go (String a sep') 0 (cur +:+ String c EmptyString) rest
  end.
Proof.
  destruct s; [reflexivity|]. cbn [Strings.split_go].
  replace (String.length (String a sep') - 1)%nat with (String.length sep')
    by (cbn [String.length]; lia).
  reflexivity.
Qed.

Lemma replace_go_step (a : ascii) (old' new s : string) :
  Strings.replace_go (String a old') new 0 s =
  match s with
  | EmptyString => EmptyString
  | String c rest =>
      if String.prefix (String a old') s
      then new +:+ Strings.replace_go (String a old') new (String.length old') rest
      else String c (Strings.replace_go (String a old') new 0 rest)
  end.
Proof.
  destruct s; [reflexivity|]. cbn [Strings.replace_go].
  replace (String.length (String a old') - 1)%nat with (String.length old')
    by (cbn [String.length]; lia).
  reflexivity.
Qed.

Lemma concat_split_go (sep new : string) (n : nat) :
  sep <> EmptyString ->
  forall s cur, (String.length s <= n)%nat ->
  String.concat new (Strings.split_go sep 0 cur s)
  = cur +:+ Strings.replace_go sep new 0 s.
Proof.
  intros Hsep. destruct sep as [|a sep']; [congruence|]. clear Hsep.
  induction n as [|n IH]; intros s cur Hlen.
  - destruct s; [|cbn in Hlen; lia]. cbn. now rewrite append_empty_r.
  - rewrite split_go_step, replace_go_step.
    destruct s as [|c rest]; [cbn; now rewrite append_empty_r|].
    destruct (String.prefix (String a sep') (String c rest)) eqn:Hp.
    + apply prefix_split in Hp as [tail Htail].
      change (String a sep' +:+ tail) with (String a (sep' +:+ tail)) in Htail.
      injection Htail as -> ->.
      rewrite split_go_skip, replace_go_skip.
      destruct (split_go_cons (String a sep') 0 EmptyString tail) as (x & l & Hx).
      rewrite concat_cons by (rewrite Hx; discriminate).
      rewrite IH.
      * reflexivity.
      * cbn in Hlen. rewrite length_append in Hlen. lia.
    + rewrite IH by (cbn in Hlen; lia).
      now rewrite append_assoc.
Qed.

Lemma replace_go_same (sep : string) (n : nat) :
  sep <> EmptyString ->
  forall s, (String.length s <= n)%nat -> Strings.replace_go sep sep 0 s = s.
Proof.
  intros Hsep. destruct sep as [|a sep']; [congruence|]. clear Hsep.
  induction n as [|n IH]; intros s Hlen.
  - destruct s; [reflexivity | cbn in Hlen; lia].
  - rewrite replace_go_step. destruct s as [|c rest]; [reflexivity|].
    destruct (String.prefix (String a sep') (String c rest)) eqn:Hp.
    + apply prefix_split in Hp as [tail Htail].
      change (String a sep' +:+ tail) with (String a (sep' +:+ tail)) in Htail.
      injection Htail as -> ->.
      rewrite replace_go_skip, IH; [reflexivity|].
      cbn in Hlen. rewrite length_append in Hlen. lia.
    + rewrite IH by (cbn in Hlen; lia). reflexivity.
Qed.

Lemma Join_loop_strings (ext : Externals) (sep : string) (l : list string) :
  (forall s, Sprint ext (VStr s) = s) ->
  forall (i : nat) (ret : string),
  Join_loop ext sep (S i) ret (map VStr l)
  = ret +:+ fold_right (fun x acc => sep +:+ x +:+ acc) EmptyString l.
Proof.
  intros Hs. induction l as [|x l IH]; intros i ret; cbn [map Join_loop fold_right].
  - now rewrite append_empty_r.
  - cbn [Nat.ltb Nat.leb]. rewrite IH, Hs. now rewrite !append_assoc.
Qed.

Lemma concat_fold (sep x : string) (l : list string) :
  String.concat sep (x :: l)
  = x +:+ fold_right (fun y acc => sep +:+ y +:+ acc) EmptyString l.
Proof.
  revert x. induction l as [|y l IH]; intros x.
  - cbn. now rewrite append_empty_r.
  - rewrite concat_cons by discriminate. cbn [fold_right]. now rewrite IH.
Qed.

Lemma Join_strings (ext : Externals) (sep : string) (l : list string) :
  (forall s, Sprint ext (VStr s) = s) ->
  Join ext (map VStr l) sep = String.concat sep l.
Proof.
  intros Hs. destruct l as [|x l]; [reflexivity|].
  unfold Join. cbn [map Join_loop Nat.ltb Nat.leb].
  rewrite Join_loop_strings by exact Hs. rewrite Hs, concat_fold. reflexivity.
Qed.

Lemma Join_of_Split (ext : Externals) (u : Strings.Utf8) (input sep : string) :
  (forall s, Sprint ext (VStr s) = s) ->
  sep <> EmptyString ->
  Join ext (Split u input sep) sep = input.
Proof.
  intros Hs Hsep. unfold Split, Strings.Split.
  destruct sep as [|a sep'] eqn:E; [congruence|]. rewrite <- E in *.
  rewrite Join_strings by exact Hs.
  rewrite (concat_split_go sep sep (String.length input)) by (auto; lia).
  cbn [String.append].
  apply (replace_go_same sep (String.length input)); [exact Hsep | lia].
Qed.

(** X1. Joining what [Split] cut, with the same non-empty separator, gives
    the input back. *)
Theorem Join_Split (ext : Externals) (u : Strings.Utf8) (input sep : string) :
  (forall s, Sprint ext (VStr s) = s) ->
  sep <> EmptyString ->
  Join ext (Split u input sep) sep = input.
Proof. exact (Join_of_Split ext u input sep). Qed.

Lemma Join_Split_witness :
  Join Ref.ext (Split Sample.ascii_text "id,name,,value" ",") "," = "id,name,,value"%string.
Proof.
  apply Join_Split; [reflexivity | discriminate].
Defined.

(** X2. Replacing every [old] by [new] is splitting at [old] and joining
    with [new]. *)
Theorem Replace_is_Join_Split (ext : Externals) (u : Strings.Utf8)
    (s old new : string) :
  (forall s, Sprint ext (VStr s) = s) ->
  old <> EmptyString ->
  Replace u s old new = Join ext (Split u s old) new.
Proof.
  intros Hs Hold. unfold Replace, Strings.Replace.
  destruct (String.eqb_spec old new) as [<-|Hne].
  - symmetry. now apply Join_of_Split.
  - unfold Split, Strings.Split.
    destruct old as [|a old'] eqn:E; [congruence|]. rewrite <- E in *.
    rewrite Join_strings by exact Hs.
    now rewrite (concat_split_go old new (String.length s)) by (auto; lia).
Qed.

Lemma Replace_is_Join_Split_witness :
  Replace Sample.ascii_text "a, b, c" ", " ";"
  = Join Ref.ext (Split Sample.ascii_text "a, b, c" ", ") ";".
Proof.
  apply Replace_is_Join_Split; [reflexivity | discriminate].
Defined.

Lemma split_go_absent (sep : string) (s : string) :
  sep <> EmptyString ->
  Go.Contains s sep = false ->
  forall cur, Strings.split_go sep 0 cur s = [cur +:+ s].
Proof.
  intros Hsep. induction s as [|c rest IH]; intros Habs cur.
  - cbn. now rewrite append_empty_r.
  - cbn [Go.Contains] in Habs. apply orb_false_elim in Habs as [Hp Hrest].
    cbn [Strings.split_go]. rewrite Hp, IH by exact Hrest.
    now rewrite append_assoc.
Qed.

Lemma replace_go_absent (old new : string) (s : string) :
  Go.Contains s old = false -> Strings.replace_go old new 0 s = s.
Proof.
  induction s as [|c rest IH]; intros Habs; [reflexivity|].
  cbn [Go.Contains] in Habs. apply orb_false_elim in Habs as [Hp Hrest].
  cbn [Strings.replace_go]. now rewrite Hp, IH.
Qed.

(** X3. On an input that does not contain the non-empty separator, [Split]
    returns the input as its only piece and [Replace] returns it
    unchanged. *)
Theorem Split_Replace_absent (u : Strings.Utf8) (s sep new : string) :
  sep <> EmptyString ->
  Go.Contains s sep = false ->
  Split u s sep = [VStr s] /\ Replace u s sep new = s.
Proof.
  intros Hsep Habs. unfold Split, Replace, Strings.Split, Strings.Replace.
  destruct sep as [|a sep'] eqn:E; [congruence|]. rewrite <- E in *.
  split.
  - now rewrite split_go_absent.
  - destruct (String.eqb sep new); [reflexivity|]. now apply replace_go_absent.
Qed.

Lemma Split_Replace_absent_witness :
  Split Sample.ascii_text "amount" "," = [VStr "amount"]
  /\ Replace Sample.ascii_text "amount" "," ";" = "amount"%string.
Proof.
  apply Split_Replace_absent; [discriminate | reflexivity].
Defined.

(** A one-byte separator: the pieces are those [DBUpdateExt] reads its
    column list with. *)
Lemma split_go_byte (c : ascii) (s cur : string) :
  Strings.split_go (String c EmptyString) 0 cur s = Go.split_on c cur s.
Proof.
  revert cur. induction s as [|a rest IH]; intros cur; [reflexivity|].
  cbn [Strings.split_go Go.split_on String.prefix String.length Nat.sub].
  destruct (Ascii.eqb_spec a c) as [->|Hne].
  - destruct (ascii_dec c c); [|congruence].
    replace (String.prefix EmptyString rest) with true by now destruct rest.
    now rewrite IH.
  - destruct (ascii_dec c a); [congruence|]. apply IH.
Qed.

(** ** Hexadecimal *)

Lemma Decode_DecodeString (s : string) :
  Go.DecodeString s =
  match Strings.Decode s with
  | (bytes, None) => inr bytes
  | (_, Some e) => inl e
  end.
Proof.
  induction s as [|a|a b rest IH] using string_pair_ind.
  - reflexivity.
  - cbn. destruct (Go.fromHexChar a); reflexivity.
  - cbn [Go.DecodeString Strings.Decode].
    destruct (Go.fromHexChar a); [|reflexivity].
    destruct (Go.fromHexChar b); [|reflexivity].
    rewrite IH. destruct (Strings.Decode rest) as [bytes [e|]]; reflexivity.
Qed.

Lemma fromHexChar_range (c : ascii) (n : Z) :
  Go.fromHexChar c = Some n -> 0 <= n < 16.
Proof.
  unfold Go.fromHexChar.
  repeat match goal with
         | |- context [if ?b then _ else _] => destruct b eqn:?
         end; intros [= <-]; lia.
Qed.

Lemma hex_byte_range (x y : Z) :
  0 <= x < 16 -> 0 <= y < 16 -> 0 <= Z.lor (Z.shiftl x 4) y < 256.
Proof.
  intros Hx Hy.
  assert (Hall : forallb (fun a => forallb (fun b =>
             (0 <=? Z.lor (Z.shiftl (Z.of_nat a) 4) (Z.of_nat b))
             && (Z.lor (Z.shiftl (Z.of_nat a) 4) (Z.of_nat b) <? 256))
             (seq 0 16)) (seq 0 16) = true) by (vm_compute; reflexivity).
  rewrite forallb_forall in Hall.
  specialize (Hall (Z.to_nat x)). rewrite forallb_forall in Hall.
  assert (Hin : forall z, 0 <= z < 16 -> In (Z.to_nat z) (seq 0 16))
    by (intros z Hz; apply in_seq; lia).
  specialize (Hall (Hin x Hx) (Z.to_nat y) (Hin y Hy)).
  rewrite !Z2Nat.id in Hall by lia.
  apply andb_prop in Hall as [H1 H2]. apply Z.leb_le in H1. apply Z.ltb_lt in H2. lia.
Qed.

Lemma hex_byte_digits (v : Z) :
  0 <= v < 256 ->
  Go.fromHexChar (Strings.hexDigit (Z.shiftr v 4)) = Some (Z.shiftr v 4)
  /\ Go.fromHexChar (Strings.hexDigit (Z.land v 15)) = Some (Z.land v 15)
  /\ Z.lor (Z.shiftl (Z.shiftr v 4) 4) (Z.land v 15) = v.
Proof.
  intros Hv.
  assert (Hall : forallb (fun a =>
             let v := Z.of_nat a in
             match Go.fromHexChar (Strings.hexDigit (Z.shiftr v 4)),
                   Go.fromHexChar (Strings.hexDigit (Z.land v 15)) with
             | Some x, Some y =>
                 (x =? Z.shiftr v 4) && (y =? Z.land v 15)
                 && (Z.lor (Z.shiftl (Z.shiftr v 4) 4) (Z.land v 15) =? v)
             | _, _ => false
             end) (seq 0 256) = true) by (vm_compute; reflexivity).
  rewrite forallb_forall in Hall.
  specialize (Hall (Z.to_nat v)). rewrite Z2Nat.id in Hall by lia.
  assert (Hin : In (Z.to_nat v) (seq 0 256)) by (apply in_seq; lia).
  specialize (Hall Hin). cbv zeta in Hall.
  destruct (Go.fromHexChar (Strings.hexDigit (Z.shiftr v 4))) as [x|]; [|discriminate].
  destruct (Go.fromHexChar (Strings.hexDigit (Z.land v 15))) as [y|]; [|discriminate].
  apply andb_prop in Hall as [Hall H3]. apply andb_prop in Hall as [H1 H2].
  apply Z.eqb_eq in H1, H2, H3. subst. auto.
Qed.

Lemma Decode_EncodeToString (src : list Z) :
  Forall (fun v => 0 <= v < 256) src ->
  HexToBytes (Strings.EncodeToString src) = (src, None).
Proof.
  unfold HexToBytes. induction 1 as [|v rest Hv _ IH]; [reflexivity|].
  destruct (hex_byte_digits v Hv) as (H1 & H2 & H3).
  cbn [Strings.EncodeToString Strings.Decode]. rewrite H1, H2, IH, H3. reflexivity.
Qed.

(** X4. Decoding inverts encoding: [HexToBytes] of the hex form of a byte
    string returns the bytes and no error. *)
Theorem HexToBytes_EncodeToString (src : list Z) :
  Forall (fun v => 0 <= v < 256) src ->
  HexToBytes (Strings.EncodeToString src) = (src, None).
Proof. exact (Decode_EncodeToString src). Qed.

Lemma HexToBytes_EncodeToString_witness :
  HexToBytes (Strings.EncodeToString [0; 171; 255]) = ([0; 171; 255], None).
Proof.
  apply HexToBytes_EncodeToString. repeat constructor; lia.
Defined.

(** X5. [PubToID] of the hex form of a public key is the address of the
    key, with nothing logged and no call made. *)
Theorem PubToID_EncodeToString {W : Type} (h : Host W) (ext : Externals)
    (w : W) (pubkey : list Z) :
  Forall (fun v => 0 <= v < 256) pubkey ->
  run h (PubToID ext (Strings.EncodeToString pubkey)) w =
    {| outcome := Returned (Address ext pubkey); world := w; trace := [] |}.
Proof.
  intros Hb. unfold PubToID.
  rewrite Decode_DecodeString.
  change (Strings.Decode (Strings.EncodeToString pubkey))
    with (HexToBytes (Strings.EncodeToString pubkey)).
  rewrite Decode_EncodeToString by exact Hb. reflexivity.
Qed.

Lemma PubToID_EncodeToString_witness :
  run Ref.host (PubToID Ref.ext (Strings.EncodeToString [1; 2; 250])) Ref.w_open =
    {| outcome := Returned 253; world := Ref.w_open; trace := [] |}.
Proof.
  apply (PubToID_EncodeToString Ref.host Ref.ext Ref.w_open [1; 2; 250]).
  repeat constructor; lia.
Defined.

(** X6. What [HexToBytes] returns.  Without an error the input has two hex
    digits for each byte returned and every byte is in 0..255.  With an
    error the bytes returned are the decoding of the pairs before the
    fault, so they are never more than half the input. *)
Theorem HexToBytes_result (hexdata : string) (bytes : list Z)
    (err : option Go.hex_error) :
  HexToBytes hexdata = (bytes, err) ->
  Forall (fun v => 0 <= v < 256) bytes
  /\ HexToBytes (substring 0 (2 * length bytes) hexdata) = (bytes, None)
  /\ (err = None <->
      String.length hexdata = (2 * length bytes)%nat)
  /\ (err = None <-> valid_hex hexdata = true).
Proof.
  unfold HexToBytes. revert bytes err.
  induction hexdata as [|a|a b rest IH] using string_pair_ind; intros bytes err H.
  - injection H as <- <-. repeat split; try reflexivity; constructor.
  - cbn in H. destruct (Go.fromHexChar a) eqn:Ha; injection H as <- <-;
      (split; [constructor|]); (split; [reflexivity|]);
      split; split; discriminate.
  - cbn [Strings.Decode] in H.
    unfold valid_hex. cbn [String.length Nat.even all_hex].
    destruct (Go.fromHexChar a) as [x|] eqn:Ha.
    2:{ injection H as <- <-. split; [constructor|]. split; [reflexivity|].
        split; split; try discriminate. now rewrite andb_false_r. }
    destruct (Go.fromHexChar b) as [y|] eqn:Hb.
    2:{ injection H as <- <-. split; [constructor|]. split; [reflexivity|].
        split; split; try discriminate. now rewrite andb_false_r. }
    destruct (Strings.Decode rest) as [bs e] eqn:Hrest.
    injection H as <- <-.
    destruct (IH bs e eq_refl) as (Hrange & Hpre & Hlen & Hvalid).
    split.
    { constructor; [|exact Hrange].
      apply hex_byte_range; eapply fromHexChar_range; eassumption. }
    split.
    { cbn [length]. replace (2 * S (length bs))%nat with (S (S (2 * length bs))) by lia.
      cbn [substring Strings.Decode]. rewrite Ha, Hb, Hpre. reflexivity. }
    split.
    { rewrite Hlen. cbn [length]. lia. }
    exact Hvalid.
Qed.

Lemma HexToBytes_result_witness :
  Forall (fun v => 0 <= v < 256) [10]
  /\ HexToBytes (substring 0 (2 * length [10]) "0aZZ") = ([10], None)
  /\ (Some (Go.InvalidByteError "Z") = None <->
      String.length "0aZZ" = (2 * length [10])%nat)
  /\ (Some (Go.InvalidByteError "Z") = None <-> valid_hex "0aZZ" = true).
Proof.
  apply (HexToBytes_result "0aZZ" [10] (Some (Go.InvalidByteError "Z"))).
  reflexivity.
Defined.

(** ** Substr, the whole picture *)

Lemma substring_whole (s : string) : substring 0 (String.length s) s = s.
Proof.
  induction s as [|c s IH]; [reflexivity|].
  cbn [String.length substring]. now f_equal.
Qed.

Lemma substring_parts (s : string) :
  forall n m, (n + m <= String.length s)%nat ->
  s = substring 0 n s +:+ substring n m s
        +:+ substring (n + m) (String.length s - (n + m)) s.
Proof.
  induction s as [|c s IH]; intros n m Hlen.
  - cbn in Hlen. assert (n = 0 /\ m = 0)%nat as [-> ->] by lia. reflexivity.
  - cbn [String.length] in Hlen. destruct n as [|n]; [destruct m as [|m]|].
    + cbn [Nat.add Nat.sub]. change (substring 0 0 (String c s)) with EmptyString.
      rewrite !append_empty_l. symmetry. exact (substring_whole (String c s)).
    + specialize (IH 0%nat m ltac:(lia)).
      replace (substring 0 0 s) with EmptyString in IH by now destruct s.
      rewrite append_empty_l in IH. cbn [Nat.add] in IH.
      cbn [Nat.add String.length Nat.sub substring].
      change (substring 0 0 (String c s)) with EmptyString.
      rewrite append_empty_l, append_cons. now f_equal.
    + specialize (IH n m ltac:(lia)).
      cbn [Nat.add String.length Nat.sub substring].
      rewrite append_cons. now f_equal.
Qed.

Lemma substring_length (s : string) :
  forall n m, (n + m <= String.length s)%nat ->
  String.length (substring n m s) = m.
Proof.
  induction s as [|c s IH]; intros n m Hlen.
  - cbn in Hlen. assert (n = 0 /\ m = 0)%nat as [-> ->] by lia. reflexivity.
  - destruct n as [|n].
    + destruct m as [|m]; [reflexivity|].
      cbn [substring String.length]. f_equal. apply IH. cbn in Hlen. lia.
    + cbn [substring]. apply IH. cbn in Hlen. lia.
Qed.

Lemma add64_overflow (a b : Z) :
  Go.is_int64 a -> Go.is_int64 b -> Go.int64_max < a + b ->
  Go.add64 a b = a + b - 2 ^ 64.
Proof.
  unfold Go.is_int64, Go.int64_min, Go.int64_max, Go.add64, Go.wrap64.
  intros Ha Hb Hsum.
  assert (H : (a + b + 2 ^ 63) mod 2 ^ 64 = a + b + 2 ^ 63 - 2 ^ 64)
    by (symmetry; apply (Z.mod_unique _ _ 1); lia).
  rewrite H. lia.
Qed.

Lemma Substr_None_iff (s : string) (off slen : Z) :
  Go.is_int64 off -> Go.is_int64 slen ->
  Substr s off slen = None <->
  0 <= off <= Size s /\ 0 <= slen /\ Go.int64_max < off + slen.
Proof.
  intros Hoff Hslen. unfold Size.
  destruct (Z_le_gt_dec (off + slen) Go.int64_max) as [Hfit|Hover].
  - rewrite Substr_without_overflow by exact Hfit.
    split; [discriminate | lia].
  - unfold Substr.
    destruct ((off <? 0) || (slen <? 0) || (off >? Go.len s)) eqn:Hguard.
    + split; [discriminate|]. intros (H1 & H2 & _). exfalso.
      apply orb_prop in Hguard as [Hguard|Hguard];
        [apply orb_prop in Hguard as [Hguard|Hguard]|].
      * apply Z.ltb_lt in Hguard. lia.
      * apply Z.ltb_lt in Hguard. lia.
      * rewrite Z.gtb_ltb in Hguard. apply Z.ltb_lt in Hguard. lia.
    + apply orb_false_elim in Hguard as [Hguard H3].
      apply orb_false_elim in Hguard as [H1 H2].
      apply Z.ltb_ge in H1, H2. rewrite Z.gtb_ltb in H3. apply Z.ltb_ge in H3.
      rewrite add64_overflow by (auto; lia).
      assert (Hneg : off + slen - 2 ^ 64 < 0)
        by (unfold Go.is_int64, Go.int64_max in *; lia).
      replace (off + slen - 2 ^ 64 >? Go.len s) with false.
      2:{ symmetry. rewrite Z.gtb_ltb. apply Z.ltb_ge. unfold Go.len. lia. }
      unfold Go.slice.
      replace (off <=? off + slen - 2 ^ 64) with false
        by (symmetry; apply Z.leb_gt; lia).
      rewrite andb_false_r. cbn [andb]. split; [lia | reflexivity].
Qed.

(** X7. For [int64] arguments [Substr] panics exactly when the offset is
    inside the string, the length is not negative and their sum exceeds
    [math.MaxInt64]. *)
Theorem Substr_panics_iff (s : string) (off slen : Z) :
  Go.is_int64 off -> Go.is_int64 slen ->
  Substr s off slen = None <->
  0 <= off <= Size s /\ 0 <= slen /\ Go.int64_max < off + slen.
Proof. exact (Substr_None_iff s off slen). Qed.

Lemma Substr_panics_iff_witness :
  Substr "abc" 3 Go.int64_max = None <->
  0 <= 3 <= Size "abc" /\ 0 <= Go.int64_max /\ Go.int64_max < 3 + Go.int64_max.
Proof.
  apply Substr_panics_iff; unfold Go.is_int64, Go.int64_min, Go.int64_max; lia.
Defined.

(** X8. When the offset is inside the string and the length is not
    negative, a result of [Substr] is the part of [s] that starts at [off]
    and is [min(slen, len(s)-off)] long. *)
Theorem Substr_result (s r : string) (off slen : Z) :
  Go.is_int64 off -> Go.is_int64 slen ->
  0 <= off <= Size s -> 0 <= slen ->
  Substr s off slen = Some r ->
  Size r = Z.min slen (Size s - off)
  /\ exists before after,
       s = before +:+ r +:+ after /\ Size before = off.
Proof.
  intros Hi1 Hi2 Hoff Hslen Hres.
  assert (Hfit : off + slen <= Go.int64_max).
  { destruct (Z_le_gt_dec (off + slen) Go.int64_max) as [H|H]; [exact H|].
    assert (Substr s off slen = None)
      by (apply Substr_None_iff; auto; lia).
    congruence. }
  unfold Size in *.
  rewrite Substr_without_overflow in Hres by exact Hfit.
  replace ((off <? 0) || (slen <? 0) || (off >? Go.len s)) with false in Hres.
  2:{ symmetry. apply orb_false_intro; [apply orb_false_intro|].
      - apply Z.ltb_ge; lia.
      - apply Z.ltb_ge; lia.
      - rewrite Z.gtb_ltb. apply Z.ltb_ge. lia. }
  injection Hres as <-. unfold Go.len in *.
  set (n := Z.to_nat off).
  set (m := Z.to_nat (Z.min slen (Z.of_nat (String.length s) - off))).
  assert (Hnm : (n + m <= String.length s)%nat) by (subst n m; lia).
  split.
  - rewrite (substring_length s n m Hnm). subst m. lia.
  - exists (substring 0 n s), (substring (n + m) (String.length s - (n + m)) s).
    split; [apply substring_parts; exact Hnm|].
    rewrite (substring_length s 0 n) by lia. subst n. lia.
Qed.

Lemma Substr_result_witness :
  Size "cdef" = Z.min 30 (Size "abcdef" - 2)
  /\ exists before after,
       "abcdef"%string = before +:+ "cdef" +:+ after /\ Size before = 2.
Proof.
  apply (Substr_result "abcdef" "cdef" 2 30).
  - unfold Go.is_int64, Go.int64_min, Go.int64_max. lia.
  - unfold Go.is_int64, Go.int64_min, Go.int64_max. lia.
  - vm_compute. split; discriminate.
  - lia.
  - reflexivity.
Defined.

(** ** The signable string, read back *)

Lemma string_of_uint_digits (d : Decimal.uint) :
  free_of "," (NilEmpty.string_of_uint d) = true.
Proof. induction d; cbn; auto. Qed.

Lemma FormatInt_free_of_comma (z : Z) : free_of "," (Go.FormatInt z) = true.
Proof.
  unfold Go.FormatInt, NilZero.string_of_int, NilZero.string_of_uint.
  destruct (Z.to_int z) as [d|d]; destruct d; cbn [free_of]; try reflexivity;
    try (apply (string_of_uint_digits (Decimal.D0 d)));
    try (apply (string_of_uint_digits (Decimal.D1 d)));
    try (apply (string_of_uint_digits (Decimal.D2 d)));
    try (apply (string_of_uint_digits (Decimal.D3 d)));
    try (apply (string_of_uint_digits (Decimal.D4 d)));
    try (apply (string_of_uint_digits (Decimal.D5 d)));
    try (apply (string_of_uint_digits (Decimal.D6 d)));
    try (apply (string_of_uint_digits (Decimal.D7 d)));
    try (apply (string_of_uint_digits (Decimal.D8 d)));
    try (apply (string_of_uint_digits (Decimal.D9 d))).
Qed.

Lemma FormatInt_inj (a b : Z) : Go.FormatInt a = Go.FormatInt b -> a = b.
Proof.
  unfold Go.FormatInt. intros H.
  assert (Hnz : forall z, Z.to_int z <> Decimal.Pos Decimal.Nil
                          /\ Z.to_int z <> Decimal.Neg Decimal.Nil).
  { intros [|p|p]; cbn; split; try discriminate;
      intros [= Hp]; exact (DecimalPos.Unsigned.to_uint_nonnil p Hp). }
  apply DecimalZ.to_int_inj.
  assert (Hs : Some (Z.to_int a) = Some (Z.to_int b)).
  { rewrite <- (NilZero.isi (Z.to_int a)) by apply Hnz.
    rewrite <- (NilZero.isi (Z.to_int b)) by apply Hnz.
    now rewrite H. }
  now injection Hs.
Qed.

Lemma split_on_free (sep : ascii) (a cur : string) :
  free_of sep a = true -> Go.split_on sep cur a = [cur +:+ a].
Proof.
  revert cur. induction a as [|c a IH]; intros cur Hfree.
  - cbn. now rewrite append_empty_r.
  - cbn [free_of] in Hfree. apply andb_prop in Hfree as [Hc Hfree].
    apply negb_true_iff in Hc. cbn [Go.split_on]. rewrite Hc, IH by exact Hfree.
    now rewrite append_assoc.
Qed.

Lemma split_on_field (sep : ascii) (a b cur : string) :
  free_of sep a = true ->
  Go.split_on sep cur (a +:+ String sep b)
  = (cur +:+ a) :: Go.split_on sep EmptyString b.
Proof.
  revert cur. induction a as [|c a IH]; intros cur Hfree.
  - rewrite append_empty_l, append_empty_r. cbn [Go.split_on].
    now rewrite Ascii.eqb_refl.
  - cbn [free_of] in Hfree. apply andb_prop in Hfree as [Hc Hfree].
    apply negb_true_iff in Hc. rewrite append_cons. cbn [Go.split_on].
    rewrite Hc, IH by exact Hfree. now rewrite append_assoc.
Qed.

Lemma ForSign_unfold (s : tx.SmartContract) :
  tx.ForSign s =
  tx.RequestID s +:+ String ","
    (Go.FormatInt (tx.Type_ (tx.header s)) +:+ String ","
    (Go.FormatInt (tx.Time (tx.header s)) +:+ String ","
    (Go.FormatInt (tx.KeyID (tx.header s)) +:+ String ","
    (Go.FormatInt (tx.EcosystemID (tx.header s)) +:+ String ","
    (Go.FormatInt (tx.TokenEcosystem s) +:+ String ","
    (tx.MaxSum s +:+ String ","
    (tx.PayOver s +:+ String ","
    (Go.FormatInt (tx.SignedBy s))))))))).
Proof.
  unfold tx.ForSign. cbn [Go.Sprintf].
  unfold Go.verb, Go.render, Go.extra. cbn.
  now rewrite append_empty_r.
Qed.

Lemma ForSign_split (s : tx.SmartContract) :
  free_of "," (tx.RequestID s) = true ->
  free_of "," (tx.MaxSum s) = true ->
  free_of "," (tx.PayOver s) = true ->
  Go.Split (tx.ForSign s) "," =
    [tx.RequestID s;
     Go.FormatInt (tx.Type_ (tx.header s));
     Go.FormatInt (tx.Time (tx.header s));
     Go.FormatInt (tx.KeyID (tx.header s));
     Go.FormatInt (tx.EcosystemID (tx.header s));
     Go.FormatInt (tx.TokenEcosystem s);
     tx.MaxSum s;
     tx.PayOver s;
     Go.FormatInt (tx.SignedBy s)].
Proof.
  intros H1 H2 H3. rewrite ForSign_unfold. unfold Go.Split.
  repeat (rewrite split_on_field
            by first [assumption | apply FormatInt_free_of_comma];
          rewrite append_empty_l).
  rewrite split_on_free by apply FormatInt_free_of_comma.
  now rewrite append_empty_l.
Qed.

(** X9. When RequestID, MaxSum and PayOver contain no comma, splitting
    [ForSign] at the commas gives back the nine fields, in order. *)
Theorem ForSign_fields (s : tx.SmartContract) :
  free_of "," (tx.RequestID s) = true ->
  free_of "," (tx.MaxSum s) = true ->
  free_of "," (tx.PayOver s) = true ->
  Go.Split (tx.ForSign s) "," =
    [tx.RequestID s;
     Go.FormatInt (tx.Type_ (tx.header s));
     Go.FormatInt (tx.Time (tx.header s));
     Go.FormatInt (tx.KeyID (tx.header s));
     Go.FormatInt (tx.EcosystemID (tx.header s));
     Go.FormatInt (tx.TokenEcosystem s);
     tx.MaxSum s;
     tx.PayOver s;
     Go.FormatInt (tx.SignedBy s)].
Proof. exact (ForSign_split s). Qed.

(** X10. On envelopes whose RequestID, MaxSum and PayOver contain no comma
    [ForSign] decides every field it prints: equal strings mean equal
    RequestID, Type, Time, KeyID, EcosystemID, TokenEcosystem, MaxSum,
    PayOver and SignedBy. *)
Theorem ForSign_injective (s1 s2 : tx.SmartContract) :
  free_of "," (tx.RequestID s1) = true ->
  free_of "," (tx.MaxSum s1) = true ->
  free_of "," (tx.PayOver s1) = true ->
  free_of "," (tx.RequestID s2) = true ->
  free_of "," (tx.MaxSum s2) = true ->
  free_of "," (tx.PayOver s2) = true ->
  tx.ForSign s1 = tx.ForSign s2 ->
  tx.header s1 = tx.header s2
  /\ tx.RequestID s1 = tx.RequestID s2
  /\ tx.TokenEcosystem s1 = tx.TokenEcosystem s2
  /\ tx.MaxSum s1 = tx.MaxSum s2
  /\ tx.PayOver s1 = tx.PayOver s2
  /\ tx.SignedBy s1 = tx.SignedBy s2.
Proof.
  intros A1 A2 A3 B1 B2 B3 Heq.
  pose proof (ForSign_split s1 A1 A2 A3) as F1.
  pose proof (ForSign_split s2 B1 B2 B3) as F2.
  rewrite Heq, F2 in F1.
  injection F1 as Hr Hty Hti Hk He Hto Hm Hp Hs.
  apply FormatInt_inj in Hty, Hti, Hk, He, Hto, Hs.
  repeat split; try congruence.
  destruct (tx.header s1), (tx.header s2); cbn in *; congruence.
Qed.

Lemma ForSign_fields_witness :
  Go.Split (tx.ForSign Sample.envelope) "," =
    ["6f1e"; "274"; "1530000000"; "-1744264011260937456"; "1"; "1";
     "10000"; "0"; "0"]%string.
Proof. apply (ForSign_fields Sample.envelope); reflexivity. Defined.

Lemma ForSign_injective_witness :
  tx.header Sample.envelope = tx.header Sample.envelope'
  /\ tx.RequestID Sample.envelope = tx.RequestID Sample.envelope'
  /\ tx.TokenEcosystem Sample.envelope = tx.TokenEcosystem Sample.envelope'
  /\ tx.MaxSum Sample.envelope = tx.MaxSum Sample.envelope'
  /\ tx.PayOver Sample.envelope = tx.PayOver Sample.envelope'
  /\ tx.SignedBy Sample.envelope = tx.SignedBy Sample.envelope'.
Proof.
  apply (ForSign_injective Sample.envelope Sample.envelope'); reflexivity.
Defined.

(** ** Reasoning on bodies *)

Lemma Obeys_fn_bind {R A B : Type} (pan : Prop) (E : Event -> Prop)
    (Q : R -> Prop) (P : A -> Prop) (P' : B -> Prop) (m : Fn R A)
    (f : A -> Fn R B) :
  Obeys pan E Q P m ->
  (forall a, P a -> Obeys pan E Q P' (f a)) ->
  Obeys pan E Q P' (fn_bind m f).
Proof.
  intros Hm Hf. unfold fn_bind.
  induction m as [[r|a]|msg|e k IH|X c k IH]; cbn in *.
  - exact Hm.
  - apply Hf, Hm.
  - exact Hm.
  - destruct Hm. split; auto.
  - destruct Hm as [Hc Hk]. split; [exact Hc|]. intros x. apply IH, Hk.
Qed.

Lemma Obeys_weaken {R A : Type} (pan : Prop) (E : Event -> Prop)
    (Q : R -> Prop) (P P' : A -> Prop) (m : Fn R A) :
  (forall a, P a -> P' a) -> Obeys pan E Q P m -> Obeys pan E Q P' m.
Proof.
  intros HP. induction m as [[r|a]|msg|e k IH|X c k IH]; cbn; auto.
  - intros [He Hk]. auto.
  - intros [Hc Hk]. split; auto.
Qed.

Lemma Obeys_body {W R : Type} (pan : Prop) (E : Event -> Prop) (Q : R -> Prop)
    (m : Fn R R) (h : Host W) :
  Obeys pan E Q Q m -> forall w, obeyed pan E Q (run h (body m) w).
Proof.
  unfold obeyed, body.
  induction m as [[r|a]|msg|e k IH|X c k IH]; cbn; intros Hm w.
  - split; [constructor | exact Hm].
  - split; [constructor | exact Hm].
  - split; [constructor | exact Hm].
  - destruct Hm as [He Hk]. destruct (IH Hk w) as [Ht Ho].
    split; [constructor; assumption | exact Ho].
  - destruct Hm as [Hc Hk].
    destruct (IH _ (Hk (h X c w).1) (h X c w).2) as [Ht Ho].
    split; [constructor; assumption | exact Ho].
Qed.

Lemma Obeys_when {R : Type} (pan : Prop) (E : Event -> Prop) (Q : R -> Prop)
    (b : bool) (m : Fn R unit) :
  (b = true -> Obeys pan E Q (fun _ => False) m) ->
  Obeys pan E Q (fun _ => b = false) (when_ b m).
Proof.
  intros Hm. unfold when_. destruct b; [|reflexivity].
  eapply Obeys_weaken; [|apply Hm; reflexivity]. contradiction.
Qed.

(** [x ;; k] where nothing is learnt from [x]. *)
Ltac ob_seq := eapply Obeys_fn_bind with (P := fun _ => True); [|intros ? _].

Ltac ob_leaf :=
  cbn; repeat match goal with
              | |- _ /\ _ => split
              | |- forall _, _ => intros
              | |- True => exact I
              | |- _ = _ => reflexivity
              end.

(** ** UpdateSysParam, every run *)

Lemma check_switch_obeys {R : Type} (ext : Externals) (E : Event -> Prop)
    (Q : R -> Prop) (fail : error -> R) (name value : string) (ival : Z) :
  (forall e, E (EvLog e)) -> (forall e, Q (fail e)) ->
  Obeys False E Q (fun _ => True) (check_switch ext fail name value ival).
Proof.
  intros HE HQ. unfold check_switch.
  repeat match goal with
         | |- Obeys _ _ _ _ (if ?b then _ else _) => destruct b
         | |- Obeys _ _ _ _ (match ?x with _ => _ end) => destruct x
         end; cbn; auto.
Qed.

Lemma UpdateSysParam_obeys {W : Type} (h : Host W) (ext : Externals)
    (sc : SmartContract) (w : W) (name value conditions : string) :
  obeyed False (sysparam_policy sc name conditions) (sysparam_result sc)
    (run h (UpdateSysParam ext sc name value conditions) w).
Proof.
  apply Obeys_body. unfold UpdateSysParam.
  eapply Obeys_fn_bind with (P := fun _ => True); [ob_leaf|].
  intros [found err] _.
  ob_seq; [destruct err; ob_leaf|].
  eapply Obeys_fn_bind with (P := fun _ => True);
    [destruct found; ob_leaf | intros par _].
  ob_seq.
  { unfold when_. destruct (Go.len (par_Conditions par) >? 0); [|ob_leaf].
    eapply Obeys_fn_bind with (P := fun _ => True); [ob_leaf|].
    intros [ret err'] _.
    ob_seq; [destruct err'; ob_leaf|].
    destruct (negb ret); ob_leaf. }
  eapply Obeys_fn_bind
    with (P := fun fv => fv = ([], []) \/ fv = (["value"%string], [VStr value])).
  { destruct (Go.len value >? 0); [|left; reflexivity].
    eapply Obeys_fn_bind with (P := fun _ => True).
    { apply check_switch_obeys; [intros; exact I | intros; split; reflexivity]. }
    intros [ok checked] _.
    ob_seq.
    { unfold when_. destruct (negb checked && _); ob_leaf. }
    right. reflexivity. }
  intros [fields values] Hfv.
  eapply Obeys_fn_bind
    with (P := fun fv => incl fv.1 ["value"; "conditions"]%string
                         /\ length fv.1 = length fv.2).
  { destruct (Go.len conditions >? 0).
    - eapply Obeys_fn_bind with (P := fun _ => True); [ob_leaf|].
      intros cerr _. ob_seq; [destruct cerr; ob_leaf|].
      destruct Hfv as [[= -> ->]|[= -> ->]]; cbn; split; try reflexivity;
        intros x Hx; cbn in *; tauto.
    - destruct Hfv as [[= -> ->]|[= -> ->]]; cbn; split; try reflexivity;
        intros x Hx; cbn in *; tauto. }
  intros [fields' values'] [Hincl Hlen]. cbn [fst snd] in Hincl, Hlen.
  eapply Obeys_fn_bind with (P := fun _ => (Z.of_nat (length fields') =? 0) = false).
  { apply Obeys_when. intros _. ob_leaf. }
  intros _ Hne.
  eapply Obeys_fn_bind with (P := fun _ => True).
  { cbn. split; [|intros; exact I].
    repeat split; auto. intros ->. discriminate. }
  intros [[qcost rowid] werr] _.
  ob_seq; [destruct werr; ob_leaf|].
  eapply Obeys_fn_bind with (P := fun _ => True); [ob_leaf|].
  intros serr _.
  ob_seq; [destruct serr; ob_leaf|].
  ob_leaf.
Qed.

(** X11.  Whatever the node answers, [UpdateSysParam] does not panic,
    returns 0 as its number, and leaves the context with [SysUpdate] set
    exactly when it returns no error; on an error the context is as it
    was. *)
Theorem UpdateSysParam_returns {W : Type} (h : Host W) (ext : Externals)
    (sc : SmartContract) (w : W) (name value conditions : string) :
  exists err,
    outcome (run h (UpdateSysParam ext sc name value conditions) w)
    = Returned (0, err, match err with
                        | None => set_SysUpdate true sc
                        | Some _ => sc
                        end).
Proof.
  destruct (UpdateSysParam_obeys h ext sc w name value conditions) as [_ Ho].
  destruct (outcome _) as [[[n err] sc']|msg]; [|contradiction].
  destruct Ho as [-> ->]. exists err. reflexivity.
Qed.

(** X12.  Whatever the node answers, [UpdateSysParam] asks it only for the
    parameter [name], the evaluation of conditions under the caller's
    context, the compilation of the conditions given, for state 0, the
    refresh of the parameter cache, and writes through
    [selectiveLoggingAndUpd] to
    [1_system_parameters] only: by [id], without requiring the row, a
    non-empty selection of the columns [value] and [conditions] with as
    many values. *)
Theorem UpdateSysParam_asks {W : Type} (h : Host W) (ext : Externals)
    (sc : SmartContract) (w : W) (name value conditions : string) :
  Forall (sysparam_policy sc name conditions)
    (trace (run h (UpdateSysParam ext sc name value conditions) w)).
Proof.
  exact (proj1 (UpdateSysParam_obeys h ext sc w name value conditions)).
Qed.

(** ** DBUpdateExt, every run *)

(** X13.  Whatever the node answers, [DBUpdateExt] does not panic and asks
    it only for the two access checks and one update, all under the
    caller's context and on the resolved table; the update is never on a
    table whose name contains [_reports_], selects by the one column given
    and requires the row to exist.  The calls are made once each and in
    this order: a run is the table check, or the table check and the
    column check, or both and then the one update, of the columns the
    column check returned. *)
Theorem DBUpdateExt_asks {W : Type} (h : Host W) (ext : Externals)
    (sc : SmartContract) (w : W) (tblname column : string) (value : Value)
    (params : string) (val : list Value) :
  let r := run h (DBUpdateExt ext sc tblname column value params val) w in
  let table := getDefTableName ext sc tblname in
  let check_table := AccessTable sc table "update" in
  let check_columns := AccessColumns sc table (Go.Split params ",") true in
  let columns := (h _ check_columns (h _ check_table w).2).1.1 in
  let update :=
    selectiveLoggingAndUpd sc columns val table [column] [Sprint ext value]
      (negb (VDE sc) && Rollback sc) true in
  obeyed False (update_ext_policy ext sc tblname column value) (fun _ => True) r
  /\ (trace r = [EvCall check_table]
      \/ trace r = [EvCall check_table; EvCall check_columns]
      \/ trace r = [EvCall check_table; EvCall check_columns; EvCall update]).
Proof.
  intros r table check_table check_columns columns update. split.
  - subst r. apply Obeys_body. unfold DBUpdateExt.
    eapply Obeys_fn_bind with (P := fun _ => True); [ob_leaf|].
    intros err _.
    ob_seq; [destruct err; ob_leaf|].
    eapply Obeys_fn_bind
      with (P := fun _ => Go.Contains (getDefTableName ext sc tblname) "_reports_" = false).
    { apply Obeys_when. intros _. ob_leaf. }
    intros _ Hrep.
    eapply Obeys_fn_bind with (P := fun _ => True); [ob_leaf|].
    intros [cols cerr] _.
    ob_seq; [destruct cerr; ob_leaf|].
    eapply Obeys_fn_bind with (P := fun _ => True).
    { cbn. split; [|intros; exact I]. repeat split; auto. }
    intros [[qcost rowid] werr] _. ob_leaf.
  - subst r update columns check_columns check_table table.
    unfold DBUpdateExt, when_. run_simpl.
    destruct (h _ (AccessTable sc (getDefTableName ext sc tblname) "update") w)
      as [terr w1].
    run_simpl. destruct terr as [e|]; run_simpl; [left; reflexivity|].
    destruct (Go.Contains (getDefTableName ext sc tblname) "_reports_");
      run_simpl; [left; reflexivity|].
    destruct (h _ (AccessColumns sc (getDefTableName ext sc tblname)
                     (Go.Split params ",") true) w1) as [[cols cerr] w2].
    run_simpl. destruct cerr as [e|]; run_simpl; [right; left; reflexivity|].
    destruct (h _ (selectiveLoggingAndUpd sc cols val
                     (getDefTableName ext sc tblname) [column] [Sprint ext value]
                     (negb (VDE sc) && Rollback sc) true) w2) as [[[q rid] werr] w3].
    run_simpl. right. right. reflexivity.
Qed.

(** ** CreateEcosystem, every run *)

Lemma ecosystem_closed_window (sc : SmartContract) :
  set_Rollback true (set_FullAccess false (set_FullAccess true (set_Rollback false sc)))
  = ecosystem_closed sc.
Proof. reflexivity. Qed.

Lemma first_pub_obeys {R : Type} (E : Event -> Prop) (Q : R -> Prop)
    (ret : list Value) :
  Obeys True E Q (fun _ => True) (first_pub ret).
Proof.
  unfold first_pub.
  repeat match goal with
         | |- Obeys _ _ _ _ (match ?x with _ => _ end) => destruct x
         end; cbn; auto.
Qed.

Ltac eco_leaf :=
  cbn; repeat match goal with
              | |- _ /\ _ => split
              | |- forall _, _ => intros
              | |- True => exact I
              | |- _ = _ => reflexivity
              | |- _ \/ _ => first [left; reflexivity | right]
              | H : None <> None |- _ => contradiction H; reflexivity
              | H : Some _ = None |- _ => discriminate H
              end.

(** X14.  [CreateEcosystem] works on the caller's context through a
    pointer.  Whatever the node answers, the context it leaves is the
    caller's, or the caller's inside the full-access window ([FullAccess]
    set, [Rollback] cleared), or the closed one ([FullAccess] cleared,
    [Rollback] set); without an error it is the closed one, whatever the
    two flags were before the call; with an error the id is 0. *)
Theorem CreateEcosystem_context {W : Type} (h : Host W) (ext : Externals)
    (sc : SmartContract) (w : W) (wallet : Z) (name : string) :
  match outcome (run h (CreateEcosystem ext sc wallet name) w) with
  | Returned res => ecosystem_result sc res
  | Panicked _ => True
  end.
Proof.
  refine (proj2 (_ : obeyed True (fun _ => True) (ecosystem_result sc) _)).
  apply Obeys_body. unfold CreateEcosystem, SysParamString.
  rewrite ecosystem_closed_window. fold (ecosystem_window sc).
  ob_seq; [unfold when_; destruct (negb _); eco_leaf|].
  eapply Obeys_fn_bind with (P := fun _ => True); [eco_leaf|].
  intros [[found spValue] err] _.
  ob_seq; [destruct err; eco_leaf|].
  ob_seq; [unfold when_; destruct (negb found || _); eco_leaf|].
  eapply Obeys_fn_bind with (P := fun _ => True); [eco_leaf|].
  intros [id ierr] _.
  ob_seq; [destruct ierr; eco_leaf|].
  eapply Obeys_fn_bind with (P := fun _ => True); [eco_leaf|].
  intros xerr _.
  ob_seq; [destruct xerr; eco_leaf|].
  eapply Obeys_fn_bind with (P := fun _ => True); [eco_leaf|].
  intros lerr _.
  ob_seq; [destruct lerr; eco_leaf|].
  eapply Obeys_fn_bind with (P := fun _ => True); [eco_leaf|].
  intros page _.
  eapply Obeys_fn_bind with (P := fun _ => True); [eco_leaf|].
  intros [[c1 i1] e1] _.
  ob_seq; [destruct e1; eco_leaf|].
  eapply Obeys_fn_bind with (P := fun _ => True); [eco_leaf|].
  intros menu _.
  eapply Obeys_fn_bind with (P := fun _ => True); [eco_leaf|].
  intros [[c2 i2] e2] _.
  ob_seq; [destruct e2; eco_leaf|].
  eapply Obeys_fn_bind with (P := fun _ => True); [eco_leaf|].
  intros [[c3 ret] e3] _.
  ob_seq; [destruct e3; eco_leaf|].
  eapply Obeys_fn_bind with (P := fun _ => True).
  { destruct (Len ext ret >? 0); [apply first_pub_obeys | exact I]. }
  intros pub _.
  eapply Obeys_fn_bind with (P := fun _ => True); [eco_leaf|].
  intros [[c4 i4] e4] _.
  ob_seq; [destruct e4; eco_leaf|].
  eapply Obeys_fn_bind with (P := fun _ => True); [eco_leaf|].
  intros [[c5 i5] e5] _.
  ob_seq; [destruct e5; eco_leaf|].
  ob_seq.
  { unfold when_. destruct (negb _); [|eco_leaf].
    eapply Obeys_fn_bind with (P := fun _ => True); [eco_leaf|].
    intros serr _. destruct serr; eco_leaf. }
  eco_leaf.
Qed.

(** ** UpdateSysParam, the checks of the value *)

Lemma str_in_In (s : string) (l : list string) : str_in s l = true <-> In s l.
Proof.
  unfold str_in. rewrite existsb_exists. split.
  - intros (x & Hx & E). apply String.eqb_eq in E. now subst.
  - intros H. exists s. split; [exact H | apply String.eqb_refl].
Qed.

Lemma str_in_not (s : string) (l : list string) : ~ In s l -> str_in s l = false.
Proof.
  intros H. destruct (str_in s l) eqn:E; [|reflexivity].
  apply str_in_In in E. contradiction.
Qed.

(** Past the listed names the switch looks at [FullNodes] and at the
    prefix only. *)
Lemma check_switch_late {R : Type} (ext : Externals) (fail : error -> R)
    (name value : string) (ival : Z) :
  ~ In name switch_names ->
  check_switch ext fail name value ival =
  if String.eqb name (FullNodes ext) then
    match Unmarshal_FullNodes ext value with
    | inl _ => pure (false, false)
    | inr n => pure (false, n >? 0)
    end
  else if Go.HasPrefix name "extend_cost_" then pure (ival >=? 0, false)
  else pure (false, true).
Proof.
  intros H. unfold check_switch.
  assert (H0 : String.eqb name "gap_between_blocks" = false).
  { apply String.eqb_neq. intros ->. apply H. cbn. tauto. }
  rewrite H0.
  rewrite !str_in_not; [reflexivity|..];
    intros Hin; apply H; cbn in Hin |- *; tauto.
Qed.

Lemma extend_cost_late (name : string) :
  Go.HasPrefix name "extend_cost_" = true -> ~ In name switch_names.
Proof.
  intros Hp Hin. unfold switch_names in Hin. cbn [In] in Hin.
  repeat destruct Hin as [<-|Hin]; try (vm_compute in Hp; discriminate Hp).
  exact Hin.
Qed.

Ltac range_bool :=
  rewrite ?andb_true_iff, ?Z.gtb_ltb, ?Z.geb_leb, ?Z.ltb_lt, ?Z.leb_le.

Ltac range_listed :=
  eexists; split; [reflexivity|];
  unfold int_range; cbn [In]; range_bool; split;
  [ intros Hr;
    first [ left; split; [reflexivity | lia]
          | right; left; split; [solve [in_trace] | lia]
          | right; right; left; split; [solve [in_trace] | lia]
          | right; right; right; left; split; [solve [in_trace] | lia] ]
  | intros [[E Hr]|[[E Hr]|[[E Hr]|[[E Hr]|[Hp _]]]]];
    try solve [exfalso; clear - E; intuition discriminate];
    try solve [vm_compute in Hp; discriminate Hp];
    lia ].

(** For an integer parameter the switch leaves the value unchecked and
    [ok] says whether the reading is in the range. *)
Lemma check_switch_int {R : Type} (ext : Externals) (fail : error -> R)
    (name value : string) (ival : Z) :
  int_param ext name ->
  exists ok, check_switch ext fail name value ival = pure (ok, false)
             /\ (ok = true <-> int_range ext name ival).
Proof.
  intros [Hin | [Hp Hfn]].
  - cbn [In] in Hin.
    repeat destruct Hin as [<-|Hin]; try contradiction; range_listed.
  - rewrite check_switch_late by now apply extend_cost_late.
    apply String.eqb_neq in Hfn as Hfn'. rewrite Hfn', Hp.
    eexists; split; [reflexivity|].
    unfold int_range. range_bool. split.
    + intros Hr. do 4 right. auto.
    + pose proof (extend_cost_late name Hp) as Hlate.
      unfold switch_names in Hlate. cbn [In] in Hlate.
      intros [[E Hr]|[[E Hr]|[[E Hr]|[[E Hr]|[_ [_ Hr]]]]]];
        try exact Hr; exfalso;
        first [apply Hlate; left; symmetry; exact E | cbn [In] in E; tauto].
Qed.

(** Once the parameter is found and its conditions let the caller in, a
    non-empty value that the switch leaves as [(ok, checked)] is refused
    with [ErrInvalidValue] before any write, or written. *)
Lemma UpdateSysParam_checked {W : Type} (h : Host W) (ext : Externals)
    (sc : SmartContract) (w : W) (name value conditions : string)
    (par : SystemParameter) (ok checked : bool) :
  value <> EmptyString ->
  admits h sc name par w ->
  (conditions <> EmptyString ->
   (h _ (CompileEval conditions 0) (after_gate h sc name par w)).1 = None) ->
  (forall R (fail : error -> R),
     check_switch ext fail name value (StrToInt64 ext value) = pure (ok, checked)) ->
  let r := run h (UpdateSysParam ext sc name value conditions) w in
  if negb checked
     && (negb ok || negb (String.eqb (Int64ToStr ext (StrToInt64 ext value)) value))
  then outcome r = Returned (0, Some ErrInvalidValue, sc)
       /\ Forall (fun ev => is_write ev = false) (trace r)
  else In (sysparam_write ext sc par value conditions) (trace r).
Proof.
  intros Hne [Hget Heval] Hcompile Hsw r.
  assert (Hlen : (Go.len value >? 0) = true) by now apply len_pos.
  subst r. unfold after_gate in Hcompile. unfold sysparam_write.
  unfold UpdateSysParam. cbv zeta.
  rewrite Hlen, Hsw. run_simpl.
  destruct (h _ (SystemParameter_Get name) w) as [[found err] w1].
  run_simpl. injection Hget as -> ->. run_simpl. unfold when_.
  destruct (Go.len (par_Conditions par) >? 0) eqn:Hc; run_simpl.
  1:{ assert (Hcond : par_Conditions par <> EmptyString)
        by (intros E; rewrite E in Hc; discriminate).
      specialize (Heval Hcond).
      destruct (h _ (EvalIf sc (par_Conditions par)) w1) as [[ret err] w2].
      run_simpl. injection Heval as -> ->. run_simpl.
      destruct (negb checked && _); run_simpl;
        [split; [reflexivity | repeat constructor]|].
      destruct (Go.len conditions >? 0) eqn:Hcn; run_simpl; [|in_trace].
      assert (Hcne : conditions <> EmptyString)
        by (intros E; rewrite E in Hcn; discriminate).
      specialize (Hcompile Hcne).
      destruct (h _ (CompileEval conditions 0) w2) as [cerr w3].
      run_simpl. subst cerr. run_simpl. in_trace. }
  destruct (negb checked && _); run_simpl;
    [split; [reflexivity | repeat constructor]|].
  destruct (Go.len conditions >? 0) eqn:Hcn; run_simpl; [|in_trace].
  assert (Hcne : conditions <> EmptyString)
    by (intros E; rewrite E in Hcn; discriminate).
  specialize (Hcompile Hcne).
  destruct (h _ (CompileEval conditions 0) w1) as [cerr w3].
  run_simpl. subst cerr. run_simpl. in_trace.
Qed.

Lemma sysparam_write_is_write (ext : Externals) (sc : SmartContract)
    (par : SystemParameter) (value conditions : string) :
  is_write (sysparam_write ext sc par value conditions) = true.
Proof. reflexivity. Qed.

(** X15.  The integer parameters of [UpdateSysParam]: [gap_between_blocks],
    [rb_blocks_1], [number_of_nodes], the seven prices, the nine limits and
    every [extend_cost_] name.  Once the parameter is found and its
    conditions let the caller in, a non-empty value is written exactly when
    it is the decimal form [Int64ToStr] gives its own reading and the
    reading is in the range of the parameter; any other value ends the call
    with [ErrInvalidValue] before a write. *)
Theorem UpdateSysParam_int_domain {W : Type} (h : Host W) (ext : Externals)
    (sc : SmartContract) (w : W) (name value conditions : string)
    (par : SystemParameter) :
  int_param ext name ->
  value <> EmptyString ->
  admits h sc name par w ->
  (conditions <> EmptyString ->
   (h _ (CompileEval conditions 0) (after_gate h sc name par w)).1 = None) ->
  let r := run h (UpdateSysParam ext sc name value conditions) w in
  let accepted := Int64ToStr ext (StrToInt64 ext value) = value
                  /\ int_range ext name (StrToInt64 ext value) in
  (accepted <-> In (sysparam_write ext sc par value conditions) (trace r))
  /\ (~ accepted ->
      outcome r = Returned (0, Some ErrInvalidValue, sc)
      /\ Forall (fun ev => is_write ev = false) (trace r)).
Proof.
  intros Hint Hne Hadm Hcompile r accepted.
  destruct (check_switch_int ext (fun e => (0, Some e, sc)) name value
              (StrToInt64 ext value) Hint) as (ok & _ & Hok).
  assert (Hsw : forall R (fail : error -> R),
             check_switch ext fail name value (StrToInt64 ext value) = pure (ok, false)).
  { intros R fail.
    destruct (check_switch_int ext fail name value (StrToInt64 ext value) Hint)
      as (ok' & Hsw & Hok').
    rewrite Hsw. f_equal. f_equal. f_equal.
    destruct ok, ok'; try reflexivity.
    - discriminate (proj2 Hok' (proj1 Hok eq_refl)).
    - discriminate (proj2 Hok (proj1 Hok' eq_refl)). }
  pose proof (UpdateSysParam_checked h ext sc w name value conditions par
                ok false Hne Hadm Hcompile Hsw) as H.
  fold r in H. cbn [negb andb] in H.
  assert (Hacc : accepted <->
                 (negb ok || negb (String.eqb (Int64ToStr ext (StrToInt64 ext value)) value))
                 = false).
  { unfold accepted. rewrite orb_false_iff, !negb_false_iff, String.eqb_eq, Hok.
    tauto. }
  destruct (negb ok || _).
  - destruct H as [Ho Ht]. split; [|intros _; split; assumption].
    split; [intros Ha; apply Hacc in Ha; discriminate|].
    intros Hin. exfalso.
    exact (not_In_write _ _ (sysparam_write_is_write ext sc par value conditions)
             Ht Hin).
  - split; [split; [intros _; exact H | intros _; now apply Hacc]|].
    intros Hn. exfalso. apply Hn, Hacc. reflexivity.
Qed.

Lemma UpdateSysParam_int_domain_witness :
  In (sysparam_write Ref.ext Ref.sc0 (Ref.param 3 "extend_cost_sha256" "50" "true")
        "75" EmptyString)
     (trace (run Ref.host
               (UpdateSysParam Ref.ext Ref.sc0 "extend_cost_sha256" "75" EmptyString)
               Ref.w_open)).
Proof.
  refine (proj1 (proj1
    (UpdateSysParam_int_domain Ref.host Ref.ext Ref.sc0 Ref.w_open
       "extend_cost_sha256" "75" EmptyString
       (Ref.param 3 "extend_cost_sha256" "50" "true") _ _ _ _)) _).
  - right. split; [vm_compute; reflexivity | discriminate].
  - discriminate.
  - split; intros; vm_compute; reflexivity.
  - intros H. now contradiction H.
  - split; [vm_compute; reflexivity|].
    do 4 right. split; [vm_compute; reflexivity|].
    split; [discriminate | vm_compute; discriminate].
Defined.

(** X16.  The [FullNodes] parameter, for a name constant that is none of
    the names listed before it in the switch.  Once the parameter is found
    and its conditions let the caller in, a non-empty value is written
    exactly when it decodes to a node list that is not empty; a value that
    does not decode ends the call with [ErrInvalidValue], not with the
    error of the decoder, and before a write. *)
Theorem UpdateSysParam_full_nodes {W : Type} (h : Host W) (ext : Externals)
    (sc : SmartContract) (w : W) (value conditions : string)
    (par : SystemParameter) :
  ~ In (FullNodes ext) switch_names ->
  value <> EmptyString ->
  admits h sc (FullNodes ext) par w ->
  (conditions <> EmptyString ->
   (h _ (CompileEval conditions 0) (after_gate h sc (FullNodes ext) par w)).1 = None) ->
  let r := run h (UpdateSysParam ext sc (FullNodes ext) value conditions) w in
  let accepted := exists n, Unmarshal_FullNodes ext value = inr n /\ 0 < n in
  (accepted <-> In (sysparam_write ext sc par value conditions) (trace r))
  /\ (~ accepted ->
      outcome r = Returned (0, Some ErrInvalidValue, sc)
      /\ Forall (fun ev => is_write ev = false) (trace r)).
Proof.
  intros Hlate Hne Hadm Hcompile r accepted.
  set (checked := match Unmarshal_FullNodes ext value with
                  | inl _ => false
                  | inr n => n >? 0
                  end).
  assert (Hsw : forall R (fail : error -> R),
             check_switch ext fail (FullNodes ext) value (StrToInt64 ext value)
             = pure (false, checked)).
  { intros R fail. rewrite check_switch_late by exact Hlate.
    rewrite String.eqb_refl. unfold checked.
    destruct (Unmarshal_FullNodes ext value); reflexivity. }
  pose proof (UpdateSysParam_checked h ext sc w (FullNodes ext) value conditions
                par false checked Hne Hadm Hcompile Hsw) as H.
  fold r in H. cbn [negb orb] in H. rewrite andb_true_r in H.
  assert (Hacc : accepted <-> checked = true).
  { unfold accepted, checked.
    destruct (Unmarshal_FullNodes ext value) as [e|n].
    - split; [intros (n & [=] & _) | discriminate].
    - rewrite Z.gtb_ltb, Z.ltb_lt. split; [intros (n' & [= <-] & Hn); exact Hn|].
      intros Hn. exists n. auto. }
  destruct checked; cbn [negb] in H.
  - split; [split; [intros _; exact H | intros _; now apply Hacc]|].
    intros Hn. exfalso. apply Hn, Hacc. reflexivity.
  - destruct H as [Ho Ht]. split; [|intros _; split; assumption].
    split; [intros Ha; apply Hacc in Ha; discriminate|].
    intros Hin. exfalso.
    exact (not_In_write _ _ (sysparam_write_is_write ext sc par value conditions)
             Ht Hin).
Qed.

Lemma UpdateSysParam_full_nodes_witness :
  outcome (run Sample.host
             (UpdateSysParam Sample.ext Ref.sc0 "full_nodes" "[]" EmptyString)
             Sample.w_signed)
  = Returned (0, Some ErrInvalidValue, Ref.sc0).
Proof.
  refine (proj1 (proj2
    (UpdateSysParam_full_nodes Sample.host Sample.ext Ref.sc0 Sample.w_signed
       "[]" EmptyString (Ref.param 4 "full_nodes" "[]" EmptyString) _ _ _ _) _)).
  - vm_compute. intuition discriminate.
  - discriminate.
  - split; [vm_compute; reflexivity | intros H; now contradiction H].
  - intros H. now contradiction H.
  - intros (n & Hn & Hpos). vm_compute in Hn. injection Hn as <-. lia.
Defined.

(** X17.  Every other parameter: a name that the switch does not list, that
    is not [FullNodes] and does not start with [extend_cost_].  Once the
    parameter is found and its conditions let the caller in, every
    non-empty value is written as it is. *)
Theorem UpdateSysParam_unchecked {W : Type} (h : Host W) (ext : Externals)
    (sc : SmartContract) (w : W) (name value conditions : string)
    (par : SystemParameter) :
  ~ In name switch_names ->
  name <> FullNodes ext ->
  Go.HasPrefix name "extend_cost_" = false ->
  value <> EmptyString ->
  admits h sc name par w ->
  (conditions <> EmptyString ->
   (h _ (CompileEval conditions 0) (after_gate h sc name par w)).1 = None) ->
  In (sysparam_write ext sc par value conditions)
     (trace (run h (UpdateSysParam ext sc name value conditions) w)).
Proof.
  intros Hlate Hfn Hp Hne Hadm Hcompile.
  apply String.eqb_neq in Hfn.
  assert (Hsw : forall R (fail : error -> R),
             check_switch ext fail name value (StrToInt64 ext value)
             = pure (false, true)).
  { intros R fail. rewrite check_switch_late by exact Hlate.
    now rewrite Hfn, Hp. }
  exact (UpdateSysParam_checked h ext sc w name value conditions par
           false true Hne Hadm Hcompile Hsw).
Qed.

Lemma UpdateSysParam_unchecked_witness :
  In (sysparam_write Ref.ext Ref.sc0
        (Ref.param 5 "blockchain_url" EmptyString "true") "not a url" "false")
     (trace (run Ref.host
               (UpdateSysParam Ref.ext Ref.sc0 "blockchain_url" "not a url" "false")
               Sample.w_signed)).
Proof.
  apply (UpdateSysParam_unchecked Ref.host Ref.ext Ref.sc0 Sample.w_signed
           "blockchain_url" "not a url" "false"
           (Ref.param 5 "blockchain_url" EmptyString "true")).
  - vm_compute. intuition discriminate.
  - discriminate.
  - vm_compute. reflexivity.
  - discriminate.
  - split; intros; vm_compute; reflexivity.
  - intros _. vm_compute. reflexivity.
Defined.

(** ** UpdateSysParam, the gate and the empty update *)

(** X18.  A parameter the node does not have: [UpdateSysParam] ends with
    the error that names it, whatever the value and the conditions given,
    after the lookup and one log record; the context is as it was. *)
Theorem UpdateSysParam_unknown {W : Type} (h : Host W) (ext : Externals)
    (sc : SmartContract) (w : W) (name value conditions : string) :
  (h _ (SystemParameter_Get name) w).1 = (None, None) ->
  run h (UpdateSysParam ext sc name value conditions) w =
    {| outcome := Returned
         (0, Some (Errorf ("Parameter " +:+ name +:+ " has not been found")), sc);
       world := (h _ (SystemParameter_Get name) w).2;
       trace := [EvCall (SystemParameter_Get name);
                 EvLog {| log_type := NotFound; log_msg := "system parameter get" |}] |}.
Proof.
  intros Hget. unfold UpdateSysParam. run_simpl.
  destruct (h _ (SystemParameter_Get name) w) as [[found err] w1].
  run_simpl. injection Hget as -> ->. reflexivity.
Qed.

Lemma UpdateSysParam_unknown_witness :
  outcome (run Ref.host
             (UpdateSysParam Ref.ext Ref.sc0 "max_block_size" "100" EmptyString)
             Ref.w_open)
  = Returned (0, Some (Errorf "Parameter max_block_size has not been found"), Ref.sc0).
Proof.
  rewrite (UpdateSysParam_unknown Ref.host Ref.ext Ref.sc0 Ref.w_open
             "max_block_size" "100" EmptyString); [reflexivity|].
  vm_compute. reflexivity.
Defined.

(** X19.  A parameter whose conditions evaluate to false:
    [UpdateSysParam] ends with [errAccessDenied], whatever the value and
    the conditions given, after the lookup, the evaluation under the
    caller's context and one log record; the value is not looked at. *)
Theorem UpdateSysParam_denied {W : Type} (h : Host W) (ext : Externals)
    (sc : SmartContract) (w : W) (name value conditions : string)
    (par : SystemParameter) :
  (h _ (SystemParameter_Get name) w).1 = (Some par, None) ->
  par_Conditions par <> EmptyString ->
  let eval := EvalIf sc (par_Conditions par) in
  (h _ eval (h _ (SystemParameter_Get name) w).2).1 = (false, None) ->
  run h (UpdateSysParam ext sc name value conditions) w =
    {| outcome := Returned (0, Some errAccessDenied, sc);
       world := (h _ eval (h _ (SystemParameter_Get name) w).2).2;
       trace := [EvCall (SystemParameter_Get name); EvCall eval;
                 EvLog {| log_type := AccessDenied; log_msg := "Access denied" |}] |}.
Proof.
  intros Hget Hcond eval Heval. subst eval. unfold UpdateSysParam. run_simpl.
  destruct (h _ (SystemParameter_Get name) w) as [[found err] w1].
  run_simpl. injection Hget as -> ->. run_simpl.
  rewrite (len_pos _ Hcond). run_simpl.
  destruct (h _ (EvalIf sc (par_Conditions par)) w1) as [[ret err] w2].
  run_simpl. injection Heval as -> ->. reflexivity.
Qed.

Lemma UpdateSysParam_denied_witness :
  outcome (run Ref.host
             (UpdateSysParam Ref.ext Ref.sc0 "gap_between_blocks" "5" EmptyString)
             Ref.w_closed)
  = Returned (0, Some errAccessDenied, Ref.sc0).
Proof.
  rewrite (UpdateSysParam_denied Ref.host Ref.ext Ref.sc0 Ref.w_closed
             "gap_between_blocks" "5" EmptyString
             (Ref.param 1 "gap_between_blocks" "2" "false")); [reflexivity|..].
  - vm_compute. reflexivity.
  - discriminate.
  - vm_compute. reflexivity.
Defined.

(** X20.  Nothing to write: with an empty value and empty conditions
    [UpdateSysParam] still looks the parameter up and evaluates its
    conditions, and when they let the caller in it ends with the error
    [empty value and condition] without a write. *)
Theorem UpdateSysParam_nothing_to_write {W : Type} (h : Host W)
    (ext : Externals) (sc : SmartContract) (w : W) (name : string)
    (par : SystemParameter) :
  admits h sc name par w ->
  run h (UpdateSysParam ext sc name EmptyString EmptyString) w =
    {| outcome := Returned (0, Some (Errorf "empty value and condition"), sc);
       world := after_gate h sc name par w;
       trace := gate_trace sc name par
                ++ [EvLog {| log_type := EmptyObject;
                             log_msg := "empty value and condition" |}] |}.
Proof.
  intros [Hget Heval]. unfold UpdateSysParam, after_gate, gate_trace. run_simpl.
  destruct (h _ (SystemParameter_Get name) w) as [[found err] w1].
  run_simpl. injection Hget as -> ->. run_simpl. unfold when_.
  destruct (Go.len (par_Conditions par) >? 0) eqn:Hc; run_simpl; [|reflexivity].
  assert (Hcond : par_Conditions par <> EmptyString)
    by (intros E; rewrite E in Hc; discriminate).
  specialize (Heval Hcond).
  destruct (h _ (EvalIf sc (par_Conditions par)) w1) as [[ret err] w2].
  run_simpl. injection Heval as -> ->. reflexivity.
Qed.

Lemma UpdateSysParam_nothing_to_write_witness :
  run Ref.host
    (UpdateSysParam Ref.ext Ref.sc0 "fuel_rate" EmptyString EmptyString) Ref.w_open =
    {| outcome := Returned (0, Some (Errorf "empty value and condition"), Ref.sc0);
       world := Ref.w_open;
       trace := [EvCall (SystemParameter_Get "fuel_rate");
                 EvCall (EvalIf Ref.sc0 "true");
                 EvLog {| log_type := EmptyObject;
                          log_msg := "empty value and condition" |}] |}.
Proof.
  rewrite (UpdateSysParam_nothing_to_write Ref.host Ref.ext Ref.sc0 Ref.w_open
             "fuel_rate" (Ref.param 2 "fuel_rate" EmptyString "true")).
  - reflexivity.
  - split; intros; vm_compute; reflexivity.
Defined.

(** ** DBUpdateExt, access *)

(** X21.  When the node refuses the table, or lets the table through (no
    report table) and refuses a column, [DBUpdateExt] returns that error
    with a cost of 0 and issues no write. *)
Theorem DBUpdateExt_access_denied {W : Type} (h : Host W) (ext : Externals)
    (sc : SmartContract) (w : W) (tblname column : string) (value : Value)
    (params : string) (val : list Value) (e : error) :
  let table := getDefTableName ext sc tblname in
  let a1 := h _ (AccessTable sc table "update") w in
  let a2 := h _ (AccessColumns sc table (Go.Split params ",") true) a1.2 in
  a1.1 = Some e
  \/ (a1.1 = None /\ Go.Contains table "_reports_" = false /\ a2.1.2 = Some e) ->
  let r := run h (DBUpdateExt ext sc tblname column value params val) w in
  outcome r = Returned (0, Some e)
  /\ Forall (fun ev => is_write ev = false) (trace r).
Proof.
  intros table a1 a2 H r. subst r a2 a1 table. unfold DBUpdateExt. run_simpl.
  destruct (h _ (AccessTable sc (getDefTableName ext sc tblname) "update") w)
    as [terr w1].
  run_simpl. destruct H as [-> | (-> & Hrep & Hcol)]; run_simpl.
  - split; [reflexivity | repeat constructor].
  - rewrite Hrep. run_simpl.
    destruct (h _ (AccessColumns sc (getDefTableName ext sc tblname)
                     (Go.Split params ",") true) w1) as [[columns cerr] w2].
    run_simpl. subst cerr. run_simpl.
    split; [reflexivity | repeat constructor].
Qed.

Lemma DBUpdateExt_access_denied_witness :
  outcome (run Sample.host
             (DBUpdateExt Ref.ext Ref.sc0 "keys" "id" (VInt 7) "id,amount"
                [VInt 8; VInt 100]) Ref.w_open)
  = Returned (0, Some errAccessDenied).
Proof.
  refine (proj1
    (DBUpdateExt_access_denied Sample.host Ref.ext Ref.sc0 Ref.w_open
       "keys" "id" (VInt 7) "id,amount" [VInt 8; VInt 100] errAccessDenied _)).
  right. split; [vm_compute; reflexivity|].
  split; vm_compute; reflexivity.
Defined.

(** ** Languages *)

(** X22.  [CreateLanguage] and [EditLanguage] refresh the language cache
    exactly on the runs that return without an error: [UpdateLang] is
    called, with the ecosystem of the caller, when the caller is one of the
    allowed contracts and the write to the languages table succeeded, and
    on no other run. *)
Theorem languages_cache_with_write {W : Type} (h : Host W) (ext : Externals)
    (sc : SmartContract) (w : W) (id appID : Z) (name trans : string) :
  let refresh :=
    EvCall (UpdateLang (TxSmart_EcosystemID sc) appID name trans (VDE sc)) in
  let created := run h (CreateLanguage ext sc name trans appID) w in
  let edited := run h (EditLanguage ext sc id name trans appID) w in
  (In refresh (trace created) <-> exists n, outcome created = Returned (n, None))
  /\ (In refresh (trace edited) <-> outcome edited = Returned None).
Proof.
  intros refresh created edited. subst refresh created edited.
  unfold CreateLanguage, EditLanguage, when_. split.
  - destruct (accessContracts ext sc ["NewLang"; "NewLangJoint"; "Import"]%string);
      run_simpl.
    2:{ split; [intros [H|[]]; discriminate H | intros [n H]; discriminate H]. }
    destruct (h _ (DBInsert sc _ "name,res,app_id" _) w) as [[[c n] err] w1].
    run_simpl. destruct err; run_simpl.
    + split; [intros [H|[H|[]]]; discriminate H | intros [n' H]; discriminate H].
    + split; [intros _; eexists; reflexivity | intros _; in_trace].
  - destruct (accessContracts ext sc ["EditLang"; "EditLangJoint"; "Import"]%string);
      run_simpl.
    2:{ split; [intros [H|[]]; discriminate H | intros H; discriminate H]. }
    destruct (h _ (DBUpdate sc _ id "name,res,app_id" _) w) as [[c err] w1].
    run_simpl. destruct err; run_simpl.
    + split; [intros [H|[H|[]]]; discriminate H | intros H; discriminate H].
    + split; [intros _; reflexivity | intros _; in_trace].
Qed.

(** ** CreateEcosystem, the tables *)

(** X23.  A run of [CreateEcosystem] that returns without an error returns
    the id the node generated for [1_ecosystems] and has made four
    inserts, in this order: the default page, the default menu and the
    founder's key of the new ecosystem inside the full-access window, and
    the row of [@1_ecosystems] with the window closed. *)
Theorem CreateEcosystem_inserts {W : Type} (h : Host W) (ext : Externals)
    (sc : SmartContract) (w : W) (wallet : Z) (name : string) (id : Z)
    (sc' : SmartContract) :
  let r := run h (CreateEcosystem ext sc wallet name) w in
  outcome r = Returned (id, None, sc') ->
  let pre := "@" +:+ Int64ToStr ext id in
  DBInsert_contexts (trace r) =
    [(ecosystem_window sc, pre +:+ "_pages"); (ecosystem_window sc, pre +:+ "_menu");
     (ecosystem_window sc, pre +:+ "_keys"); (ecosystem_closed sc, "@1_ecosystems"%string)]
  /\ id = (h _ (GetNextID "1_ecosystems")
             (h _ (StateParameter_Get "1" "founder_account") w).2).1.1.
Proof.
  intros r H pre. subst r pre.
  unfold CreateEcosystem, SysParamString, first_pub, when_,
    ecosystem_window, ecosystem_closed in *.
  walk; first [split; reflexivity | congruence | discriminate].
Qed.

Lemma CreateEcosystem_inserts_witness :
  DBInsert_contexts
    (trace (run Ref.host (CreateEcosystem Ref.ext Ref.sc_new 7 "shop") Ref.w_open))
  = [(ecosystem_window Ref.sc_new, "@2_pages"%string);
     (ecosystem_window Ref.sc_new, "@2_menu"%string);
     (ecosystem_window Ref.sc_new, "@2_keys"%string);
     (ecosystem_closed Ref.sc_new, "@1_ecosystems"%string)].
Proof.
  refine (proj1
    (CreateEcosystem_inserts Ref.host Ref.ext Ref.sc_new Ref.w_open 7 "shop" 2
       (ecosystem_closed Ref.sc_new) _)).
  vm_compute. reflexivity.
Defined.

(** ** Co-signatures, signed contracts *)

Lemma DecodeString_rejected (s : string) :
  valid_hex s = false \/ s = EmptyString ->
  match Go.DecodeString s with
  | inr (_ :: _) => False
  | _ => True
  end.
Proof.
  intros [H | ->]; [|exact I].
  destruct (DecodeString_invalid s H) as [e ->]. exact I.
Qed.

(** X24.  For a contract that has a signature specification,
    [CheckSignature] refuses a [Signature] that is not valid hexadecimal
    or is empty with the error [wrong signature], before the
    specification is decoded and without a call to [CheckSign]. *)
Theorem CheckSignature_wrong_signature {W : Type} (h : Host W)
    (ext : Externals) (w : W) (i : gmap string Value) (name : string)
    (sc : SmartContract) (state : Z) (cname value signature : string) :
  i !! "sc"%string = Some (VContext sc) ->
  ParseContract ext name = (state, cname) ->
  let query := Single_String (signaturesQuery (Int64ToStr ext state)) [VStr cname] in
  (h _ query w).1 = (value, None) ->
  value <> EmptyString ->
  i !! "Signature"%string = Some (VStr signature) ->
  valid_hex signature = false \/ signature = EmptyString ->
  run h (CheckSignature ext i name) w =
    {| outcome := Returned (Some (Errorf "wrong signature"));
       world := (h _ query w).2;
       trace := [EvCall query;
                 EvLog {| log_type := ConversionError;
                          log_msg := "comverting signature to hex" |}] |}.
Proof.
  intros Hsc Hparse query Hanswer Hvalue Hsig Hbad. unfold CheckSignature.
  rewrite Hparse, Hsc, Hsig. cbn. fold query.
  destruct (h _ query w) as [[v err] w1]. run_simpl.
  injection Hanswer as -> ->. run_simpl. unfold when_.
  assert (Hlen : (Go.len value =? 0) = false).
  { apply Z.eqb_neq. pose proof (len_pos value Hvalue) as Hp.
    rewrite Z.gtb_ltb in Hp. apply Z.ltb_lt in Hp. lia. }
  rewrite Hlen. run_simpl.
  pose proof (DecodeString_rejected signature Hbad) as Hd.
  destruct (Go.DecodeString signature) as [e|[|b bs]];
    [reflexivity | reflexivity | contradiction].
Qed.

Lemma CheckSignature_wrong_signature_witness :
  outcome (run Ref.host
             (CheckSignature Sample.ext (Sample.transfer (VStr "0x12ab"))
                "TransferMoney") Sample.w_signed)
  = Returned (Some (Errorf "wrong signature")).
Proof.
  rewrite (CheckSignature_wrong_signature Ref.host Sample.ext Sample.w_signed
             (Sample.transfer (VStr "0x12ab")) "TransferMoney" Ref.sc0 1
             "TransferMoney" Sample.sign_spec_text "0x12ab"); [reflexivity|..].
  - vm_compute. reflexivity.
  - reflexivity.
  - vm_compute. reflexivity.
  - discriminate.
  - vm_compute. reflexivity.
  - left. vm_compute. reflexivity.
Defined.

(** X25.  For a contract that has a signature specification,
    [CheckSignature] panics when the map has no [Signature] entry or one
    that is not a string: the type assertion is made before any check of
    the value, right after the query.  The run-time error names the dynamic
    type of the entry: [interface {} is nil, not string] for an entry that
    is missing or nil, [interface {} is int64, not string] for a number. *)
Theorem CheckSignature_missing_signature {W : Type} (h : Host W)
    (ext : Externals) (w : W) (i : gmap string Value) (name : string)
    (sc : SmartContract) (state : Z) (cname value : string) :
  i !! "sc"%string = Some (VContext sc) ->
  ParseContract ext name = (state, cname) ->
  let query := Single_String (signaturesQuery (Int64ToStr ext state)) [VStr cname] in
  (h _ query w).1 = (value, None) ->
  value <> EmptyString ->
  (forall s, i !! "Signature"%string <> Some (VStr s)) ->
  run h (CheckSignature ext i name) w =
    {| outcome := Panicked (conversion_panic (i !! "Signature"%string) "string");
       world := (h _ query w).2;
       trace := [EvCall query] |}.
Proof.
  intros Hsc Hparse query Hanswer Hvalue Hsig. unfold CheckSignature.
  rewrite Hparse, Hsc. cbn. fold query.
  destruct (h _ query w) as [[v err] w1]. run_simpl.
  injection Hanswer as -> ->. run_simpl. unfold when_.
  assert (Hlen : (Go.len value =? 0) = false).
  { apply Z.eqb_neq. pose proof (len_pos value Hvalue) as Hp.
    rewrite Z.gtb_ltb in Hp. apply Z.ltb_lt in Hp. lia. }
  rewrite Hlen. run_simpl.
  destruct (i !! "Signature"%string) as [[| | |s| | |]|] eqn:E; try reflexivity.
  now contradiction (Hsig s).
Qed.

Lemma CheckSignature_missing_signature_witness :
  outcome (run Ref.host
             (CheckSignature Sample.ext (Sample.transfer VNil) "TransferMoney")
             Sample.w_signed)
  = Panicked "interface conversion: interface {} is nil, not string"
  /\ outcome (run Ref.host
                (CheckSignature Sample.ext (Sample.transfer (VInt 18)) "TransferMoney")
                Sample.w_signed)
     = Panicked "interface conversion: interface {} is int64, not string".
Proof.
  split.
  - rewrite (CheckSignature_missing_signature Ref.host Sample.ext Sample.w_signed
               (Sample.transfer VNil) "TransferMoney" Ref.sc0 1
               "TransferMoney" Sample.sign_spec_text); [reflexivity|..].
    + vm_compute. reflexivity.
    + reflexivity.
    + vm_compute. reflexivity.
    + discriminate.
    + intros s. vm_compute. discriminate.
  - rewrite (CheckSignature_missing_signature Ref.host Sample.ext Sample.w_signed
               (Sample.transfer (VInt 18)) "TransferMoney" Ref.sc0 1
               "TransferMoney" Sample.sign_spec_text); [reflexivity|..].
    + vm_compute. reflexivity.
    + reflexivity.
    + vm_compute. reflexivity.
    + discriminate.
    + intros s. vm_compute. discriminate.
Defined.

(** [fmt.Sprintf] without operands copies a format that has no percent
    sign. *)
Lemma Sprintf0_go_plain (s : string) :
  free_of "%" s = true -> Go.Sprintf0_go 0 s = s.
Proof.
  induction s as [|c s IH]; intros H; [reflexivity|].
  cbn [free_of] in H. apply andb_prop in H as [Hc Hs].
  apply negb_true_iff in Hc. cbn [Go.Sprintf0_go]. now rewrite Hc, IH.
Qed.

Lemma free_of_append (c : ascii) (a b : string) :
  free_of c (a +:+ b) = free_of c a && free_of c b.
Proof.
  induction a as [|x a IH]; [reflexivity|].
  rewrite append_cons. cbn [free_of]. now rewrite IH, andb_assoc.
Qed.

(** X26.  The verdict of [CheckSignature] on a well-formed request.  The
    text handed to [CheckSign] is the time and the wallet read as unsigned
    64-bit numbers, followed by the declared parameters in the order of the
    specification; the keys are those of the context and the signature is
    the decoded [Signature].  The result is the error of [CheckSign], or nil
    when the check says yes, or the error [fmt.Errorf] makes of
    [incorrect signature] followed by that text, which it reads as a
    format: it is the text itself when the text has no percent sign, and
    otherwise what [fmt] prints for directives that have no operand.
    [CheckSign] is the only call after the query, and only a refusal is
    logged. *)
Theorem CheckSignature_verdict {W : Type} (h : Host W)
    (ext : Externals) (w : W) (i : gmap string Value) (name : string)
    (sc : SmartContract) (state : Z) (cname value signature : string)
    (b : Z) (bs : list Z) (sign : TxSignJSON) (wallet time : Z) :
  i !! "sc"%string = Some (VContext sc) ->
  ParseContract ext name = (state, cname) ->
  let query := Single_String (signaturesQuery (Int64ToStr ext state)) [VStr cname] in
  (h _ query w).1 = (value, None) ->
  value <> EmptyString ->
  i !! "Signature"%string = Some (VStr signature) ->
  Go.DecodeString signature = inr (b :: bs) ->
  Unmarshal_TxSignJSON ext value = inr sign ->
  i !! "key_id"%string = Some (VInt wallet) ->
  i !! "time"%string = Some (VInt time) ->
  let forsign :=
    forsign_params ext i
      (Go.Sprintf "%d,%d" [Go.AInt (uint64 time); Go.AInt (uint64 wallet)])
      (sign_Params sign) in
  let check := CheckSign (PublicKeys sc) forsign (b :: bs) true in
  let answer := h _ check (h _ query w).2 in
  let refusal := Go.Sprintf0 ("incorrect signature " +:+ forsign) in
  let r := run h (CheckSignature ext i name) w in
  outcome r =
    Returned (match answer.1 with
              | (_, Some e) => Some e
              | (true, None) => None
              | (false, None) => Some (Errorf refusal)
              end)
  /\ world r = answer.2
  /\ trace r =
     EvCall query :: EvCall check ::
     match answer.1 with
     | (false, None) =>
         [EvLog {| log_type := InvalidObject; log_msg := "incorrect signature" |}]
     | _ => []
     end
  /\ (free_of "%" forsign = true -> refusal = "incorrect signature " +:+ forsign).
Proof.
  intros Hsc Hparse query Hanswer Hvalue Hsig Hdec Hspec Hkey Htime
    forsign check answer refusal r.
  assert (Hplain : free_of "%" forsign = true ->
                   refusal = "incorrect signature " +:+ forsign).
  { intros Hfree. subst refusal. unfold Go.Sprintf0.
    apply Sprintf0_go_plain. rewrite free_of_append, Hfree. reflexivity. }
  cut (outcome r =
         Returned (match answer.1 with
                   | (_, Some e) => Some e
                   | (true, None) => None
                   | (false, None) => Some (Errorf refusal)
                   end)
       /\ world r = answer.2
       /\ trace r =
          EvCall query :: EvCall check ::
          match answer.1 with
          | (false, None) =>
              [EvLog {| log_type := InvalidObject; log_msg := "incorrect signature" |}]
          | _ => []
          end).
  { intros (H1 & H2 & H3). split; [exact H1|]. split; [exact H2|].
    split; [exact H3 | exact Hplain]. }
  clear Hplain. subst r answer check refusal forsign. unfold CheckSignature.
  rewrite Hparse, Hsc, Hsig, Hkey, Htime. cbn. fold query.
  destruct (h _ query w) as [[v err] w1]. run_simpl.
  injection Hanswer as -> ->. run_simpl. unfold when_.
  assert (Hlen : (Go.len value =? 0) = false).
  { apply Z.eqb_neq. pose proof (len_pos value Hvalue) as Hp.
    rewrite Z.gtb_ltb in Hp. apply Z.ltb_lt in Hp. lia. }
  rewrite Hlen. run_simpl. rewrite Hdec. run_simpl. rewrite Hspec. run_simpl.
  match goal with
  | |- context [h _ ?c w1] => destruct (h _ c w1) as [[verdict cerr] w2]
  end.
  run_simpl. destruct cerr as [e|]; destruct verdict; run_simpl;
    (split; [reflexivity | split; reflexivity]).
Qed.

Lemma CheckSignature_verdict_witness :
  outcome (run Sample.host
             (CheckSignature Sample.ext (Sample.transfer (VStr "12ab"))
                "TransferMoney") Sample.w_signed)
  = Returned (Some (Errorf
      "incorrect signature 1530000000,16702480062448614160,1000"))
  /\ outcome (run Sample.host
                (CheckSignature Sample.ext
                   (Sample.transfer_of "100%" (VStr "12ab")) "TransferMoney")
                Sample.w_signed)
     = Returned (Some (Errorf
         "incorrect signature 1530000000,16702480062448614160,100%!(NOVERB)")).
Proof.
  split.
  - refine (proj1
      (CheckSignature_verdict Sample.host Sample.ext Sample.w_signed
         (Sample.transfer (VStr "12ab")) "TransferMoney" Ref.sc0 1
         "TransferMoney" Sample.sign_spec_text "12ab" 18 [171] Sample.sign_spec
         (-1744264011260937456) 1530000000 _ _ _ _ _ _ _ _ _));
      first [discriminate | vm_compute; reflexivity].
  - refine (proj1
      (CheckSignature_verdict Sample.host Sample.ext Sample.w_signed
         (Sample.transfer_of "100%" (VStr "12ab")) "TransferMoney" Ref.sc0 1
         "TransferMoney" Sample.sign_spec_text "12ab" 18 [171] Sample.sign_spec
         (-1744264011260937456) 1530000000 _ _ _ _ _ _ _ _ _));
      first [discriminate | vm_compute; reflexivity].
Defined.

(** ** RawToString *)

Lemma trimRightByte_free (c : ascii) (s : string) :
  free_of c s = true ->
  Strings.trimRightByte (s +:+ String c EmptyString) c = s.
Proof.
  induction s as [|a s IH]; intros H.
  - rewrite append_empty_l. cbn [Strings.trimRightByte]. now rewrite Ascii.eqb_refl.
  - cbn [free_of] in H. apply andb_prop in H as [Ha Hs].
    apply negb_true_iff in Ha.
    rewrite append_cons. cbn [Strings.trimRightByte]. rewrite (IH Hs).
    destruct s; [now rewrite Ha | reflexivity].
Qed.

Lemma trimLeftByte_free (c : ascii) (s : string) :
  free_of c s = true -> Strings.trimLeftByte s c = s.
Proof.
  destruct s as [|a s]; [reflexivity|]. cbn. intros H.
  apply andb_prop in H as [Ha _]. apply negb_true_iff in Ha. now rewrite Ha.
Qed.

Lemma TrimByte_quoted (c : ascii) (s : string) :
  free_of c s = true ->
  Strings.TrimByte (String c (s +:+ String c EmptyString)) c = s.
Proof.
  intros H. unfold Strings.TrimByte. cbn [Strings.trimRightByte].
  rewrite (trimRightByte_free c s H).
  destruct s as [|a s].
  - rewrite Ascii.eqb_refl. reflexivity.
  - cbn [Strings.trimLeftByte]. rewrite Ascii.eqb_refl.
    exact (trimLeftByte_free c (String a s) H).
Qed.

Lemma free_of_Contains (c a : ascii) (s : string) :
  free_of c s = true -> Go.Contains s (String a (String c EmptyString)) = false.
Proof.
  induction s as [|x s IH]; intros H; [reflexivity|].
  cbn [free_of] in H. apply andb_prop in H as [Hx Hs].
  change (String.prefix (String a (String c EmptyString)) (String x s)
          || Go.Contains s (String a (String c EmptyString)) = false).
  rewrite (IH Hs), orb_false_r.
  cbn [String.prefix]. destruct (ascii_dec a x); [|reflexivity].
  destruct s as [|y s]; [reflexivity|].
  cbn [free_of] in Hs. apply andb_prop in Hs as [Hy _].
  apply negb_true_iff, Ascii.eqb_neq in Hy.
  cbn [String.prefix]. destruct (ascii_dec c y); [congruence | reflexivity].
Qed.

(** X27.  [RawToString] gives back the text of a JSON string that has no
    double quote inside: the quotes around it are removed and nothing else
    changes. *)
Theorem RawToString_quoted (u : Strings.Utf8) (s : string) :
  free_of (ascii_of_nat 34) s = true ->
  RawToString u (dq +:+ s +:+ dq) = s.
Proof.
  intros H. unfold RawToString, dq. cbv zeta.
  rewrite append_cons, append_empty_l, (TrimByte_quoted _ s H).
  unfold Strings.Replace. cbn [String.eqb].
  replace (Ascii.eqb (ascii_of_nat 92) (ascii_of_nat 34)) with false by reflexivity.
  apply replace_go_absent. now apply free_of_Contains.
Qed.

Lemma RawToString_quoted_witness :
  RawToString Sample.ascii_text (dq +:+ "founder_account" +:+ dq)
  = "founder_account"%string.
Proof.
  apply RawToString_quoted. reflexivity.
Defined.

(** ** The remaining gates and RollbackContract *)

(** X28.  [EditLanguage], [EditEcosysName] and [RollbackContract] refuse a
    caller that is not one of their contracts at the first statement: the
    error is returned after one log record, no call is made and the node
    is as it was. *)
Theorem gates_refuse_before_any_call {W : Type} (h : Host W) (ext : Externals)
    (sc : SmartContract) (w : W) :
  (accessContracts ext sc ["EditLang"; "EditLangJoint"; "Import"]%string = false ->
   forall id name trans appID,
     refused (run h (EditLanguage ext sc id name trans appID) w)
       (Some (Errorf
          "EditLanguage can be only called from @1EditLang, @1EditLangJoint and @1Import"))
       w IncorrectCallingContract
       "EditLanguage can be only called from @1EditLang, @1EditLangJoint and @1Import")
  /\ (TxContract_Name sc <> "@1EditEcosystemName"%string ->
      forall sysID newName,
        refused (run h (EditEcosysName sc sysID newName) w)
          (Some (Errorf "EditEcosystemName can be only called from @1EditEcosystemName"))
          w IncorrectCallingContract
          "EditEcosystemName can be only called from @1EditEcosystemName")
  /\ (accessContracts ext sc ["NewContract"; "Import"]%string = false ->
      forall name,
        refused (run h (RollbackContract ext sc name) w)
          (Some errAccessRollbackContract) w IncorrectCallingContract
          "Check contract access").
Proof. exact (other_gates_refuse h ext sc w). Qed.

Lemma gates_refuse_before_any_call_witness :
  refused (run Ref.host (EditLanguage Ref.ext Ref.sc0 3 "greeting" "{}" 1) Ref.w_open)
    (Some (Errorf
       "EditLanguage can be only called from @1EditLang, @1EditLangJoint and @1Import"))
    Ref.w_open IncorrectCallingContract
    "EditLanguage can be only called from @1EditLang, @1EditLangJoint and @1Import"
  /\ refused (run Ref.host (EditEcosysName Ref.sc0 2 "shop") Ref.w_open)
       (Some (Errorf "EditEcosystemName can be only called from @1EditEcosystemName"))
       Ref.w_open IncorrectCallingContract
       "EditEcosystemName can be only called from @1EditEcosystemName"
  /\ refused (run Ref.host (RollbackContract Ref.ext Ref.sc0 "Shop") Ref.w_open)
       (Some errAccessRollbackContract) Ref.w_open IncorrectCallingContract
       "Check contract access".
Proof.
  destruct (gates_refuse_before_any_call Ref.host Ref.ext Ref.sc0 Ref.w_open)
    as (Hlang & Hname & Hroll).
  split; [apply Hlang; vm_compute; reflexivity|].
  split; [apply Hname; vm_compute; discriminate|].
  apply Hroll. vm_compute. reflexivity.
Defined.

(** X29.  Whatever the node answers, [RollbackContract] asks it only for
    the contract [name] in the caller's ecosystem, read as a [uint32], and
    for the pruning of the VM: it reads and writes nothing of the database
    and asks for no journal record.  What it returns is nil or the error of
    its gate: a contract that is not there is no error. *)
Theorem RollbackContract_vm_only {W : Type} (h : Host W) (ext : Externals)
    (sc : SmartContract) (w : W) (name : string) :
  obeyed True (vm_policy sc name)
    (fun r => r = None \/ r = Some errAccessRollbackContract)
    (run h (RollbackContract ext sc name) w).
Proof.
  apply Obeys_body. unfold RollbackContract.
  ob_seq; [unfold when_; destruct (negb _); cbn; auto|].
  eapply Obeys_fn_bind with (P := fun _ => True).
  { cbn. split; [split; reflexivity | intros; exact I]. }
  intros c _.
  ob_seq.
  { destruct c as [[id cname]|]; [|exact I].
    eapply Obeys_fn_bind with (P := fun _ => True); [ob_leaf|].
    intros n _.
    ob_seq; [unfold when_; destruct (id <? n); ob_leaf|].
    ob_leaf. }
  cbn. auto.
Qed.
